(** * A hash-linked conversation log: the ledger, the confidence scorer,
      the knowledge query and the conversation recorder

    Shallow embedding of [grace-cli.py] and
    [integrated_nlp_blockchain_system.py].

    - A Python value is a [pyval]; the fields of a [Block] are [pyval]s,
      as nothing in the sources checks their annotated types.
    - A Python [str] is a [string], one character per code point, for
      code points 0..255; [lower], [isspace], [repr] and UTF-8 encoding
      are those of Python on that range.
    - A Python [float] is an IEEE binary64 number ([spec_float] at
      precision 53), with the correctly rounded operations of CPython.
    - [hashlib.sha256] is SHA-256 itself, so hashes are the ones the
      program computes.
    - [datetime.now().isoformat()] is an argument [now] of each
      operation that reads the clock.
    - The file [hopper/blockchain.json] is the JSON document it holds;
      writing it always succeeds.
    - An exception is a [Raise] result. *)

From Stdlib Require Import ZArith List Bool Ascii String Lia.
From Stdlib Require Import Floats.SpecFloat.
Import ListNotations.

Local Open Scope string_scope.
Local Open Scope Z_scope.

(* ================================================================= *)
(** ** Python [str] operations used by the sources *)

Module PyStr.

Definition code (c : ascii) : Z := Z.of_N (N_of_ascii c).
Definition chr (z : Z) : ascii := ascii_of_N (Z.to_N z).

Definition in_range (lo hi : Z) (c : ascii) : bool :=
  (lo <=? code c) && (code c <=? hi).

Definition isdigit (c : ascii) : bool := in_range 48 57 c.

(** [str.isspace] on one character, for code points below 256. *)
Definition isspace (c : ascii) : bool :=
  in_range 9 13 c || in_range 28 32 c
  || (code c =? 133) || (code c =? 160).

(** [str.lower] on one character, for code points below 256: the
    letters A-Z and the Latin-1 capitals (all of 192..222 but the
    multiplication sign 215) move up by 32. *)
Definition lower_char (c : ascii) : ascii :=
  if in_range 65 90 c || (in_range 192 222 c && negb (code c =? 215))
  then chr (code c + 32) else c.

Fixpoint lower (s : string) : string :=
  match s with
  | EmptyString => EmptyString
  | String c r => String (lower_char c) (lower r)
  end.

(** [s.startswith(p)]. *)
Fixpoint startswith (p s : string) : bool :=
  match p, s with
  | EmptyString, _ => true
  | String a p', String b s' => Ascii.eqb a b && startswith p' s'
  | String _ _, EmptyString => false
  end.

(** [p in s]: [p] occurs in [s] as a substring. *)
Fixpoint contains (p s : string) : bool :=
  startswith p s ||
  match s with
  | EmptyString => false
  | String _ s' => contains p s'
  end.

(** [len(s.split())]: the number of maximal runs of non-space
    characters.  [inword] tells whether the previous character
    belonged to a word. *)
Fixpoint count_words (inword : bool) (s : string) : nat :=
  match s with
  | EmptyString => 0%nat
  | String c r =>
      if isspace c then count_words false r
      else if inword then count_words true r
           else S (count_words true r)
  end.

(** [s.lstrip()], [s.rstrip()] and [s.strip()]. *)
Fixpoint lstrip (s : string) : string :=
  match s with
  | String c r => if isspace c then lstrip r else s
  | EmptyString => EmptyString
  end.

Fixpoint rstrip (s : string) : string :=
  match s with
  | EmptyString => EmptyString
  | String c r =>
      match rstrip r with
      | EmptyString => if isspace c then EmptyString else String c EmptyString
      | r' => String c r'
      end
  end.

Definition strip (s : string) : string := rstrip (lstrip s).

(** [s.replace(c, by)] for a one-character pattern. *)
Fixpoint replace_char (c : ascii) (by_ : string) (s : string) : string :=
  match s with
  | EmptyString => EmptyString
  | String d r =>
      if Ascii.eqb c d then by_ ++ replace_char c by_ r
      else String d (replace_char c by_ r)
  end.

(** [s[:n]]. *)
Fixpoint take (n : nat) (s : string) : string :=
  match n, s with
  | S n', String c r => String c (take n' r)
  | _, _ => EmptyString
  end.

Fixpoint drop (n : nat) (s : string) : string :=
  match n, s with
  | S n', String _ r => drop n' r
  | _, _ => s
  end.

(** Decimal rendering of a natural number and of an integer
    ([str(n)] for a Python [int]). *)
Fixpoint digits_fuel (fuel : nat) (n : Z) (acc : string) : string :=
  match fuel with
  | O => acc
  | S f =>
      let acc' := String (chr (48 + n mod 10)) acc in
      if n / 10 =? 0 then acc' else digits_fuel f (n / 10) acc'
  end.

Definition str_nonneg (n : Z) : string :=
  digits_fuel (S (Z.to_nat (Z.log2 n))) n EmptyString.

Definition str_int (n : Z) : string :=
  if n <? 0 then String "-" (str_nonneg (- n)) else str_nonneg n.

(** The value of a string of decimal digits. *)
Fixpoint digits_value (acc : Z) (s : string) : Z :=
  match s with
  | EmptyString => acc
  | String c r => digits_value (10 * acc + (code c - 48)) r
  end.

Fixpoint all_digits (s : string) : bool :=
  match s with
  | EmptyString => true
  | String c r => isdigit c && all_digits r
  end.

Definition hex_digit (n : Z) : ascii :=
  if n <? 10 then chr (48 + n) else chr (87 + n).

(** [n] as [k] lower-case hexadecimal digits, most significant first. *)
Fixpoint hex_fixed (k : nat) (n : Z) : string :=
  match k with
  | O => EmptyString
  | S k' => hex_fixed k' (n / 16) ++ String (hex_digit (n mod 16)) EmptyString
  end.

(** [s.encode()]: UTF-8, for code points below 256. *)
Fixpoint encode (s : string) : list Z :=
  match s with
  | EmptyString => []
  | String c r =>
      let n := code c in
      if n <? 128 then n :: encode r
      else Z.lor 192 (Z.shiftr n 6) :: Z.lor 128 (Z.land n 63) :: encode r
  end.

End PyStr.

(* ================================================================= *)
(** ** [hashlib.sha256]: SHA-256 (FIPS 180-4) on 32-bit words held in [Z] *)

Module Sha256.

Definition mask32 (x : Z) : Z := x mod 2 ^ 32.
Definition add32 (x y : Z) : Z := mask32 (x + y).
Definition rotr (n x : Z) : Z :=
  Z.lor (Z.shiftr x n) (mask32 (Z.shiftl x (32 - n))).

Definition ch (x y z : Z) : Z :=
  Z.lxor (Z.land x y) (Z.land (Z.lxor x (2 ^ 32 - 1)) z).
Definition maj (x y z : Z) : Z :=
  Z.lxor (Z.lxor (Z.land x y) (Z.land x z)) (Z.land y z).
Definition bsig0 (x : Z) : Z := Z.lxor (Z.lxor (rotr 2 x) (rotr 13 x)) (rotr 22 x).
Definition bsig1 (x : Z) : Z := Z.lxor (Z.lxor (rotr 6 x) (rotr 11 x)) (rotr 25 x).
Definition ssig0 (x : Z) : Z := Z.lxor (Z.lxor (rotr 7 x) (rotr 18 x)) (Z.shiftr x 3).
Definition ssig1 (x : Z) : Z := Z.lxor (Z.lxor (rotr 17 x) (rotr 19 x)) (Z.shiftr x 10).

(** The round constants are the first 32 bits of the fractional parts
    of the cube roots of the first 64 primes, the initial state those
    of the square roots of the first 8 primes. *)
Definition is_prime (p : Z) : bool :=
  forallb (fun d => negb (p mod d =? 0) || (p <=? d))
          (map Z.of_nat (seq 2 16)).

Definition primes64 : list Z :=
  filter is_prime (map Z.of_nat (seq 2 310)).

(** Integer cube root by bisection on the bits, from bit [k-1] down. *)
Fixpoint icbrt (k : nat) (n r : Z) : Z :=
  match k with
  | O => r
  | S k' =>
      let r' := r + 2 ^ Z.of_nat k' in
      icbrt k' n (if r' * r' * r' <=? n then r' else r)
  end.

Definition Kconst : list Z :=
  Eval vm_compute in
    map (fun p => mask32 (icbrt 36 (p * 2 ^ 96) 0)) primes64.

Definition H0 : list Z :=
  Eval vm_compute in
    map (fun p => mask32 (Z.sqrt (p * 2 ^ 64))) (firstn 8 primes64).

(** Padding: a 1 bit, zeros, and the bit length on 64 bits, to a
    multiple of 64 bytes. *)
Fixpoint be_bytes (k : nat) (n : Z) : list Z :=
  match k with
  | O => []
  | S k' => (be_bytes k' (n / 256) ++ [n mod 256])%list
  end.

Definition pad (msg : list Z) : list Z :=
  let l := Z.of_nat (List.length msg) in
  let z := (55 - l) mod 64 in
  (msg ++ [128] ++ repeat 0 (Z.to_nat z) ++ be_bytes 8 (8 * l))%list.

Fixpoint words (k : nat) (bs : list Z) : list Z :=
  match k, bs with
  | S k', a :: b :: c :: d :: r =>
      (((a * 256 + b) * 256 + c) * 256 + d) :: words k' r
  | _, _ => []
  end.

(** Message schedule: [w] holds the words computed so far, latest
    first, so [W(t-2)], [W(t-7)], [W(t-15)], [W(t-16)] are at
    positions 1, 6, 14, 15. *)
Fixpoint schedule (k : nat) (w : list Z) : list Z :=
  match k with
  | O => w
  | S k' =>
      let x := add32 (add32 (ssig1 (nth 1 w 0)) (nth 6 w 0))
                     (add32 (ssig0 (nth 14 w 0)) (nth 15 w 0)) in
      schedule k' (x :: w)
  end.

Record state := St { sa : Z; sb : Z; sc : Z; sd : Z;
                     se : Z; sf : Z; sg : Z; sh : Z }.

Definition round (s : state) (kw : Z * Z) : state :=
  let t1 := add32 (add32 (add32 (sh s) (bsig1 (se s)))
                         (add32 (ch (se s) (sf s) (sg s)) (fst kw))) (snd kw) in
  let t2 := add32 (bsig0 (sa s)) (maj (sa s) (sb s) (sc s)) in
  St (add32 t1 t2) (sa s) (sb s) (sc s) (add32 (sd s) t1) (se s) (sf s) (sg s).

Definition compress (s : state) (block : list Z) : state :=
  let w := rev (schedule 48 (rev (words 16 block))) in
  let r := fold_left round (combine Kconst w) s in
  St (add32 (sa s) (sa r)) (add32 (sb s) (sb r)) (add32 (sc s) (sc r))
     (add32 (sd s) (sd r)) (add32 (se s) (se r)) (add32 (sf s) (sf r))
     (add32 (sg s) (sg r)) (add32 (sh s) (sh r)).

Fixpoint blocks (k : nat) (s : state) (bs : list Z) : state :=
  match k with
  | O => s
  | S k' => blocks k' (compress s (firstn 64 bs)) (skipn 64 bs)
  end.

Definition init : state :=
  St (nth 0 H0 0) (nth 1 H0 0) (nth 2 H0 0) (nth 3 H0 0)
     (nth 4 H0 0) (nth 5 H0 0) (nth 6 H0 0) (nth 7 H0 0).

Definition digest_words (msg : list Z) : list Z :=
  let p := pad msg in
  let s := blocks (List.length p / 64) init p in
  [sa s; sb s; sc s; sd s; se s; sf s; sg s; sh s].

(** [hashlib.sha256(s.encode()).hexdigest()]. *)
Definition hexdigest (s : string) : string :=
  fold_right (fun w acc => PyStr.hex_fixed 8 w ++ acc) EmptyString
             (digest_words (PyStr.encode s)).

End Sha256.

(* ================================================================= *)
(** ** Python [float]: IEEE binary64 with round-to-nearest-even *)

Module PyFloat.

Definition prec : Z := 53.
Definition emax : Z := 1024.

Definition float : Type := spec_float.

Definition fadd : float -> float -> float := SFadd prec emax.
Definition fmul : float -> float -> float := SFmul prec emax.
Definition fdiv : float -> float -> float := SFdiv prec emax.
Definition flt : float -> float -> bool := SFltb.
Definition feqb : float -> float -> bool := SFeqb.

(** [float(n)] for a Python [int]. *)
Definition of_int (n : Z) : float := binary_normalize prec emax n 0 false.

(** The binary64 number nearest to [n / d], for [n >= 0] and [d > 0]:
    the division is carried out on the integers themselves and
    rounded once. *)
Definition of_ratio (n d : Z) : float :=
  if n <=? 0 then S754_zero false
  else fdiv (S754_finite false (Z.to_pos n) 0) (S754_finite false (Z.to_pos d) 0).

(** [a / b] for Python [int]s [a >= 0] and [b > 0] (true division). *)
Definition int_truediv (a b : Z) : float := of_ratio a b.

(** [float(s)] for a decimal literal [digits.digits], the only shape
    the score pattern lets through; [None] for any other string. *)
Fixpoint split_dot (s : string) : option (string * string) :=
  match s with
  | EmptyString => None
  | String c r =>
      if Ascii.eqb c "." then Some (EmptyString, r)
      else match split_dot r with
           | Some (a, b) => Some (String c a, b)
           | None => None
           end
  end.

Definition of_str (s : string) : option float :=
  match split_dot s with
  | Some (ip, fp) =>
      if PyStr.all_digits ip && PyStr.all_digits fp
         && negb (String.length ip =? 0)%nat && negb (String.length fp =? 0)%nat
      then Some (of_ratio (PyStr.digits_value 0 (ip ++ fp)%string)
                          (10 ^ Z.of_nat (String.length fp)))
      else None
  | None => None
  end.

(** A float literal of the sources, written [n / 10^k]. *)
Definition lit (n : Z) (k : Z) : float := of_ratio n (10 ^ k).

(** [min(a, b)]: the first argument unless the second is smaller. *)
Definition min (a b : float) : float := if flt b a then b else a.

(** [x * b] for a [bool] [b], which Python converts to 1.0 or 0.0. *)
Definition of_bool (b : bool) : float := of_int (if b then 1 else 0).

(** *** [repr(x)]: the shortest decimal string that reads back as [x] *)

(** The decimal [n * 10^k] read as a float. *)
Definition of_decimal (n k : Z) : float :=
  if 0 <=? k then of_int (n * 10 ^ k) else of_ratio n (10 ^ (- k)).

(** [x] as a fraction [(a, b)] for a positive finite [x = m * 2^e]. *)
Definition as_fraction (m : positive) (e : Z) : Z * Z :=
  if 0 <=? e then (Zpos m * 2 ^ e, 1) else (Zpos m, 2 ^ (- e)).

(** The position of the decimal point: the [p] with
    [10^(p-1) <= a/b < 10^p], searched upwards from [lo]. *)
Fixpoint decpt_from (fuel : nat) (p a b : Z) : Z :=
  match fuel with
  | O => p
  | S f =>
      let below := if 0 <=? p then a <? b * 10 ^ p
                   else a * 10 ^ (- p) <? b in
      if below then p else decpt_from f (p + 1) a b
  end.

Definition decpt (a b : Z) : Z := decpt_from 700 (-330) a b.

(** The [nd]-digit decimals just below and above [a/b], as integers
    to be scaled by [10^(p-nd)]. *)
Definition floor_scaled (a b p nd : Z) : Z :=
  let k := p - nd in
  if 0 <=? k then a / (b * 10 ^ k) else (a * 10 ^ (- k)) / b.

(** Twice the distance from [c * 10^(p-nd)] to [a/b], over a common
    positive denominator. *)
Definition dist_scaled (a b p nd c : Z) : Z :=
  let k := p - nd in
  if 0 <=? k then Z.abs (c * b * 10 ^ k - a)
  else Z.abs (c * b - a * 10 ^ (- k)).

Definition reads_back (x : float) (c k : Z) : bool :=
  match of_decimal c k, x with
  | S754_finite _ m1 e1, S754_finite _ m2 e2 => Pos.eqb m1 m2 && (e1 =? e2)
  | _, _ => false
  end.

(** The shortest digits: the first length [nd] at which one of the
    two neighbours reads back as [x]; of two that do, the nearer. *)
Fixpoint shortest_from (fuel : nat) (nd : Z) (x : float) (a b p : Z) : Z * Z :=
  let lo := floor_scaled a b p nd in
  let hi := lo + 1 in
  let oklo := reads_back x lo (p - nd) in
  let okhi := reads_back x hi (p - nd) in
  let pick :=
    if oklo && okhi
    then Some (if dist_scaled a b p nd hi <? dist_scaled a b p nd lo then hi else lo)
    else if oklo then Some lo else if okhi then Some hi else None in
  match pick, fuel with
  | Some c, _ => (c, nd)
  | None, O => (lo, nd)
  | None, S f => shortest_from f (nd + 1) x a b p
  end.

(** [(digits, decpt)] of a positive finite float. *)
Definition shortest (m : positive) (e : Z) : string * Z :=
  let x := S754_finite false m e in
  let '(a, b) := as_fraction m e in
  let p := decpt a b in
  let '(c, nd) := shortest_from 17 1 x a b p in
  if c =? 10 ^ nd then ("1", p + 1) else (PyStr.str_nonneg c, p).

Definition zeros (n : Z) : string :=
  fold_right (fun _ acc => String "0" acc) EmptyString (repeat tt (Z.to_nat n)).

Definition exp_suffix (ex : Z) : string :=
  let a := PyStr.str_nonneg (Z.abs ex) in
  let sign := if ex <? 0 then "e-" else "e+" in
  let fill := if Z.abs ex <? 10 then "0" else "" in
  (sign ++ fill ++ a)%string.

Definition render (ds : string) (p : Z) : string :=
  let nd := Z.of_nat (String.length ds) in
  if (p <=? -4) || (16 <? p) then
    let frac := if nd =? 1 then "" else String "." (PyStr.drop 1 ds) in
    (PyStr.take 1 ds ++ frac ++ exp_suffix (p - 1))%string
  else if p <=? 0 then String.append "0." (String.append (zeros (- p)) ds)
  else if nd <=? p then String.append ds (String.append (zeros (p - nd)) ".0")
  else (PyStr.take (Z.to_nat p) ds ++ "." ++ PyStr.drop (Z.to_nat p) ds)%string.

Definition repr (x : float) : string :=
  match x with
  | S754_zero s => if s then "-0.0" else "0.0"
  | S754_infinity s => if s then "-inf" else "inf"
  | S754_nan => "nan"
  | S754_finite s m e =>
      let '(ds, p) := shortest m e in
      ((if s then "-" else "") ++ render ds p)%string
  end.

(** *** [f"{x:.2f}"]: [x] rounded to two decimals, ties to even *)

Definition round_half_even (a b : Z) : Z :=
  let q := a / b in
  let r := a mod b in
  match 2 * r ?= b with
  | Lt => q
  | Gt => q + 1
  | Eq => if Z.even q then q else q + 1
  end.

Definition format_2f (x : float) : string :=
  match x with
  | S754_zero s => if s then "-0.00" else "0.00"
  | S754_infinity s => if s then "-inf" else "inf"
  | S754_nan => "nan"
  | S754_finite s m e =>
      let '(a, b) := as_fraction m e in
      let q := round_half_even (100 * a) b in
      let frac := PyStr.str_nonneg (q mod 100) in
      let fill := if q mod 100 <? 10 then "0" else "" in
      ((if s then "-" else "") ++ PyStr.str_nonneg (q / 100) ++ "."
         ++ fill ++ frac)%string
  end.

End PyFloat.

(* ================================================================= *)
(** ** Python values, [repr], [str] and [json.dumps] *)

#[local] Set Warnings "-register-all".

(** The values a payload or a JSON document is made of.  A [dict] keeps
    its insertion order: an association list whose keys are distinct. *)
Inductive pyval : Type :=
| PNone
| PBool (b : bool)
| PInt (n : Z)
| PFloat (x : PyFloat.float)
| PStr (s : string)
| PList (l : list pyval)
| PDict (kvs : list (string * pyval)).

(** Exceptions the modelled code can raise. *)
Inductive exn : Type :=
| KeyError (key : string)
| TypeError
| IndexError
| ValueError
| JSONDecodeError.

Inductive result (A : Type) : Type :=
| Ok (a : A)
| Raise (e : exn).
Arguments Ok {A} a.
Arguments Raise {A} e.

Definition bind {A B : Type} (m : result A) (f : A -> result B) : result B :=
  match m with
  | Ok a => f a
  | Raise e => Raise e
  end.

Notation "x <- m ;; k" := (bind m (fun x => k))
  (at level 61, m at next level, right associativity).

(** [[f(x) for x in l]]: the first exception, in list order, ends the
    comprehension. *)
Fixpoint mapM {A B : Type} (f : A -> result B) (l : list A) : result (list B) :=
  match l with
  | [] => Ok []
  | x :: r => y <- f x ;; ys <- mapM f r ;; Ok (y :: ys)
  end.

Module Py.

Definition join (sep : string) (l : list string) : string :=
  match l with
  | [] => EmptyString
  | x :: r => fold_left (fun acc y => (acc ++ sep ++ y)%string) r x
  end.

(** *** [repr] of a [str] *)

Definition printable (c : ascii) : bool :=
  PyStr.in_range 32 126 c
  || (PyStr.in_range 161 255 c && negb (PyStr.code c =? 173)).

Definition repr_char (quote : ascii) (c : ascii) : string :=
  if Ascii.eqb c quote || Ascii.eqb c "\" then String "\" (String c EmptyString)
  else if PyStr.code c =? 9 then "\t"
  else if PyStr.code c =? 10 then "\n"
  else if PyStr.code c =? 13 then "\r"
  else if printable c then String c EmptyString
  else String.append "\x" (PyStr.hex_fixed 2 (PyStr.code c)).

Fixpoint escape_with (f : ascii -> string) (s : string) : string :=
  match s with
  | EmptyString => EmptyString
  | String c r => (f c ++ escape_with f r)%string
  end.

(** Single quotes, unless the string holds one and no double quote. *)
Definition repr_str (s : string) : string :=
  let q : ascii :=
    if PyStr.contains "'" s && negb (PyStr.contains (String (PyStr.chr 34) EmptyString) s)
    then PyStr.chr 34 else "'"%char in
  String q (escape_with (repr_char q) s ++ String q EmptyString).

Fixpoint repr (v : pyval) : string :=
  match v with
  | PNone => "None"
  | PBool b => if b then "True" else "False"
  | PInt n => PyStr.str_int n
  | PFloat x => PyFloat.repr x
  | PStr s => repr_str s
  | PList l => String.append "[" (String.append (join ", " (map repr l)) "]")
  | PDict kvs =>
      String.append "{"
        (String.append
           (join ", " (map (fun kv => (repr_str (fst kv) ++ ": " ++ repr (snd kv))%string) kvs))
           "}")
  end.

(** [str(v)], which is also what an f-string field [{v}] inserts. *)
Definition str (v : pyval) : string :=
  match v with
  | PStr s => s
  | _ => repr v
  end.

(** *** [json.dumps] with its defaults ([ensure_ascii], [", "], [": "]) *)

Definition json_char (c : ascii) : string :=
  let n := PyStr.code c in
  if n =? 34 then String "\" (String c EmptyString)
  else if n =? 92 then "\\"
  else if n =? 10 then "\n"
  else if n =? 13 then "\r"
  else if n =? 9 then "\t"
  else if n =? 8 then "\b"
  else if n =? 12 then "\f"
  else if PyStr.in_range 32 126 c then String c EmptyString
  else String.append "\u" (PyStr.hex_fixed 4 n).

Definition json_str (s : string) : string :=
  String (PyStr.chr 34) (escape_with json_char s ++ String (PyStr.chr 34) EmptyString).

Definition json_float (x : PyFloat.float) : string :=
  match x with
  | S754_nan => "NaN"
  | S754_infinity s => if s then "-Infinity" else "Infinity"
  | _ => PyFloat.repr x
  end.

Fixpoint json_dumps (v : pyval) : string :=
  match v with
  | PNone => "null"
  | PBool b => if b then "true" else "false"
  | PInt n => PyStr.str_int n
  | PFloat x => json_float x
  | PStr s => json_str s
  | PList l => String.append "[" (String.append (join ", " (map json_dumps l)) "]")
  | PDict kvs =>
      String.append "{"
        (String.append
           (join ", " (map (fun kv => (json_str (fst kv) ++ ": " ++ json_dumps (snd kv))%string) kvs))
           "}")
  end.

(** *** Subscripting and iteration *)

Fixpoint assoc (k : string) (kvs : list (string * pyval)) : option pyval :=
  match kvs with
  | [] => None
  | (k', v) :: r => if String.eqb k k' then Some v else assoc k r
  end.

(** [b[k]] for a string key [k]: only a [dict] can be subscripted by
    a string. *)
Definition getitem (b : pyval) (k : string) : result pyval :=
  match b with
  | PDict kvs =>
      match assoc k kvs with
      | Some v => Ok v
      | None => Raise (KeyError k)
      end
  | _ => Raise TypeError
  end.

Fixpoint chars (s : string) : list pyval :=
  match s with
  | EmptyString => []
  | String c r => PStr (String c EmptyString) :: chars r
  end.

(** [for b in v]: the elements of a list, the keys of a dict, the
    characters of a string. *)
Definition iter (v : pyval) : result (list pyval) :=
  match v with
  | PList l => Ok l
  | PDict kvs => Ok (map (fun kv => PStr (fst kv)) kvs)
  | PStr s => Ok (chars s)
  | _ => Raise TypeError
  end.

End Py.

(* ================================================================= *)
(** ** [class Block] (the same in both files) *)

Record Block : Type := mkBlock {
  index : pyval;
  timestamp : pyval;
  data : pyval;
  previous_hash : pyval;
  hash : string
}.

(** [f"{index}{timestamp}{data}{previous_hash}"]. *)
Definition hash_string (i t d p : pyval) : string :=
  (Py.str i ++ Py.str t ++ Py.str d ++ Py.str p)%string.

Definition calculate_hash (self : Block) : string :=
  Sha256.hexdigest
    (hash_string (index self) (timestamp self) (data self) (previous_hash self)).

(** [Block.__init__]: the four fields are stored, then [hash] is set
    from them. *)
Definition Block_init (i t d p : pyval) : Block :=
  let self := mkBlock i t d p EmptyString in
  mkBlock i t d p (calculate_hash self).

Definition to_dict (self : Block) : pyval :=
  PDict [("index", index self);
         ("timestamp", timestamp self);
         ("data", data self);
         ("previous_hash", previous_hash self);
         ("hash", PStr (hash self))].

(** [len(chain)] as a Python [int]. *)
Definition len {A : Type} (l : list A) : Z := Z.of_nat (List.length l).

(** [create_genesis_block]; [now] is [datetime.now().isoformat()]. *)
Definition create_genesis_block (now : string) : Block :=
  Block_init (PInt 0) (PStr now) (PDict [("data", PStr "Genesis Block")]) (PStr "0").

(** [chain[-1]]. *)
Fixpoint get_latest_block (chain : list Block) : result Block :=
  match chain with
  | [] => Raise IndexError
  | [b] => Ok b
  | _ :: r => get_latest_block r
  end.

(** The body both [add_block]s share, up to [self.chain.append]. *)
Definition append_block (chain : list Block) (now : string) (payload : pyval)
  : result (list Block) :=
  let i := len chain in
  let ts := now in
  latest <- get_latest_block chain ;;
  let new_block := Block_init (PInt i) (PStr ts) payload (PStr (hash latest)) in
  Ok (chain ++ [new_block])%list.

(* ================================================================= *)
(** ** [integrated_nlp_blockchain_system.py]: the in-memory chain *)

Module Integrated.

(** [Blockchain.__init__]. *)
Definition Blockchain_init (now : string) : list Block :=
  [create_genesis_block now].

Definition add_block (chain : list Block) (now : string) (payload : pyval)
  : result (list Block) :=
  append_block chain now payload.

(** [query_knowledge]: the loop over [self.chain[1:]], with
    [results.append]. *)
Definition query_knowledge (chain : list Block) (query : string) : list pyval :=
  fold_left
    (fun results block =>
       if PyStr.contains (PyStr.lower query) (PyStr.lower (Py.str (data block)))
       then (results ++ [data block])%list else results)
    (tl chain) [].

End Integrated.

(* ================================================================= *)
(** ** [re]: a backtracking matcher for the constructs the sources use *)

Module Re.

(** Literal characters, greedy [c+] and lazy [c*?] over a character
    class, sequencing and capturing groups. *)
Inductive regex : Type :=
| Eps
| Chr (c : ascii)
| PlusGreedy (cls : ascii -> bool)
| StarLazy (cls : ascii -> bool)
| Seq (a b : regex)
| Group (a : regex).

(** The text a group consumed: what [s] has in front of [rest]. *)
Definition consumed (s rest : string) : string :=
  PyStr.take (String.length s - String.length rest) s.

(** [greedy_plus cls k s]: one or more characters of the class, the
    longest run first, giving back one character at a time while the
    continuation [k] fails. *)
Fixpoint greedy_plus (cls : ascii -> bool) (k : string -> option (list string))
         (s : string) : option (list string) :=
  match s with
  | EmptyString => None
  | String c r =>
      if cls c then
        match greedy_plus cls k r with
        | Some g => Some g
        | None => k r
        end
      else None
  end.

(** [lazy_star cls k s]: zero or more characters of the class, the
    shortest run first, taking one more while [k] fails. *)
Fixpoint lazy_star (cls : ascii -> bool) (k : string -> option (list string))
         (s : string) : option (list string) :=
  match k s with
  | Some g => Some g
  | None =>
      match s with
      | EmptyString => None
      | String c r => if cls c then lazy_star cls k r else None
      end
  end.

(** [matches r s k]: match [r] at the head of [s] and hand the rest
    to [k]; the result lists the groups' texts in pattern order. *)
Fixpoint matches (r : regex) (s : string) (k : string -> option (list string))
  : option (list string) :=
  match r with
  | Eps => k s
  | Chr c =>
      match s with
      | String d rest => if Ascii.eqb c d then k rest else None
      | EmptyString => None
      end
  | PlusGreedy cls => greedy_plus cls k s
  | StarLazy cls => lazy_star cls k s
  | Seq a b => matches a s (fun s' => matches b s' k)
  | Group a =>
      matches a s (fun s' =>
        match k s' with
        | Some g => Some (consumed s s' :: g)
        | None => None
        end)
  end.

(** [re.search(r, s).groups()]: the leftmost start at which [r]
    matches; [None] when there is none. *)
Fixpoint search (r : regex) (s : string) : option (list string) :=
  match matches r s (fun _ => Some []) with
  | Some g => Some g
  | None =>
      match s with
      | EmptyString => None
      | String _ rest => search r rest
      end
  end.

Fixpoint lit (s : string) : regex :=
  match s with
  | EmptyString => Eps
  | String c r => Seq (Chr c) (lit r)
  end.

(** [\d] and, under [re.DOTALL], [.]. *)
Definition digit : ascii -> bool := PyStr.isdigit.
Definition dot : ascii -> bool := fun _ => true.

(** [re.split(marker, s, flags=re.IGNORECASE)[0]] for a literal
    [marker]: what precedes its first occurrence, letter case
    ignored; all of [s] when there is none. *)
Fixpoint split_head_ignorecase (marker s : string) : string :=
  if PyStr.startswith (PyStr.lower marker) (PyStr.lower s) then EmptyString
  else match s with
       | EmptyString => EmptyString
       | String c r => String c (split_head_ignorecase marker r)
       end.

End Re.

(* ================================================================= *)
(** ** [grace-cli.py]: the persisted chain, the scorer and the recorder *)

Module GraceCli.

(** What [hopper/blockchain.json] holds: a JSON document, or text
    that [json.load] rejects.  The file is absent when the storage is
    [None].  [json.dump] followed by [json.load] gives back the
    document written: payloads are made of [pyval]s, whose keys are
    strings and whose floats are printed by [repr]. *)
Inductive file_content : Type :=
| Json (doc : pyval)
| NotJson.

Definition storage : Type := option file_content.

(** [save_chain]: the whole chain is rewritten. *)
Definition save_chain (chain : list Block) : storage :=
  Some (Json (PList (map to_dict chain))).

(** [load_chain]. *)
Definition load_block (b : pyval) : result Block :=
  i <- Py.getitem b "index" ;;
  t <- Py.getitem b "timestamp" ;;
  d <- Py.getitem b "data" ;;
  p <- Py.getitem b "previous_hash" ;;
  Ok (Block_init i t d p).

Definition load_chain (st : storage) : result (list Block) :=
  match st with
  | None => Ok []
  | Some NotJson => Raise JSONDecodeError
  | Some (Json doc) => bs <- Py.iter doc ;; mapM load_block bs
  end.

(** [Blockchain.__init__]: the chain and the storage it leaves. *)
Definition Blockchain_init (now : string) (st : storage)
  : result (list Block * storage) :=
  chain <- load_chain st ;;
  match chain with
  | [] =>
      let chain' := [create_genesis_block now] in
      Ok (chain', save_chain chain')
  | _ :: _ => Ok (chain, st)
  end.

Definition add_block (chain : list Block) (now : string) (payload : pyval)
  : result (list Block * storage) :=
  chain' <- append_block chain now payload ;;
  Ok (chain', save_chain chain').

(** [class GenAIConfidenceAssessment]. *)
Record GenAIConfidenceAssessment : Type := mkAssessment {
  reliability : PyFloat.float;
  performance : PyFloat.float;
  context_coherence : PyFloat.float
}.

Definition calculate_overall_confidence (self : GenAIConfidenceAssessment)
  : PyFloat.float :=
  PyFloat.fdiv
    (PyFloat.fadd (PyFloat.fadd (reliability self) (performance self))
                  (context_coherence self))
    (PyFloat.of_int 3).

Definition assessment_to_dict (self : GenAIConfidenceAssessment) : pyval :=
  PDict [("reliability", PFloat (reliability self));
         ("performance", PFloat (performance self));
         ("context_coherence", PFloat (context_coherence self));
         ("overall_confidence", PFloat (calculate_overall_confidence self))].

Record NLPResponse : Type := mkResponse {
  response_type : string;
  content : pyval;
  assessment : GenAIConfidenceAssessment
}.

Definition add_nlp_response (chain : list Block) (now : string)
           (response : NLPResponse) : result (list Block * storage) :=
  let payload :=
    PDict [("response_type", PStr (response_type response));
           ("content", content response);
           ("assessment", assessment_to_dict (assessment response))] in
  add_block chain now payload.

Definition query_knowledge (chain : list Block) (query : string) : list pyval :=
  fold_left
    (fun results block =>
       if PyStr.contains (PyStr.lower query)
                         (PyStr.lower (Py.json_dumps (data block)))
       then (results ++ [data block])%list else results)
    (tl chain) [].

(** [(0\.\d+)]. *)
Definition score : Re.regex :=
  Re.Group (Re.Seq (Re.Chr "0") (Re.Seq (Re.Chr ".") (Re.PlusGreedy Re.digit))).

(** [Reliability: (0\.\d+).*?Performance: (0\.\d+).*?Context Coherence: (0\.\d+)],
    compiled with [re.DOTALL]. *)
Definition pattern : Re.regex :=
  Re.Seq (Re.lit "Reliability: ")
 (Re.Seq score
 (Re.Seq (Re.StarLazy Re.dot)
 (Re.Seq (Re.lit "Performance: ")
 (Re.Seq score
 (Re.Seq (Re.StarLazy Re.dot)
 (Re.Seq (Re.lit "Context Coherence: ") score)))))).

Definition scores : Type := (PyFloat.float * PyFloat.float * PyFloat.float)%type.

Definition calculate_confidence_scores (text : string) : scores :=
  let word_count := Z.of_nat (PyStr.count_words false text) in
  let reliability := PyFloat.min (PyFloat.int_truediv word_count 1000) (PyFloat.lit 95 2) in
  let performance := PyFloat.lit 8 1 in
  let context_coherence :=
    PyFloat.fadd (PyFloat.lit 7 1)
      (PyFloat.fmul (PyFloat.lit 2 1)
         (PyFloat.of_bool (PyStr.contains "context" (PyStr.lower text)))) in
  (reliability, performance, context_coherence).

Definition to_float (s : string) : result PyFloat.float :=
  match PyFloat.of_str s with
  | Some x => Ok x
  | None => Raise ValueError
  end.

Definition extract_confidence_scores (text : string) : result scores :=
  match Re.search pattern text with
  | Some [g1; g2; g3] =>
      r <- to_float g1 ;; p <- to_float g2 ;; c <- to_float g3 ;; Ok (r, p, c)
  | Some _ => Raise ValueError
  | None => Ok (calculate_confidence_scores text)
  end.

(** The module-level [nlp_chain] with the file it writes. *)
Definition world : Type := (list Block * storage)%type.

Definition newline : string := String (PyStr.chr 10) EmptyString.

(** [process_grace_response]: the pair it returns and the world it
    leaves. *)
Definition process_grace_response (w : world) (now : string)
           (grace_response context : string)
  : result (string * string * world) :=
  if PyStr.contains "EXIT" grace_response then Ok ("exit", context, w)
  else
    sc <- extract_confidence_scores grace_response ;;
    let '(r, p, c) := sc in
    let assessment := mkAssessment r p c in
    let content :=
      PyStr.strip (Re.split_head_ignorecase "GenAI Confidence Assessment:" grace_response) in
    let formatted_content := PyStr.replace_char (PyStr.chr 10) "\n" content in
    let response := mkResponse "Conversation" (PStr formatted_content) assessment in
    w' <- add_nlp_response (fst w) now response ;;
    Ok (String.append "Response added to the blockchain. Overall confidence: "
          (PyFloat.format_2f (calculate_overall_confidence assessment)),
        (context ++ newline ++ "Added response: " ++ PyStr.take 100 content ++ "...")%string,
        w').

End GraceCli.

(* ================================================================= *)
(** ** Chains, runs of appends and the properties stated about them *)

(** A record whose [hash] is the digest of its own four fields. *)
Definition sealed (b : Block) : Prop :=
  hash b = Sha256.hexdigest
             (hash_string (index b) (timestamp b) (data b) (previous_hash b)).

(** The record at position [i+1] names the hash of the record at [i]. *)
Definition linked (chain : list Block) : Prop :=
  forall i p b,
    nth_error chain i = Some p ->
    nth_error chain (S i) = Some b ->
    previous_hash b = PStr (hash p).

(** The record at position [i] carries the index [i]. *)
Definition indexed (chain : list Block) : Prop :=
  forall i b, nth_error chain i = Some b -> index b = PInt (Z.of_nat i).

(** The invariant of a chain grown from a genesis record. *)
Record chain_inv (chain : list Block) : Prop := {
inv_nonempty : chain <> [];
inv_indexed : indexed chain;
inv_linked : linked chain;
inv_sealed : Forall sealed chain
}.

(** A run of [add_block] calls, one per [(now, payload)], in order. *)
Fixpoint add_blocks (chain : list Block) (inputs : list (string * pyval))
  : result (list Block) :=
  match inputs with
  | [] => Ok chain
  | (now, payload) :: rest =>
      chain' <- Integrated.add_block chain now payload ;;
      add_blocks chain' rest
  end.

Fixpoint add_blocks_saved (w : GraceCli.world) (inputs : list (string * pyval))
  : result GraceCli.world :=
  match inputs with
  | [] => Ok w
  | (now, payload) :: rest =>
      w' <- GraceCli.add_block (fst w) now payload ;;
      add_blocks_saved w' rest
  end.

(** The chains a [grace-cli.py] process can hold: the one its
    constructor builds from whatever the file holds, and those
    [add_block] makes of them. *)
Inductive reachable : list Block -> Prop :=
| reach_init now st chain st' :
    GraceCli.Blockchain_init now st = Ok (chain, st') ->
    reachable chain
| reach_add chain now payload chain' st' :
    reachable chain ->
    GraceCli.add_block chain now payload = Ok (chain', st') ->
    reachable chain'.

(** Two stored records that differ at most in what they bind to the
    key ["hash"]. *)
Definition same_but_hash (b b' : pyval) : Prop :=
  match b, b' with
  | PDict kvs, PDict kvs' =>
      forall k, k <> "hash" -> Py.assoc k kvs = Py.assoc k kvs'
  | _, _ => b = b'
  end.

(** Modelled from the spec: the test [verify] applies to a stored
    value that should be the string [s]; the sources have no [verify]. *)
Definition is_str (v : pyval) (s : string) : bool :=
  match v with
  | PStr s' => String.eqb s' s
  | _ => false
  end.

(** Modelled from the spec: the check [verify] makes at one position,
    which neither [Blockchain] class of the sources defines.  Section
    4.1 has it recompute the record's hash from its stored fields and
    compare it with the stored hash, and compare the previous hash with
    the hash of the record before, when there is one. *)
Definition record_ok (prev : option Block) (b : Block) : bool :=
  String.eqb (hash b) (calculate_hash b)
  && match prev with
     | None => true
     | Some p => is_str (previous_hash b) (hash p)
     end.

(** Modelled from the spec: the scan of [verify] (absent from the
    sources), position by position from [i], stopping at the first
    record that fails [record_ok] and reporting its position. *)
Fixpoint first_bad_from (i : nat) (prev : option Block) (chain : list Block)
  : option nat :=
  match chain with
  | [] => None
  | b :: rest =>
      if record_ok prev b then first_bad_from (S i) (Some b) rest else Some i
  end.

(** Modelled from the spec: the index of the first bad record, the
    observable failure section 4.1 allows [verify] (absent from the
    sources) to report. *)
Definition first_bad (chain : list Block) : option nat :=
  first_bad_from 0 None chain.

(** Modelled from the spec: [verify() -> bool] of section 4.1, which
    neither [Blockchain] class of the sources defines: true when the
    scan finds no bad record, false at the first mismatch. *)
Definition verify (chain : list Block) : bool :=
  match first_bad chain with
  | None => true
  | Some _ => false
  end.

(** *** Stored records, blocks of scores and sample data *)

(** A stored record that binds the four keys the loader reads. *)
Definition has_fields (doc : pyval) (i t d p : pyval) : Prop :=
  Py.getitem doc "index" = Ok i /\
  Py.getitem doc "timestamp" = Ok t /\
  Py.getitem doc "data" = Ok d /\
  Py.getitem doc "previous_hash" = Ok p.

(** The in-memory record [b] is the stored record [doc] rebuilt from
    those four keys, with its hash computed afresh. *)
Definition rebuilt_from (doc : pyval) (b : Block) : Prop :=
  has_fields doc (index b) (timestamp b) (data b) (previous_hash b) /\ sealed b.

(** The record before position [length front], if there is one. *)
Definition before (prev : option Block) (front : list Block) : option Block :=
  match get_latest_block front with
  | Ok p => Some p
  | Raise _ => prev
  end.

(** The text holds a block with the three labels spelled as in the
    pattern, each followed by [0.] and the digits [e1], [e2], [e3]. *)
Definition explicit_block (text e1 e2 e3 : string) : Prop :=
  exists pre m1 m2 post,
    text = (pre ++ "Reliability: " ++ ("0." ++ e1) ++ m1
                ++ "Performance: " ++ ("0." ++ e2) ++ m2
                ++ "Context Coherence: " ++ ("0." ++ e3) ++ post)%string.

Definition digits (d : string) : Prop :=
  d <> EmptyString /\ PyStr.all_digits d = true.

(** The float a literal [0.d] denotes: [d / 10^len(d)], rounded once. *)
Definition fraction (d : string) : PyFloat.float :=
  PyFloat.of_ratio (PyStr.digits_value 0 d) (10 ^ Z.of_nat (String.length d)).

(** No digit comes next: a number written just before [rest] ends
    there. *)
Definition ends_number (rest : string) : Prop :=
  match rest with
  | EmptyString => True
  | String c _ => PyStr.isdigit c = false
  end.

(** [P a] holds of what is left of [s] after some [m], and [P] holds,
    with whatever argument, at no place of [s] before that one. *)
Definition first_where {A : Type} (P : A -> string -> Prop) (a : A) (s : string)
  : Prop :=
  exists m t,
    s = (m ++ t)%string /\ P a t /\
    forall m' t' a',
      s = (m' ++ t')%string ->
      (String.length m' < String.length m)%nat -> ~ P a' t'.

(** [t] starts with [Context Coherence: 0.] and the digits [e3], all
    of them. *)
Definition coherence_at (e3 : string) (t : string) : Prop :=
  exists post,
    t = ("Context Coherence: " ++ ("0." ++ e3) ++ post)%string /\
    digits e3 /\ ends_number post.

(** [t] starts with [Performance: 0.] and all the digits [e2], and
    the first place after them that starts a Context Coherence score
    has the digits [e3]. *)
Definition performance_at (e : string * string) (t : string) : Prop :=
  exists r,
    t = ("Performance: " ++ ("0." ++ fst e) ++ r)%string /\
    digits (fst e) /\ ends_number r /\
    first_where coherence_at (snd e) r.

(** [t] starts with [Reliability: 0.] and all the digits [e1], and
    the first place after them that starts a Performance score
    followed by a Context Coherence score has the digits [e2], [e3]. *)
Definition reliability_at (e : string * (string * string)) (t : string) : Prop :=
  exists r,
    t = ("Reliability: " ++ ("0." ++ fst e) ++ r)%string /\
    digits (fst e) /\ ends_number r /\
    first_where performance_at (snd e) r.

(** The first block of [text]: the leftmost place that starts a
    Reliability score followed, somewhere, by a Performance score and
    then a Context Coherence score; its Performance score is the
    nearest one that has a Context Coherence score after it, and its
    Context Coherence score the nearest one after that.  Each score is
    read to its last digit. *)
Definition first_block (text e1 e2 e3 : string) : Prop :=
  first_where reliability_at (e1, (e2, e3)) text.

(** The stored records are linked through their fields: each names,
    as previous hash, the digest of the four fields the loader reads
    from the record before it.  Stored ["hash"] entries play no part. *)
Definition stored_linked (docs : list pyval) : Prop :=
  forall i d d' ix t dat p,
    nth_error docs i = Some d ->
    nth_error docs (S i) = Some d' ->
    has_fields d ix t dat p ->
    Py.getitem d' "previous_hash"
    = Ok (PStr (Sha256.hexdigest (hash_string ix t dat p))).

(** A two-record file whose second record names a previous hash that
    is not the first record's, and whose stored hashes are forged. *)
Definition tampered_docs : list pyval :=
  [PDict [("index", PInt 0); ("timestamp", PStr "2024-01-01T00:00:00");
          ("data", PDict [("data", PStr "Genesis Block")]);
          ("previous_hash", PStr "0"); ("hash", PStr "forged")];
   PDict [("index", PInt 1); ("timestamp", PStr "2024-01-02T00:00:00");
          ("data", PDict [("note", PStr "tampered")]);
          ("previous_hash", PStr "not the hash of record 0");
          ("hash", PStr "forged")]].

Definition tampered_chain : list Block :=
  [Block_init (PInt 0) (PStr "2024-01-01T00:00:00")
              (PDict [("data", PStr "Genesis Block")]) (PStr "0");
   Block_init (PInt 1) (PStr "2024-01-02T00:00:00")
              (PDict [("note", PStr "tampered")])
              (PStr "not the hash of record 0")].

(** A chain built by the constructor on absent storage and one append. *)
Definition sample_chain : list Block :=
  Eval vm_compute in
    match (w <- GraceCli.Blockchain_init "2024-01-01T00:00:00" None ;;
           GraceCli.add_block (fst w) "2024-01-02T00:00:00"
             (PDict [("response_type", PStr "Conversation");
                     ("content", PStr "hello")]))
    with
    | Ok (chain, _) => chain
    | Raise _ => []
    end.

(** Five hundred one-letter words. *)
Definition five_hundred_words : string :=
  fold_right (fun _ acc => String "a" (String " " acc)) EmptyString
             (repeat tt 500).

(* ================================================================= *)
(** ** [integrated_nlp_blockchain_system.py]: criteria and responses *)

Module Evaluation.

(** One entry of [EvaluationCriteria.criteria]:
    [{"reason": ..., "confidence": ..., "boolean": ...}], with the types
    [update_criterion] annotates. *)
Record criterion : Type := mkCriterion {
  reason : string;
  confidence : PyFloat.float;
  boolean : bool
}.

(** [self.criteria]: a [dict] from criterion names to entries, in
    insertion order. *)
Definition criteria : Type := list (string * criterion).

Inductive error : Type :=
| InvalidCriterion (name : string)
| ZeroDivisionError
| ChainError (e : exn).

Definition blank : criterion := mkCriterion EmptyString (S754_zero false) false.

(** [EvaluationCriteria.__init__]. *)
Definition EvaluationCriteria_init : criteria :=
  [("Grammatically Complete", blank);
   ("Logically Consistent", blank);
   ("AI Inquiry", blank);
   ("Content Language", blank)].

Fixpoint lookup (name : string) (c : criteria) : option criterion :=
  match c with
  | [] => None
  | (k, v) :: rest => if String.eqb name k then Some v else lookup name rest
  end.

(** [d[name] = v] for a key the [dict] holds: the entry is replaced
    where it stands. *)
Fixpoint assign (name : string) (v : criterion) (c : criteria) : criteria :=
  match c with
  | [] => []
  | (k, old) :: rest =>
      if String.eqb name k then (k, v) :: rest else (k, old) :: assign name v rest
  end.

(** [update_criterion]: [ValueError] for a name that is not a key. *)
Definition update_criterion (self : criteria) (name reason : string)
           (confidence : PyFloat.float) (boolean_value : bool)
  : error + criteria :=
  match lookup name self with
  | Some _ => inr (assign name (mkCriterion reason confidence boolean_value) self)
  | None => inl (InvalidCriterion name)
  end.

(** [sum(...)]: the running total starts at the [int] 0. *)
Definition sum_confidence (self : criteria) : PyFloat.float :=
  fold_left (fun acc kv => PyFloat.fadd acc (confidence (snd kv))) self
            (PyFloat.of_int 0).

(** [calculate_overall_confidence]: the sum over the number of
    entries; with no entry it is the [int] division [0 / 0]. *)
Definition calculate_overall_confidence (self : criteria) : error + PyFloat.float :=
  match self with
  | [] => inl ZeroDivisionError
  | _ :: _ => inr (PyFloat.fdiv (sum_confidence self) (PyFloat.of_int (len self)))
  end.

Definition criterion_to_py (c : criterion) : pyval :=
  PDict [("reason", PStr (reason c));
         ("confidence", PFloat (confidence c));
         ("boolean", PBool (boolean c))].

Definition criteria_to_py (self : criteria) : pyval :=
  PDict (map (fun kv => (fst kv, criterion_to_py (snd kv))) self).

(** [class NLPResponse] and its three subclasses. *)
Record NLPResponse : Type := mkResponse {
  response_type : string;
  content : pyval;
  evaluation : criteria
}.

(** [key_points] is [None] or a list of strings. *)
Definition SummaryResponse (summary : string) (key_points : option (list string))
           (evaluation : criteria) : NLPResponse :=
  mkResponse "Summary"
    (PDict [("summary", PStr summary);
            ("key_points",
             match key_points with
             | None => PNone
             | Some l => PList (map PStr l)
             end)])
    evaluation.

Definition TranslationResponse (translated_text source_language target_language : string)
           (evaluation : criteria) : NLPResponse :=
  mkResponse "Translation"
    (PDict [("translated_text", PStr translated_text);
            ("source_language", PStr source_language);
            ("target_language", PStr target_language)])
    evaluation.

Definition SentimentResponse (sentiment : string) (score : PyFloat.float)
           (explanation : string) (evaluation : criteria) : NLPResponse :=
  mkResponse "Sentiment"
    (PDict [("sentiment", PStr sentiment);
            ("score", PFloat score);
            ("explanation", PStr explanation)])
    evaluation.

(** [NLPBlockchain.add_nlp_response]: the payload is built, the mean
    of the confidences last, then [add_block] is called.  The payload
    holds the criteria as they are at the call. *)
Definition payload_of (response : NLPResponse) : error + pyval :=
  match calculate_overall_confidence (evaluation response) with
  | inl e => inl e
  | inr overall =>
      inr (PDict [("response_type", PStr (response_type response));
                  ("content", content response);
                  ("evaluation", criteria_to_py (evaluation response));
                  ("overall_confidence", PFloat overall)])
  end.

Definition add_nlp_response (chain : list Block) (now : string)
           (response : NLPResponse) : error + list Block :=
  match payload_of response with
  | inl e => inl e
  | inr payload =>
      match Integrated.add_block chain now payload with
      | Ok chain' => inr chain'
      | Raise e => inl (ChainError e)
      end
  end.

(** A run of [update_criterion] calls; the first [ValueError] ends it. *)
Fixpoint update_all (self : criteria)
         (updates : list (string * string * PyFloat.float * bool))
  : error + criteria :=
  match updates with
  | [] => inr self
  | (name, why, conf, flag) :: rest =>
      match update_criterion self name why conf flag with
      | inl e => inl e
      | inr self' => update_all self' rest
      end
  end.

End Evaluation.

(* ================================================================= *)
(** ** [grace-cli.py]: the loop of [main] *)

Module Session.

(** How the loop ends: the reply held [EXIT], [input] found no more
    lines ([EOFError]), or [process_grace_response] raised. *)
Inductive ending : Type :=
| Exited
| OutOfInput
| Crashed (e : exn).

Record outcome : Type := mkOutcome {
  how : ending;
  ledger : GraceCli.world;
  context : string;
  printed : list string
}.

(** The loop of [main].  A turn is the reply the assistant gave to the
    line read (whatever the line and the context) and the time of the
    clock at that moment; [out] lists the arguments of the [print]
    calls made so far. *)
Fixpoint main_loop (w : GraceCli.world) (context : string)
         (turns : list (string * string)) (out : list string) : outcome :=
  match turns with
  | [] => mkOutcome OutOfInput w context out
  | (grace_response, now) :: rest =>
      let out1 :=
        (out ++ [("Grace Hopper AI: " ++ grace_response ++ GraceCli.newline)%string])%list in
      match GraceCli.process_grace_response w now grace_response context with
      | Raise e => mkOutcome (Crashed e) w context out1
      | Ok (result, context', w') =>
          let out2 :=
            (out1 ++ [("System: " ++ result ++ GraceCli.newline)%string])%list in
          if String.eqb result "exit"
          then mkOutcome Exited w' context'
                 (out2 ++ ["Exiting the program. Fair winds and following seas!"])%list
          else main_loop w' context' rest out2
      end
  end.

(** [main]: the banner, then the loop on the module's [nlp_chain] with
    an empty context. *)
Definition banner : list string :=
  [String (PyStr.chr 27) ("[2J" ++ String (PyStr.chr 27) "[H");
   ("> LOAD " ++ String (PyStr.chr 34) ("GRACE HOPPER GenAI CLI"
       ++ String (PyStr.chr 34) ",8,1"))%string;
   ("==== Grace Hopper GenAI Confidence Assessment CLI ====" ++ GraceCli.newline)%string;
   "Welcome to the Grace Hopper GenAI Confidence Assessment CLI.";
   "This system is named after Rear Admiral Grace Hopper, a pioneering";
   "computer scientist and United States Navy officer.";
   ("How may I assist you today?" ++ GraceCli.newline)%string].

Definition main (nlp_chain : GraceCli.world) (turns : list (string * string))
  : outcome :=
  main_loop nlp_chain EmptyString turns banner.

End Session.

(** [str.isascii]: every code point is below 128. *)
Fixpoint is_ascii (s : string) : bool :=
  match s with
  | EmptyString => true
  | String c r => (PyStr.code c <? 128) && is_ascii r
  end.

(** A float that is zero or positive (not [nan], no minus sign). *)
Definition nonneg_float (x : PyFloat.float) : Prop :=
  match x with
  | S754_zero false | S754_infinity false | S754_finite false _ _ => True
  | _ => False
  end.

(** [0 <= x <= 1] as Python compares floats. *)
Definition unit_score (x : PyFloat.float) : bool :=
  SFleb (PyFloat.of_int 0) x && SFleb x (PyFloat.of_int 1).

(* ================================================================= *)
(** * Properties *)

(** The digest is never unfolded on an open term. *)
Arguments Sha256.hexdigest : simpl never.

(** ** The model against the interpreter

    Values computed by CPython 3 for the same inputs. *)

Section Interpreter.

Example sha256_abc :
  Sha256.hexdigest "abc"
  = "ba7816bf8f01cfea414140de5dae2223b00361a396177a9cb410ff61f20015ad".
Proof. vm_compute. reflexivity. Qed.

Example genesis_hash :
  hash (create_genesis_block "2024-01-01T00:00:00")
  = "12cb6b3cb3c6d15dbbe2893d32a594dfbace61b7d93a6f282136970d14c2e361".
Proof. vm_compute. reflexivity. Qed.

Example float_reprs :
  map PyFloat.repr
      [PyFloat.lit 9 1; PyFloat.int_truediv 9 1000; PyFloat.of_int 100;
       PyFloat.of_decimal 1 (-5); PyFloat.of_decimal 1 16;
       PyFloat.fdiv (PyFloat.of_int 1) (PyFloat.of_int 3)]
  = ["0.9"; "0.009"; "100.0"; "1e-05"; "1e+16"; "0.3333333333333333"].
Proof. vm_compute. reflexivity. Qed.

(** A reply with a block of scores, recorded on a fresh ledger: the
    message, and the hash of the record appended. *)
Example recorded_reply :
  let reply :=
    ("Hello there." ++ GraceCli.newline ++ " second line  GENAI confidence assessment:"
       ++ GraceCli.newline ++ "Reliability: 0.9" ++ GraceCli.newline
       ++ "Performance: 0.8" ++ GraceCli.newline ++ "Context Coherence: 0.7")%string in
  (w <- GraceCli.Blockchain_init "2024-01-01T00:00:00" None ;;
   r <- GraceCli.process_grace_response w "2024-01-02T00:00:00" reply "ctx" ;;
   b <- get_latest_block (fst (snd r)) ;;
   Ok (fst (fst r), data b, hash b))
  = Ok ("Response added to the blockchain. Overall confidence: 0.80",
        PDict [("response_type", PStr "Conversation");
               ("content", PStr "Hello there.\n second line");
               ("assessment",
                PDict [("reliability", PFloat (PyFloat.lit 9 1));
                       ("performance", PFloat (PyFloat.lit 8 1));
                       ("context_coherence", PFloat (PyFloat.lit 7 1));
                       ("overall_confidence",
                        PFloat (PyFloat.of_decimal 8000000000000002 (-16)))])],
        "ff7e4799782265628f18152e70c2ea7f4a9203c3d5b6dd08cf06cf580ba2cfc5").
Proof. vm_compute. reflexivity. Qed.

End Interpreter.

(** ** The ledger *)

Section Ledger.

Lemma get_latest_block_snoc (chain : list Block) (b : Block) :
  get_latest_block (chain ++ [b]) = Ok b.
Proof.
  induction chain as [|a chain IH]; [reflexivity|].
  cbn [app get_latest_block]. rewrite IH.
  destruct (chain ++ [b])%list eqn:E; [|reflexivity].
  destruct chain; discriminate.
Qed.

Lemma get_latest_block_inv (chain : list Block) (b : Block) :
  get_latest_block chain = Ok b -> exists front, chain = (front ++ [b])%list.
Proof.
  induction chain as [|a chain IH]; [discriminate|].
  destruct chain as [|a' chain].
  - cbn. intros [= ->]. now exists [].
  - intros H. destruct (IH H) as [front ->]. now exists (a :: front).
Qed.

Lemma get_latest_block_nonempty (chain : list Block) :
  chain <> [] -> exists b, get_latest_block chain = Ok b.
Proof.
  intros H. destruct (exists_last H) as (front & b & ->).
  exists b. apply get_latest_block_snoc.
Qed.

(** What [add_block] appends to a chain that ends in [latest]. *)
Lemma append_block_snoc (front : list Block) (latest : Block)
      (now : string) (payload : pyval) :
  append_block (front ++ [latest]) now payload =
  Ok ((front ++ [latest]) ++
      [Block_init (PInt (len (front ++ [latest]))) (PStr now) payload
                  (PStr (hash latest))])%list.
Proof.
  unfold append_block. now rewrite get_latest_block_snoc.
Qed.

Lemma Block_init_sealed (i t d p : pyval) : sealed (Block_init i t d p).
Proof. reflexivity. Qed.

Lemma chain_inv_genesis (now : string) : chain_inv [create_genesis_block now].
Proof.
  split.
  - discriminate.
  - intros [|[|i]] b; cbn; try discriminate. now intros [= <-].
  - intros [|i] p b; cbn; try discriminate; destruct i; discriminate.
  - repeat constructor.
Qed.

Lemma nth_error_snoc_inv {A} (l : list A) (x y : A) (i : nat) :
  nth_error (l ++ [x]) i = Some y ->
  nth_error l i = Some y \/ (i = List.length l /\ y = x).
Proof.
  intros H. destruct (Nat.lt_ge_cases i (List.length l)) as [Hlt|Hge].
  - left. now rewrite nth_error_app1 in H.
  - right. rewrite nth_error_app2 in H by exact Hge.
    destruct (i - List.length l)%nat as [|k] eqn:E.
    + cbn in H. injection H as <-. split; [lia|reflexivity].
    + cbn in H. destruct k; discriminate.
Qed.

Lemma chain_inv_append (chain chain' : list Block) (now : string) (payload : pyval) :
  chain_inv chain ->
  append_block chain now payload = Ok chain' ->
  chain_inv chain' /\ List.length chain' = S (List.length chain).
Proof.
  intros [Hne Hidx Hlink Hseal] H.
  destruct (exists_last Hne) as (front & latest & ->).
  rewrite append_block_snoc in H. injection H as <-.
  set (chain := (front ++ [latest])%list) in *.
  set (nb := Block_init _ _ _ _).
  split; [split|].
  - destruct chain; discriminate.
  - intros i b Hb. apply nth_error_snoc_inv in Hb as [Hb|[-> ->]].
    + now apply Hidx.
    + reflexivity.
  - intros i p b Hp Hb.
    apply nth_error_snoc_inv in Hb as [Hb|[Hi ->]].
    + apply (Hlink i p b); [|exact Hb].
      apply nth_error_snoc_inv in Hp as [Hp|[-> _]]; [exact Hp|].
      assert (S (List.length chain) < List.length chain)%nat
        by (apply nth_error_Some; congruence).
      lia.
    + assert (Hlen : List.length chain = S (List.length front))
        by (unfold chain; rewrite length_app; cbn; lia).
      assert (i = List.length front) as -> by lia.
      unfold chain in Hp. rewrite <- app_assoc in Hp.
      rewrite nth_error_app2, Nat.sub_diag in Hp by lia.
      cbn in Hp. now injection Hp as <-.
  - apply Forall_app. split; [exact Hseal|]. repeat constructor.
  - rewrite length_app. cbn. lia.
Qed.

End Ledger.

Section Runs.

(** A run of appends keeps the invariant, never raises, and extends
    the chain by one record per payload. *)
Lemma add_blocks_inv (inputs : list (string * pyval)) :
  forall chain,
    chain_inv chain ->
    exists ext,
      add_blocks chain inputs = Ok (chain ++ ext)%list /\
      chain_inv (chain ++ ext) /\
      List.length ext = List.length inputs.
Proof.
  induction inputs as [|[now payload] rest IH]; intros chain Hinv.
  - exists []. rewrite app_nil_r.
    split; [reflexivity|split; [exact Hinv|reflexivity]].
  - destruct (exists_last (inv_nonempty _ Hinv)) as (front & latest & Hc).
    pose proof (append_block_snoc front latest now payload) as Happ.
    rewrite <- Hc in Happ.
    destruct (chain_inv_append _ _ _ _ Hinv Happ) as [Hinv' _].
    destruct (IH _ Hinv') as (ext & Hrun & Hinv'' & Hlen).
    eexists (_ :: ext). cbn [add_blocks]. unfold Integrated.add_block.
    rewrite Happ. cbn [bind].
    rewrite <- app_assoc in Hrun, Hinv''. cbn [app] in Hrun, Hinv''.
    split; [exact Hrun|split; [exact Hinv''|cbn; now rewrite Hlen]].
Qed.

(** The persisted run builds the chain of the in-memory run. *)
Lemma add_blocks_saved_chain (inputs : list (string * pyval)) :
  forall chain st chain',
    add_blocks chain inputs = Ok chain' ->
    exists st', add_blocks_saved (chain, st) inputs = Ok (chain', st').
Proof.
  induction inputs as [|[now payload] rest IH]; intros chain st chain' H.
  - injection H as <-. now exists st.
  - cbn [add_blocks add_blocks_saved fst] in *.
    unfold GraceCli.add_block, Integrated.add_block in *.
    destruct (append_block chain now payload) as [c1|e]; [|discriminate].
    cbn [bind] in *. now apply IH.
Qed.

Lemma fresh_saved (now : string) :
  GraceCli.Blockchain_init now None =
  Ok (Integrated.Blockchain_init now,
      GraceCli.save_chain (Integrated.Blockchain_init now)).
Proof. reflexivity. Qed.

End Runs.

(** C1. After any run of appends on a freshly created ledger (the
    in-memory one, or the persisted one opened on absent storage),
    every record past the genesis record names the hash of the record
    before it as its previous hash, and its own hash is the digest of
    its index, timestamp, payload and previous hash. *)
Theorem hash_chain_invariant (now : string) (inputs : list (string * pyval)) :
  exists chain,
    add_blocks (Integrated.Blockchain_init now) inputs = Ok chain /\
    (exists st,
        (w <- GraceCli.Blockchain_init now None ;; add_blocks_saved w inputs)
        = Ok (chain, st)) /\
    forall i b,
      nth_error chain (S i) = Some b ->
      (exists p, nth_error chain i = Some p /\ previous_hash b = PStr (hash p)) /\
      hash b = Sha256.hexdigest
                 (hash_string (index b) (timestamp b) (data b) (previous_hash b)).
Proof.
  destruct (add_blocks_inv inputs _ (chain_inv_genesis now))
    as (ext & Hrun & Hinv & _).
  exists (Integrated.Blockchain_init now ++ ext)%list.
  split; [exact Hrun|]. split.
  - rewrite fresh_saved. cbn [bind]. now apply add_blocks_saved_chain.
  - intros i b Hb.
    assert (Hi : (i < List.length (Integrated.Blockchain_init now ++ ext))%nat).
    { assert (S i < List.length (Integrated.Blockchain_init now ++ ext))%nat
        by (apply nth_error_Some; congruence). lia. }
    destruct (nth_error (Integrated.Blockchain_init now ++ ext) i) as [p|] eqn:Hp;
      [|apply nth_error_Some in Hi; contradiction].
    split.
    + exists p. split; [reflexivity|]. exact (inv_linked _ Hinv i p b Hp Hb).
    + pose proof (inv_sealed _ Hinv) as Hs.
      rewrite Forall_forall in Hs. apply Hs. eapply nth_error_In; eassumption.
Qed.

(** C3. Appending N payloads to a freshly created ledger gives a chain
    of N+1 records whose first is the genesis record and whose record
    at each position i from 0 to N carries the index i. *)
Theorem appended_indices (now : string) (inputs : list (string * pyval)) :
  exists chain,
    add_blocks (Integrated.Blockchain_init now) inputs = Ok chain /\
    (exists st,
        (w <- GraceCli.Blockchain_init now None ;; add_blocks_saved w inputs)
        = Ok (chain, st)) /\
    List.length chain = S (List.length inputs) /\
    nth_error chain 0 = Some (create_genesis_block now) /\
    index (create_genesis_block now) = PInt 0 /\
    forall i, (i <= List.length inputs)%nat ->
              exists b, nth_error chain i = Some b /\ index b = PInt (Z.of_nat i).
Proof.
  destruct (add_blocks_inv inputs _ (chain_inv_genesis now))
    as (ext & Hrun & Hinv & Hlen).
  exists (Integrated.Blockchain_init now ++ ext)%list.
  split; [exact Hrun|]. split.
  { rewrite fresh_saved. cbn [bind]. now apply add_blocks_saved_chain. }
  assert (Hl : List.length (Integrated.Blockchain_init now ++ ext)
               = S (List.length inputs))
    by (rewrite length_app, Hlen; reflexivity).
  split; [exact Hl|]. split; [reflexivity|]. split; [reflexivity|].
  intros i Hi.
  destruct (nth_error (Integrated.Blockchain_init now ++ ext) i) as [b|] eqn:Hb.
  - exists b. split; [reflexivity|]. exact (inv_indexed _ Hinv i b Hb).
  - apply nth_error_None in Hb. lia.
Qed.

(** ** Verification of a chain *)

Section Verify.

Lemma is_str_true (v : pyval) (s : string) : is_str v s = true <-> v = PStr s.
Proof.
  destruct v; cbn; try (split; [discriminate|intros [=]]).
  rewrite String.eqb_eq. split; [now intros ->|now intros [= ->]].
Qed.

Lemma record_ok_true (prev : option Block) (b : Block) :
  record_ok prev b = true <->
  sealed b /\ (forall p, prev = Some p -> previous_hash b = PStr (hash p)).
Proof.
  unfold record_ok, sealed, calculate_hash.
  rewrite andb_true_iff, String.eqb_eq.
  destruct prev as [p|].
  - rewrite is_str_true. split.
    + intros [H1 H2]. split; [exact H1|]. now intros q [= <-].
    + intros [H1 H2]. split; [exact H1|]. now apply H2.
  - split; intros [H1 _]; (split; [exact H1|]); [discriminate|reflexivity].
Qed.

Lemma linked_nil : linked [].
Proof. intros [|i] p b H; discriminate. Qed.

Lemma linked_one (b : Block) : linked [b].
Proof. intros [|[|i]] p c H1 H2; discriminate. Qed.

Lemma linked_cons (p b : Block) (rest : list Block) :
  linked (p :: b :: rest) <->
  previous_hash b = PStr (hash p) /\ linked (b :: rest).
Proof.
  split.
  - intros H. split.
    + now apply (H 0%nat p b).
    + intros i x y Hx Hy. now apply (H (S i) x y).
  - intros [H1 H2] [|i] x y Hx Hy.
    + cbn in Hx, Hy. injection Hx as <-. now injection Hy as <-.
    + now apply (H2 i x y).
Qed.

(** The scan from a record [p] on finds nothing exactly when the
    rest is sealed and linked to [p]. *)
Lemma first_bad_from_None (chain : list Block) :
  forall i p,
    first_bad_from i (Some p) chain = None <->
    Forall sealed chain /\ linked (p :: chain).
Proof.
  induction chain as [|b rest IH]; intros i p; cbn [first_bad_from].
  - split; [intros _; split; [constructor|apply linked_one]|reflexivity].
  - destruct (record_ok (Some p) b) eqn:E.
    + apply record_ok_true in E as [Hs Hl].
      rewrite IH, linked_cons. split.
      * intros [H1 H2]. split; [now constructor|]. split; [now apply Hl|exact H2].
      * intros [H1 [_ H2]]. split; [now inversion H1|exact H2].
    + split; [discriminate|]. intros [H1 H2].
      apply linked_cons in H2 as [H2 _].
      assert (record_ok (Some p) b = true); [|congruence].
      apply record_ok_true. split; [now inversion H1|]. now intros q [= <-].
Qed.

Lemma first_bad_None (chain : list Block) :
  first_bad chain = None <-> Forall sealed chain /\ linked chain.
Proof.
  unfold first_bad. destruct chain as [|b rest]; cbn [first_bad_from].
  - split; [intros _; split; [constructor|apply linked_nil]|reflexivity].
  - destruct (record_ok None b) eqn:E.
    + apply record_ok_true in E as [Hs _]. rewrite first_bad_from_None.
      split; intros [H1 H2]; (split; [|exact H2]);
        [now constructor|now inversion H1].
    + split; [discriminate|]. intros [H1 _].
      assert (record_ok None b = true); [|congruence].
      apply record_ok_true. split; [now inversion H1|discriminate].
Qed.

Lemma before_cons (prev : option Block) (b : Block) (front : list Block) :
  before prev (b :: front) = before (Some b) front.
Proof.
  unfold before. destruct front as [|c front]; [reflexivity|].
  change (get_latest_block (b :: c :: front)) with (get_latest_block (c :: front)).
  destruct (get_latest_block_nonempty (c :: front)) as [x ->]; [discriminate|].
  reflexivity.
Qed.

(** The position the scan reports is that of the first record that
    fails its check: the scan of what precedes it finds nothing. *)
Lemma first_bad_from_Some (chain : list Block) :
  forall i prev n,
    first_bad_from i prev chain = Some n ->
    exists front b rest,
      chain = (front ++ b :: rest)%list /\
      n = (i + List.length front)%nat /\
      first_bad_from i prev front = None /\
      record_ok (before prev front) b = false.
Proof.
  induction chain as [|c chain IH]; intros i prev n; cbn [first_bad_from];
    [discriminate|].
  destruct (record_ok prev c) eqn:E.
  - intros H. destruct (IH _ _ _ H) as (front & b & rest & -> & -> & Hf & Hb).
    exists (c :: front), b, rest. cbn [first_bad_from app List.length].
    rewrite E, before_cons. repeat split; [lia|exact Hf|exact Hb].
  - intros [= <-]. exists [], c, chain. cbn. repeat split; [lia|exact E].
Qed.

End Verify.

(** Every chain grown from a genesis record by appends passes
    [verify]; in particular the ledger with one payload appended. *)
Lemma grown_chain_verifies (chain : list Block) :
  chain_inv chain -> verify chain = true.
Proof.
  intros [_ _ Hl Hs]. unfold verify.
  now rewrite (proj2 (first_bad_None chain) (conj Hs Hl)).
Qed.

Example one_append_verifies (now now' : string) :
  exists g b,
    add_blocks (Integrated.Blockchain_init now) [(now', PDict [("a", PInt 1)])]
    = Ok [g; b] /\
    previous_hash b = PStr (hash g) /\ verify [g; b] = true.
Proof.
  destruct (add_blocks_inv [(now', PDict [("a", PInt 1)])] _ (chain_inv_genesis now))
    as (ext & Hrun & Hinv & Hlen).
  destruct ext as [|b [|? ?]]; try discriminate Hlen.
  exists (create_genesis_block now), b. split; [exact Hrun|]. split.
  - exact (inv_linked _ Hinv 0%nat _ _ eq_refl eq_refl).
  - now apply grown_chain_verifies.
Qed.

(** C2. [verify], as section 4.1 describes it, answers true exactly
    when every record's stored hash is the digest recomputed from its
    stored fields and every record names the hash of the record before
    it; otherwise it answers false and [first_bad] gives the position
    of the first record that fails, all records before it passing. *)
Theorem verify_iff (chain : list Block) :
  (verify chain = true <->
   (forall i b, nth_error chain i = Some b -> sealed b) /\
   (forall i p b, nth_error chain i = Some p -> nth_error chain (S i) = Some b ->
                  previous_hash b = PStr (hash p))) /\
  (verify chain = false <-> exists n, first_bad chain = Some n) /\
  (forall n, first_bad chain = Some n ->
     exists front b rest,
       chain = (front ++ b :: rest)%list /\ List.length front = n /\
       verify front = true /\
       ~ (sealed b /\
          forall p, get_latest_block front = Ok p -> previous_hash b = PStr (hash p))).
Proof.
  split; [|split].
  - unfold verify. destruct (first_bad chain) eqn:E.
    + split; [discriminate|]. intros [H1 H2].
      assert (first_bad chain = None); [|congruence].
      apply first_bad_None. split; [|exact H2].
      apply Forall_forall. intros b Hb.
      destruct (In_nth_error _ _ Hb) as [i Hi]. now apply (H1 i).
    + apply first_bad_None in E as [H1 H2].
      split; [intros _|reflexivity]. split; [|exact H2].
      intros i b Hb. rewrite Forall_forall in H1. apply H1.
      eapply nth_error_In; eassumption.
  - unfold verify. destruct (first_bad chain) as [n|].
    + split; [intros _; now exists n|reflexivity].
    + split; [discriminate|intros [n H]; discriminate].
  - intros n H. unfold first_bad in H.
    destruct (first_bad_from_Some _ _ _ _ H) as (front & b & rest & -> & -> & Hf & Hb).
    exists front, b, rest. repeat split.
    + unfold verify, first_bad. now rewrite Hf.
    + intros [Hs Hl].
      assert (record_ok (before None front) b = true); [|congruence].
      apply record_ok_true. split; [exact Hs|].
      intros p Hp. apply Hl. unfold before in Hp.
      destruct (get_latest_block front); [now injection Hp as ->|discriminate].
Qed.

(** ** Persistence *)

Section Persistence.

Lemma sealed_Block_init (b : Block) :
  sealed b ->
  Block_init (index b) (timestamp b) (data b) (previous_hash b) = b.
Proof.
  unfold sealed, Block_init, calculate_hash. destruct b as [i t d p h]. cbn.
  now intros ->.
Qed.

Lemma load_block_to_dict (b : Block) :
  GraceCli.load_block (to_dict b) =
  Ok (Block_init (index b) (timestamp b) (data b) (previous_hash b)).
Proof. reflexivity. Qed.

Lemma load_saved_blocks (chain : list Block) :
  Forall sealed chain ->
  mapM GraceCli.load_block (map to_dict chain) = Ok chain.
Proof.
  induction 1 as [|b chain Hb _ IH]; [reflexivity|].
  cbn [map mapM]. rewrite load_block_to_dict, sealed_Block_init by exact Hb.
  cbn [bind]. now rewrite IH.
Qed.

Lemma load_block_rebuilt (doc : pyval) (b : Block) :
  GraceCli.load_block doc = Ok b <-> rebuilt_from doc b.
Proof.
  unfold GraceCli.load_block, rebuilt_from, has_fields. split.
  - destruct (Py.getitem doc "index") as [i|]; [|discriminate].
    destruct (Py.getitem doc "timestamp") as [t|]; [|discriminate].
    destruct (Py.getitem doc "data") as [d|]; [|discriminate].
    destruct (Py.getitem doc "previous_hash") as [p|]; [|discriminate].
    cbn [bind]. intros [= <-]. repeat split.
  - intros [(-> & -> & -> & ->) Hs]. cbn [bind]. now rewrite sealed_Block_init.
Qed.

Lemma mapM_load_rebuilt (docs : list pyval) :
  forall chain,
    mapM GraceCli.load_block docs = Ok chain <-> Forall2 rebuilt_from docs chain.
Proof.
  induction docs as [|doc docs IH]; intros chain; cbn [mapM].
  - split; [intros [= <-]; constructor|intros H; now inversion H].
  - split.
    + destruct (GraceCli.load_block doc) as [b|] eqn:Hb; [|discriminate].
      destruct (mapM GraceCli.load_block docs) as [bs|] eqn:Hbs; [|discriminate].
      cbn [bind]. intros [= <-]. constructor; [now apply load_block_rebuilt|now apply IH].
    + intros H. inversion H as [|? b ? bs Hb Hbs]; subst.
      apply load_block_rebuilt in Hb. apply IH in Hbs. now rewrite Hb, Hbs.
Qed.

Lemma rebuilt_sealed (docs : list pyval) (chain : list Block) :
  Forall2 rebuilt_from docs chain -> Forall sealed chain.
Proof. induction 1 as [|? ? ? ? [_ Hs]]; constructor; assumption. Qed.

(** Whatever [load_chain] returns is made of freshly sealed records. *)
Lemma load_chain_sealed (st : GraceCli.storage) (chain : list Block) :
  GraceCli.load_chain st = Ok chain -> Forall sealed chain.
Proof.
  destruct st as [[doc|]|]; cbn [GraceCli.load_chain].
  - destruct (Py.iter doc) as [bs|]; [|discriminate]. cbn [bind].
    intros H. apply mapM_load_rebuilt in H. eapply rebuilt_sealed; eassumption.
  - discriminate.
  - intros [= <-]. constructor.
Qed.

Lemma init_sealed (now : string) (st st' : GraceCli.storage) (chain : list Block) :
  GraceCli.Blockchain_init now st = Ok (chain, st') ->
  chain <> [] /\ Forall sealed chain.
Proof.
  unfold GraceCli.Blockchain_init.
  destruct (GraceCli.load_chain st) as [[|b bs]|] eqn:E; cbn [bind]; [| |discriminate].
  - intros [= <- _]. split; [discriminate|repeat constructor].
  - intros [= <- _]. split; [discriminate|]. eapply load_chain_sealed; eassumption.
Qed.

Lemma reachable_sealed (chain : list Block) :
  reachable chain -> chain <> [] /\ Forall sealed chain.
Proof.
  induction 1 as [now st chain st' H|chain now payload chain' st' _ [Hne Hs] H].
  - eapply init_sealed; eassumption.
  - unfold GraceCli.add_block, append_block in H.
    destruct (get_latest_block chain) as [latest|]; [|discriminate].
    cbn [bind] in H. injection H as <- _. split.
    + destruct chain; discriminate.
    + apply Forall_app. split; [exact Hs|repeat constructor].
Qed.

Lemma open_saved (now : string) (chain : list Block) :
  chain <> [] -> Forall sealed chain ->
  GraceCli.Blockchain_init now (GraceCli.save_chain chain)
  = Ok (chain, GraceCli.save_chain chain).
Proof.
  intros Hne Hs. unfold GraceCli.Blockchain_init, GraceCli.save_chain.
  cbn [GraceCli.load_chain Py.iter bind]. rewrite load_saved_blocks by exact Hs.
  cbn [bind]. destruct chain; [contradiction|reflexivity].
Qed.

Lemma assoc_same_but_hash (b b' : pyval) (k : string) :
  same_but_hash b b' -> k <> "hash" -> Py.getitem b k = Py.getitem b' k.
Proof.
  intros H Hk. destruct b, b'; cbn in *; try reflexivity; try discriminate H.
  now rewrite (H k Hk).
Qed.

Lemma load_block_same_but_hash (b b' : pyval) :
  same_but_hash b b' -> GraceCli.load_block b = GraceCli.load_block b'.
Proof.
  intros H. unfold GraceCli.load_block.
  now rewrite !(assoc_same_but_hash b b') by (exact H || discriminate).
Qed.

End Persistence.

(** C4, as stated, fails: a persisted chain whose second record does
    not name the hash of the first, and whose stored hashes are not the
    digests of the records, is opened without any error, and the chain
    in memory does not pass verification. *)
Lemma open_accepts_tampered_storage :
  GraceCli.Blockchain_init "2024-01-03T00:00:00" (Some (GraceCli.Json (PList tampered_docs)))
  = Ok (tampered_chain, Some (GraceCli.Json (PList tampered_docs)))
  /\ verify tampered_chain = false
  /\ ~ linked tampered_chain
  /\ Py.getitem (nth 0 tampered_docs PNone) "hash"
     <> Ok (PStr (hash (nth 0 tampered_chain (create_genesis_block "")))).
Proof.
  split; [vm_compute; reflexivity|].
  split; [vm_compute; reflexivity|].
  split.
  - intros H.
    specialize (H 0%nat _ _ eq_refl eq_refl). vm_compute in H. discriminate H.
  - vm_compute. discriminate.
Qed.

Lemma has_fields_rebuilt (doc i t d p : pyval) :
  has_fields doc i t d p -> rebuilt_from doc (Block_init i t d p).
Proof. intros H. split; [exact H|reflexivity]. Qed.

Lemma fields_load (docs : list pyval) :
  Forall (fun doc => exists i t d p, has_fields doc i t d p) docs ->
  exists chain, Forall2 rebuilt_from docs chain.
Proof.
  induction 1 as [|doc docs (i & t & d & p & Hd) _ [chain IH]].
  - exists []. constructor.
  - exists (Block_init i t d p :: chain).
    constructor; [now apply has_fields_rebuilt|exact IH].
Qed.

(** C4, amended. Opening a ledger loads the persisted records if there
    are any, rebuilding each from its stored index, timestamp, data and
    previous hash with a hash computed afresh, and validates nothing:
    every non-empty stored list of records that bind those four keys is
    accepted, whatever the values, and the storage is left as it was.
    When the storage is absent or holds an empty list, the ledger is a
    single genesis record with index 0, the payload
    [{"data": "Genesis Block"}] and the previous hash ["0"], and it is
    persisted.  A file that is not a JSON document (a zero-length file,
    say) makes opening fail with the decoder's error. *)
Theorem open_loads_without_validation (now : string) (docs : list pyval) :
  docs <> [] ->
  Forall (fun doc => exists i t d p, has_fields doc i t d p) docs ->
  (exists chain,
      GraceCli.Blockchain_init now (Some (GraceCli.Json (PList docs)))
      = Ok (chain, Some (GraceCli.Json (PList docs))) /\
      Forall2 rebuilt_from docs chain) /\
  GraceCli.Blockchain_init now None
  = Ok ([create_genesis_block now], GraceCli.save_chain [create_genesis_block now]) /\
  GraceCli.Blockchain_init now (Some (GraceCli.Json (PList [])))
  = Ok ([create_genesis_block now], GraceCli.save_chain [create_genesis_block now]) /\
  index (create_genesis_block now) = PInt 0 /\
  data (create_genesis_block now) = PDict [("data", PStr "Genesis Block")] /\
  previous_hash (create_genesis_block now) = PStr "0" /\
  GraceCli.Blockchain_init now (Some GraceCli.NotJson) = Raise JSONDecodeError.
Proof.
  intros Hne Hdocs. split; [|repeat split].
  destruct (fields_load docs Hdocs) as [chain Hchain].
  exists chain. split; [|exact Hchain].
  unfold GraceCli.Blockchain_init. cbn [GraceCli.load_chain Py.iter bind].
  pose proof Hchain as Hload. apply mapM_load_rebuilt in Hload. rewrite Hload.
  cbn [bind]. destruct chain; [|reflexivity].
  inversion Hchain; subst. contradiction.
Qed.

(** The tampered file is such a list: it is opened as it stands. *)
Lemma open_loads_without_validation_witness :
  exists chain,
    GraceCli.Blockchain_init "2024-01-03T00:00:00"
      (Some (GraceCli.Json (PList tampered_docs)))
    = Ok (chain, Some (GraceCli.Json (PList tampered_docs))) /\
    Forall2 rebuilt_from tampered_docs chain.
Proof.
  refine (proj1 (open_loads_without_validation "2024-01-03T00:00:00" tampered_docs _ _)).
  - discriminate.
  - repeat constructor; do 4 eexists; repeat split; reflexivity.
Defined.

(** C5. Saving a chain the program holds and opening the ledger again
    on the same storage gives back the same records, all five fields
    equal (and leaves the storage as saved). *)
Theorem save_open_roundtrip (now : string) (chain : list Block) :
  reachable chain ->
  GraceCli.Blockchain_init now (GraceCli.save_chain chain)
  = Ok (chain, GraceCli.save_chain chain).
Proof.
  intros H. destruct (reachable_sealed chain H) as [Hne Hs].
  now apply open_saved.
Qed.

(** The sample chain, saved and opened again. *)
Lemma save_open_roundtrip_witness :
  GraceCli.Blockchain_init "2024-01-03T00:00:00" (GraceCli.save_chain sample_chain)
  = Ok (sample_chain, GraceCli.save_chain sample_chain).
Proof.
  apply save_open_roundtrip.
  eapply reach_add with
    (chain := [create_genesis_block "2024-01-01T00:00:00"])
    (now := "2024-01-02T00:00:00")
    (payload := PDict [("response_type", PStr "Conversation");
                       ("content", PStr "hello")]).
  - eapply reach_init with (now := "2024-01-01T00:00:00") (st := None).
    reflexivity.
  - vm_compute. reflexivity.
Defined.

(** C10. Loading reads only the index, timestamp, data and previous
    hash of each stored record: two files that differ at most in what
    their records bind to ["hash"] load alike, and every record of a
    loaded chain carries those four stored fields and a hash that is
    the digest recomputed from them. *)
Theorem load_ignores_stored_hash (docs docs' : list pyval) :
  Forall2 same_but_hash docs docs' ->
  GraceCli.load_chain (Some (GraceCli.Json (PList docs')))
  = GraceCli.load_chain (Some (GraceCli.Json (PList docs))) /\
  forall chain,
    GraceCli.load_chain (Some (GraceCli.Json (PList docs'))) = Ok chain ->
    Forall2 rebuilt_from docs chain /\
    Forall (fun b => hash b = calculate_hash b) chain.
Proof.
  intros H.
  assert (E : mapM GraceCli.load_block docs' = mapM GraceCli.load_block docs).
  { induction H as [|b b' docs docs' Hb _ IH]; [reflexivity|].
    cbn [mapM]. now rewrite IH, (load_block_same_but_hash b b' Hb). }
  cbn [GraceCli.load_chain Py.iter bind]. split; [exact E|].
  intros chain Hc. rewrite E in Hc. apply mapM_load_rebuilt in Hc.
  split; [exact Hc|]. exact (rebuilt_sealed _ _ Hc).
Qed.

(** The tampered file loads as the file [save_chain] would write for
    the chain it is loaded to: only the stored hashes differ. *)
Lemma load_ignores_stored_hash_witness :
  GraceCli.load_chain (Some (GraceCli.Json (PList tampered_docs)))
  = GraceCli.load_chain (GraceCli.save_chain tampered_chain).
Proof.
  refine (proj1 (load_ignores_stored_hash (map to_dict tampered_chain) tampered_docs _)).
  repeat constructor; intros k Hk; cbn;
    destruct (String.eqb_spec k "hash"); try contradiction; reflexivity.
Defined.

(** ** Strings *)

Section Strings.

Lemma startswith_iff (p s : string) :
  PyStr.startswith p s = true <-> exists post, s = (p ++ post)%string.
Proof.
  revert s. induction p as [|a p IH]; intros s; cbn.
  - split; [intros _; now exists s|reflexivity].
  - destruct s as [|b s].
    + split; [discriminate|intros [post H]; discriminate].
    + rewrite andb_true_iff, Ascii.eqb_eq, IH. split.
      * intros [-> [post ->]]. now exists post.
      * intros [post [= -> ->]]. split; [reflexivity|now exists post].
Qed.

(** [p in s] holds exactly when [s] is [pre ++ p ++ post]. *)
Lemma contains_iff (p s : string) :
  PyStr.contains p s = true <-> exists pre post, s = (pre ++ p ++ post)%string.
Proof.
  induction s as [|c s IH]; cbn [PyStr.contains]; rewrite orb_true_iff.
  - rewrite startswith_iff. split.
    + intros [[post H]|H]; [now exists EmptyString, post|discriminate].
    + intros [[|a pre] [post H]]; [left; now exists post|discriminate].
  - rewrite startswith_iff, IH. split.
    + intros [[post H]|(pre & post & ->)].
      * now exists EmptyString, post.
      * now exists (String c pre), post.
    + intros [[|a pre] [post H]].
      * left. now exists post.
      * right. injection H as -> ->. now exists pre, post.
Qed.

End Strings.

(** ** The knowledge query *)

Section Query.

Variable keep : Block -> bool.

(** The loop that appends each matching payload is a filter. *)
Lemma results_loop (blocks : list Block) :
  forall results : list pyval,
    fold_left
      (fun results block =>
         if keep block then (results ++ [data block])%list else results)
      blocks results
    = (results ++ map data (filter keep blocks))%list.
Proof.
  induction blocks as [|b blocks IH]; intros results; cbn [fold_left filter].
  - now rewrite app_nil_r.
  - rewrite IH. destruct (keep b); [|reflexivity].
    cbn [map]. now rewrite <- app_assoc.
Qed.

End Query.

(** C8. [query_knowledge] returns the payloads of exactly those
    records after the first whose serialized payload, lower-cased,
    contains the lower-cased query, in chain order; the first (genesis)
    record is never looked at, so the result does not depend on it. *)
Theorem query_knowledge_spec (chain : list Block) (query : string) :
  GraceCli.query_knowledge chain query
  = map data
      (filter (fun b => PyStr.contains (PyStr.lower query)
                                       (PyStr.lower (Py.json_dumps (data b))))
              (tl chain)) /\
  Integrated.query_knowledge chain query
  = map data
      (filter (fun b => PyStr.contains (PyStr.lower query)
                                       (PyStr.lower (Py.str (data b))))
              (tl chain)) /\
  (forall genesis genesis' rest,
      chain = genesis :: rest ->
      GraceCli.query_knowledge chain query
      = GraceCli.query_knowledge (genesis' :: rest) query /\
      Integrated.query_knowledge chain query
      = Integrated.query_knowledge (genesis' :: rest) query).
Proof.
  unfold GraceCli.query_knowledge, Integrated.query_knowledge.
  rewrite !results_loop. cbn [app].
  split; [reflexivity|]. split; [reflexivity|].
  intros genesis genesis' rest ->. now rewrite !results_loop.
Qed.

(** ** The conversation recorder *)

(** C9. A reply that contains the marker [EXIT] (in capitals) makes
    [process_grace_response] return the sentinel ["exit"] with the
    context as it was, and the chain and its file are unchanged. *)
Theorem exit_leaves_ledger_unchanged
        (w : GraceCli.world) (now pre post context : string) :
  GraceCli.process_grace_response w now (pre ++ "EXIT" ++ post) context
  = Ok ("exit", context, w).
Proof.
  unfold GraceCli.process_grace_response.
  assert (H : PyStr.contains "EXIT" (pre ++ "EXIT" ++ post) = true)
    by (apply contains_iff; now exists pre, post).
  now rewrite H.
Qed.

(** ** The confidence scorer *)

Section Estimate.

Lemma boost_true :
  PyFloat.fadd (PyFloat.lit 7 1)
    (PyFloat.fmul (PyFloat.lit 2 1) (PyFloat.of_bool true))
  = PyFloat.fadd (PyFloat.lit 7 1) (PyFloat.lit 2 1).
Proof. vm_compute. reflexivity. Qed.

Lemma boost_false :
  PyFloat.fadd (PyFloat.lit 7 1)
    (PyFloat.fmul (PyFloat.lit 2 1) (PyFloat.of_bool false))
  = PyFloat.lit 7 1.
Proof. vm_compute. reflexivity. Qed.

Lemma half_below_cap :
  PyFloat.min (PyFloat.int_truediv 500 1000) (PyFloat.lit 95 2) = PyFloat.lit 5 1.
Proof. vm_compute. reflexivity. Qed.

End Estimate.

(** C7, as stated, fails: on the text ["context"], which holds no
    explicit block, the third score is [0.7 + 0.2] as binary64 adds
    them, which prints as 0.8999999999999999 and is not the float
    0.9. *)
Lemma context_boost_is_not_0_9 :
  Re.search GraceCli.pattern "context" = None /\
  (exists r c,
      GraceCli.extract_confidence_scores "context" = Ok (r, PyFloat.lit 8 1, c) /\
      c <> PyFloat.lit 9 1 /\
      PyFloat.feqb c (PyFloat.lit 9 1) = false /\
      PyFloat.repr c = "0.8999999999999999" /\
      PyFloat.repr (PyFloat.lit 9 1) = "0.9").
Proof.
  split; [vm_compute; reflexivity|].
  exists (PyFloat.int_truediv 1 1000), (PyFloat.fadd (PyFloat.lit 7 1) (PyFloat.lit 2 1)).
  split; [vm_compute; reflexivity|].
  split; [vm_compute; discriminate|].
  split; [vm_compute; reflexivity|].
  split; vm_compute; reflexivity.
Qed.

(** C7, amended. On a text with no explicit block the scores are the
    fallback estimate: reliability is the smaller of
    [wordCount / 1000] and 0.95, performance is 0.8, and context
    coherence is the binary64 sum [0.7 + 0.2] (0.8999999999999999, not
    0.9) when ["context"] occurs in the lower-cased text and 0.7
    otherwise; a text of 500 words without ["context"] gets
    (0.5, 0.8, 0.7). *)
Theorem fallback_estimate (text : string) :
  Re.search GraceCli.pattern text = None ->
  GraceCli.extract_confidence_scores text
  = Ok (GraceCli.calculate_confidence_scores text) /\
  GraceCli.calculate_confidence_scores text
  = (PyFloat.min
       (PyFloat.int_truediv (Z.of_nat (PyStr.count_words false text)) 1000)
       (PyFloat.lit 95 2),
     PyFloat.lit 8 1,
     if PyStr.contains "context" (PyStr.lower text)
     then PyFloat.fadd (PyFloat.lit 7 1) (PyFloat.lit 2 1)
     else PyFloat.lit 7 1) /\
  PyFloat.repr (PyFloat.fadd (PyFloat.lit 7 1) (PyFloat.lit 2 1))
  = "0.8999999999999999" /\
  (PyStr.count_words false text = 500%nat ->
   PyStr.contains "context" (PyStr.lower text) = false ->
   GraceCli.calculate_confidence_scores text
   = (PyFloat.lit 5 1, PyFloat.lit 8 1, PyFloat.lit 7 1)).
Proof.
  intros Hnone. split; [|split; [|split]].
  - unfold GraceCli.extract_confidence_scores. now rewrite Hnone.
  - unfold GraceCli.calculate_confidence_scores.
    destruct (PyStr.contains "context" (PyStr.lower text)).
    + now rewrite boost_true.
    + now rewrite boost_false.
  - vm_compute. reflexivity.
  - intros Hwc Hctx. unfold GraceCli.calculate_confidence_scores.
    rewrite Hwc, Hctx, boost_false.
    change (Z.of_nat 500) with 500. now rewrite half_below_cap.
Qed.

(** Five hundred words, none of them ["context"]. *)
Lemma fallback_estimate_witness :
  GraceCli.extract_confidence_scores five_hundred_words
  = Ok (PyFloat.lit 5 1, PyFloat.lit 8 1, PyFloat.lit 7 1).
Proof.
  destruct (fallback_estimate five_hundred_words) as (He & _ & _ & H500);
    [vm_compute; reflexivity|].
  rewrite He, H500; [reflexivity|vm_compute; reflexivity|vm_compute; reflexivity].
Defined.

(** ** The score pattern *)

Section Matcher.

Variable k : string -> option (list string).

Lemma matches_lit_some (p s : string) (g : list string) :
  forall k',
    Re.matches (Re.lit p) s k' = Some g <->
    exists rest, s = (p ++ rest)%string /\ k' rest = Some g.
Proof.
  revert s. induction p as [|c p IH]; intros s k'; cbn [Re.lit Re.matches].
  - split; [intros H; now exists s|now intros [rest [-> H]]].
  - destruct s as [|d s]; [split; [discriminate|intros [rest [H _]]; discriminate]|].
    destruct (Ascii.eqb_spec c d) as [<-|Hne].
    + rewrite IH. split.
      * intros [rest [-> H]]. now exists rest.
      * intros [rest [[= ->] H]]. now exists rest.
    + split; [discriminate|]. intros [rest [[= E _] _]]. congruence.
Qed.

Lemma greedy_plus_some (s : string) (g : list string) :
  Re.greedy_plus Re.digit k s = Some g ->
  exists d rest, s = (d ++ rest)%string /\ digits d /\ k rest = Some g.
Proof.
  induction s as [|c s IH]; cbn [Re.greedy_plus]; [discriminate|].
  destruct (Re.digit c) eqn:Hc; [|discriminate].
  destruct (Re.greedy_plus Re.digit k s) as [g'|] eqn:E.
  - intros [= <-]. destruct (IH eq_refl) as (d & rest & -> & [_ Hd] & Hk).
    exists (String c d), rest. repeat split; [discriminate| |exact Hk].
    cbn. unfold Re.digit in Hc. now rewrite Hc, Hd.
  - intros Hk. exists (String c EmptyString), s.
    repeat split; [discriminate| |exact Hk].
    cbn. unfold Re.digit in Hc. now rewrite Hc.
Qed.

Lemma greedy_plus_complete (d rest : string) (g : list string) :
  digits d -> k rest = Some g ->
  exists g', Re.greedy_plus Re.digit k (d ++ rest) = Some g'.
Proof.
  intros [Hne Hd] Hk. induction d as [|c d IH]; [contradiction|].
  cbn in Hd. apply andb_true_iff in Hd as [Hc Hd].
  cbn [append Re.greedy_plus]. unfold Re.digit at 1. rewrite Hc.
  destruct d as [|c' d].
  - cbn [append]. destruct (Re.greedy_plus Re.digit k rest) as [g'|];
      [now exists g'|now exists g].
  - destruct IH as [g' ->]; [discriminate|exact Hd|]. now exists g'.
Qed.

Lemma lazy_star_some (s : string) (g : list string) :
  Re.lazy_star Re.dot k s = Some g ->
  exists m rest, s = (m ++ rest)%string /\ k rest = Some g.
Proof.
  induction s as [|c s IH]; cbn [Re.lazy_star].
  - destruct (k EmptyString) eqn:E; [|discriminate].
    intros [= <-]. now exists EmptyString, EmptyString.
  - destruct (k (String c s)) eqn:E.
    + intros [= <-]. now exists EmptyString, (String c s).
    + cbn. intros H. destruct (IH H) as (m & rest & -> & Hk).
      now exists (String c m), rest.
Qed.

Lemma lazy_star_complete (m rest : string) (g : list string) :
  k rest = Some g ->
  exists g', Re.lazy_star Re.dot k (m ++ rest) = Some g'.
Proof.
  intros Hk. induction m as [|c m [g' IH]].
  - exists g. cbn [append]. destruct rest; cbn [Re.lazy_star]; now rewrite Hk.
  - cbn [append Re.lazy_star]. destruct (k (String c (m ++ rest))) as [g''|];
      [now exists g''|]. cbn. now exists g'.
Qed.

End Matcher.

Section Score.

Lemma take_app (x rest : string) : PyStr.take (String.length x) (x ++ rest) = x.
Proof. induction x as [|c x IH]; cbn; [now destruct rest|now rewrite IH]. Qed.

Lemma length_app_string (x rest : string) :
  String.length (x ++ rest) = (String.length x + String.length rest)%nat.
Proof. induction x as [|c x IH]; cbn; [reflexivity|now rewrite IH]. Qed.

Lemma append_assoc_string (x y z : string) :
  ((x ++ y) ++ z = x ++ y ++ z)%string.
Proof. induction x as [|c x IH]; cbn; [reflexivity|now rewrite IH]. Qed.

Lemma consumed_app (x rest : string) : Re.consumed (x ++ rest) rest = x.
Proof.
  unfold Re.consumed.
  replace (String.length (x ++ rest) - String.length rest)%nat
    with (String.length x); [apply take_app|].
  rewrite length_app_string. lia.
Qed.

Lemma matches_score_some (k : string -> option (list string))
      (s : string) (gs : list string) :
  Re.matches GraceCli.score s k = Some gs ->
  exists d rest g,
    s = (("0." ++ d) ++ rest)%string /\ digits d /\
    k rest = Some g /\ gs = ("0." ++ d)%string :: g.
Proof.
  unfold GraceCli.score. cbn [Re.matches].
  destruct s as [|c0 [|c1 s]]; try discriminate;
    [destruct (Ascii.eqb "0" c0); discriminate|].
  destruct (Ascii.eqb_spec "0" c0) as [<-|]; [|discriminate].
  destruct (Ascii.eqb_spec "." c1) as [<-|]; [|discriminate].
  intros H. apply greedy_plus_some in H as (d & rest & -> & Hd & Hk).
  destruct (k rest) as [g|] eqn:E; [|discriminate]. injection Hk as <-.
  exists d, rest, g.
  split; [reflexivity|]. split; [exact Hd|]. split; [exact E|].
  f_equal. exact (consumed_app ("0." ++ d) rest).
Qed.

Lemma matches_score_complete (k : string -> option (list string))
      (d rest : string) (g : list string) :
  digits d -> k rest = Some g ->
  exists gs, Re.matches GraceCli.score (("0." ++ d) ++ rest) k = Some gs.
Proof.
  intros Hd Hk. unfold GraceCli.score. cbn [Re.matches append Ascii.eqb].
  cbn. eapply greedy_plus_complete; [exact Hd|]. now rewrite Hk.
Qed.

Lemma search_some (r : Re.regex) (s : string) (gs : list string) :
  Re.search r s = Some gs ->
  exists pre s', s = (pre ++ s')%string /\
                 Re.matches r s' (fun _ => Some []) = Some gs.
Proof.
  induction s as [|c s IH]; cbn [Re.search].
  - destruct (Re.matches r EmptyString _) eqn:E; [|discriminate].
    intros [= <-]. now exists EmptyString, EmptyString.
  - destruct (Re.matches r (String c s) _) eqn:E.
    + intros [= <-]. now exists EmptyString, (String c s).
    + intros H. destruct (IH H) as (pre & s' & -> & Hm).
      now exists (String c pre), s'.
Qed.

Lemma search_complete (r : Re.regex) (pre s' : string) (gs : list string) :
  Re.matches r s' (fun _ => Some []) = Some gs ->
  exists gs', Re.search r (pre ++ s') = Some gs'.
Proof.
  intros Hm. induction pre as [|c pre [gs' IH]].
  - exists gs. cbn [append]. destruct s'; cbn [Re.search]; now rewrite Hm.
  - cbn [append Re.search].
    destruct (Re.matches r (String c (pre ++ s')) _) as [g|]; [now exists g|].
    now exists gs'.
Qed.

End Score.

Section Pattern.

Let k0 : string -> option (list string) := fun _ => Some [].

(** A match of the pattern at the head of [s] spells out a block, and
    its groups are the three literals of that block. *)
Lemma matches_pattern_some (s : string) (gs : list string) :
  Re.matches GraceCli.pattern s k0 = Some gs ->
  exists e1 e2 e3,
    digits e1 /\ digits e2 /\ digits e3 /\
    gs = [("0." ++ e1)%string; ("0." ++ e2)%string; ("0." ++ e3)%string] /\
    explicit_block s e1 e2 e3.
Proof.
  unfold GraceCli.pattern. cbn [Re.matches]. intros H.
  apply matches_lit_some in H as (s1 & -> & H).
  apply matches_score_some in H as (e1 & s2 & g1 & -> & He1 & H & ->).
  apply lazy_star_some in H as (m1 & s3 & -> & H).
  apply matches_lit_some in H as (s4 & -> & H).
  apply matches_score_some in H as (e2 & s5 & g2 & -> & He2 & H & ->).
  apply lazy_star_some in H as (m2 & s6 & -> & H).
  apply matches_lit_some in H as (s7 & -> & H).
  apply matches_score_some in H as (e3 & post & g3 & -> & He3 & H & ->).
  injection H as <-.
  exists e1, e2, e3. repeat split; try apply He1; try apply He2; try apply He3.
  now exists EmptyString, m1, m2, post.
Qed.

(** Wherever a block starts, the pattern matches there. *)
Lemma matches_pattern_complete (d1 m1 d2 m2 d3 post : string) :
  digits d1 -> digits d2 -> digits d3 ->
  exists gs,
    Re.matches GraceCli.pattern
      ("Reliability: " ++ ("0." ++ d1) ++ m1
         ++ "Performance: " ++ ("0." ++ d2) ++ m2
         ++ "Context Coherence: " ++ ("0." ++ d3) ++ post) k0 = Some gs.
Proof.
  intros H1 H2 H3. unfold GraceCli.pattern. cbn [Re.matches].
  set (k7 := fun s => Re.matches GraceCli.score s k0).
  set (k6 := fun s => Re.matches (Re.lit "Context Coherence: ") s k7).
  set (k5 := fun s => Re.lazy_star Re.dot k6 s).
  set (k4 := fun s => Re.matches GraceCli.score s k5).
  set (k3 := fun s => Re.matches (Re.lit "Performance: ") s k4).
  set (k2 := fun s => Re.lazy_star Re.dot k3 s).
  set (k1 := fun s => Re.matches GraceCli.score s k2).
  destruct (matches_score_complete k0 d3 post [] H3 eq_refl) as [g7 E7].
  assert (E6 : k6 ("Context Coherence: " ++ ("0." ++ d3) ++ post) = Some g7).
  { apply matches_lit_some. eexists. split; [reflexivity|exact E7]. }
  destruct (lazy_star_complete k6 m2 _ g7 E6) as [g5 E5].
  destruct (matches_score_complete k5 d2 _ g5 H2 E5) as [g4 E4].
  assert (E3 : k3 ("Performance: " ++ ("0." ++ d2) ++ m2
                     ++ "Context Coherence: " ++ ("0." ++ d3) ++ post) = Some g4).
  { apply matches_lit_some. eexists. split; [reflexivity|exact E4]. }
  destruct (lazy_star_complete k3 m1 _ g4 E3) as [g2 E2].
  destruct (matches_score_complete k2 d1 _ g2 H1 E2) as [g1 E1].
  exists g1. apply matches_lit_some. eexists. split; [reflexivity|exact E1].
Qed.

Lemma to_float_fraction (d : string) :
  digits d -> GraceCli.to_float ("0." ++ d) = Ok (fraction d).
Proof.
  intros [Hne Hd]. unfold GraceCli.to_float, PyFloat.of_str, fraction.
  cbn [append PyFloat.split_dot Ascii.eqb Bool.eqb]. cbn.
  rewrite Hd. destruct d as [|c d]; [contradiction|]. reflexivity.
Qed.

End Pattern.

(** ** Which block the search returns *)

Section Leftmost.

Lemma app_inv_head_string (p x y : string) :
  (p ++ x = p ++ y)%string -> x = y.
Proof. induction p as [|c p IH]; cbn; [tauto|]. intros [= H]. auto. Qed.

Lemma app_same_length (m m' t t' : string) :
  (m ++ t = m' ++ t')%string -> String.length m = String.length m' ->
  m = m' /\ t = t'.
Proof.
  revert m'. induction m as [|c m IH]; intros [|c' m'] H Hl;
    try discriminate Hl.
  - now split.
  - cbn in H, Hl. injection H as -> H. injection Hl as Hl.
    destruct (IH m' H Hl) as [-> ->]. now split.
Qed.

(** A run of digits that ends where no digit follows is determined by
    the text. *)
Lemma digit_run_unique (e e' post post' : string) :
  PyStr.all_digits e = true -> PyStr.all_digits e' = true ->
  ends_number post -> ends_number post' ->
  (e ++ post = e' ++ post')%string -> e = e' /\ post = post'.
Proof.
  revert e'. induction e as [|c e IH]; intros [|c' e'] He He' Hp Hp' H.
  - now split.
  - cbn in H, He'. subst post. cbn in Hp.
    apply andb_true_iff in He' as [Hc _]. congruence.
  - cbn in H, He. subst post'. cbn in Hp'.
    apply andb_true_iff in He as [Hc _]. congruence.
  - cbn in H, He, He'. injection H as -> H.
    apply andb_true_iff in He as [_ He]. apply andb_true_iff in He' as [_ He'].
    destruct (IH e' He He' Hp Hp' H) as [-> ->]. now split.
Qed.

Lemma first_where_unique {A : Type} (P : A -> string -> Prop) (a a' : A) (s : string) :
  (forall x y t, P x t -> P y t -> x = y) ->
  first_where P a s -> first_where P a' s -> a = a'.
Proof.
  intros Hfun (m & t & -> & Hp & Hf) (m' & t' & Heq & Hp' & Hf').
  destruct (Nat.lt_trichotomy (String.length m) (String.length m')) as [Hlt|[He|Hgt]].
  - destruct (Hf' m t a eq_refl Hlt Hp).
  - destruct (app_same_length _ _ _ _ Heq He) as [_ <-]. eauto.
  - destruct (Hf m' t' a' Heq Hgt Hp').
Qed.

Lemma score_unique (l e e' r r' : string) :
  digits e -> digits e' -> ends_number r -> ends_number r' ->
  (l ++ ("0." ++ e) ++ r = l ++ ("0." ++ e') ++ r')%string ->
  e = e' /\ r = r'.
Proof.
  intros [_ He] [_ He'] Hr Hr' H. apply app_inv_head_string in H.
  cbn [append] in H. injection H as H.
  now apply digit_run_unique.
Qed.

Lemma coherence_at_unique (x y t : string) :
  coherence_at x t -> coherence_at y t -> x = y.
Proof.
  intros (post & -> & Hx & Hp) (post' & H & Hy & Hp').
  now destruct (score_unique _ _ _ _ _ Hx Hy Hp Hp' H).
Qed.

Lemma performance_at_unique (x y : string * string) (t : string) :
  performance_at x t -> performance_at y t -> x = y.
Proof.
  destruct x as [x2 x3], y as [y2 y3]. cbn [performance_at fst snd].
  intros (r & -> & Hx & Hr & Fx) (r' & H & Hy & Hr' & Fy). cbn [fst snd] in *.
  destruct (score_unique _ _ _ _ _ Hx Hy Hr Hr' H) as [-> <-].
  f_equal. exact (first_where_unique _ _ _ _ coherence_at_unique Fx Fy).
Qed.

Lemma reliability_at_unique (x y : string * (string * string)) (t : string) :
  reliability_at x t -> reliability_at y t -> x = y.
Proof.
  destruct x as [x1 x23], y as [y1 y23].
  intros (r & -> & Hx & Hr & Fx) (r' & H & Hy & Hr' & Fy). cbn [fst snd] in *.
  destruct (score_unique _ _ _ _ _ Hx Hy Hr Hr' H) as [-> <-].
  f_equal. exact (first_where_unique _ _ _ _ performance_at_unique Fx Fy).
Qed.

(** A text has at most one first block. *)
Lemma first_block_unique (text e1 e2 e3 d1 d2 d3 : string) :
  first_block text e1 e2 e3 -> first_block text d1 d2 d3 ->
  e1 = d1 /\ e2 = d2 /\ e3 = d3.
Proof.
  intros H H'.
  pose proof (first_where_unique _ _ _ _ reliability_at_unique H H') as E.
  injection E as -> -> ->. auto.
Qed.

(** The longest run of digits is taken when the continuation cannot
    succeed after giving a digit back. *)
Lemma greedy_plus_max (k : string -> option (list string)) :
  (forall c r, Re.digit c = true -> k r = None -> k (String c r) = None) ->
  forall (s : string) (g : list string),
    Re.greedy_plus Re.digit k s = Some g ->
    exists d rest,
      s = (d ++ rest)%string /\ digits d /\ ends_number rest /\ k rest = Some g.
Proof.
  intros Hblind s g. induction s as [|c s IH]; cbn [Re.greedy_plus]; [discriminate|].
  destruct (Re.digit c) eqn:Hc; [|discriminate].
  destruct (Re.greedy_plus Re.digit k s) as [g'|] eqn:E.
  - intros [= <-]. destruct (IH eq_refl) as (d & rest & -> & [_ Hd] & He & Hk).
    exists (String c d), rest. split; [reflexivity|].
    split; [|split; assumption].
    split; [discriminate|]. cbn. unfold Re.digit in Hc. now rewrite Hc, Hd.
  - intros Hk. exists (String c EmptyString), s. split; [reflexivity|].
    split; [split; [discriminate|cbn; unfold Re.digit in Hc; now rewrite Hc]|].
    split; [|exact Hk].
    destruct s as [|c' s']; [exact I|]. cbn [ends_number].
    destruct (PyStr.isdigit c') eqn:Hc'; [|reflexivity].
    exfalso. cbn [Re.greedy_plus] in E. unfold Re.digit in E at 1.
    rewrite Hc' in E.
    destruct (Re.greedy_plus Re.digit k s'); [discriminate|].
    rewrite (Hblind c' s' Hc' E) in Hk. discriminate.
Qed.

(** The shortest run is taken: the continuation fails at every place
    before the one it accepts. *)
Lemma lazy_star_first (k : string -> option (list string))
      (s : string) (g : list string) :
  Re.lazy_star Re.dot k s = Some g ->
  exists m rest,
    s = (m ++ rest)%string /\ k rest = Some g /\
    forall m' t',
      s = (m' ++ t')%string ->
      (String.length m' < String.length m)%nat -> k t' = None.
Proof.
  induction s as [|c s IH]; cbn [Re.lazy_star].
  - destruct (k EmptyString) eqn:E; [|discriminate].
    intros [= <-]. exists EmptyString, EmptyString.
    split; [reflexivity|]. split; [exact E|].
    intros m' t' _ Hlt. cbn in Hlt. lia.
  - destruct (k (String c s)) eqn:E.
    + intros [= <-]. exists EmptyString, (String c s).
      split; [reflexivity|]. split; [exact E|].
      intros m' t' _ Hlt. cbn in Hlt. lia.
    + cbn. intros H. destruct (IH H) as (m & rest & -> & Hk & Hfirst).
      exists (String c m), rest. split; [reflexivity|]. split; [exact Hk|].
      intros [|c' m'] t' Heq Hlt.
      * cbn in Heq. now subst t'.
      * cbn in Heq. injection Heq as -> Heq.
        apply (Hfirst m' t' Heq). cbn in Hlt. lia.
Qed.

(** The search returns the match at the leftmost place that has one. *)
Lemma search_first (r : Re.regex) (s : string) (gs : list string) :
  Re.search r s = Some gs ->
  exists pre s',
    s = (pre ++ s')%string /\
    Re.matches r s' (fun _ => Some []) = Some gs /\
    forall pre' t',
      s = (pre' ++ t')%string ->
      (String.length pre' < String.length pre)%nat ->
      Re.matches r t' (fun _ => Some []) = None.
Proof.
  induction s as [|c s IH]; cbn [Re.search].
  - destruct (Re.matches r EmptyString _) eqn:E; [|discriminate].
    intros [= <-]. exists EmptyString, EmptyString.
    split; [reflexivity|]. split; [exact E|].
    intros m' t' _ Hlt. cbn in Hlt. lia.
  - destruct (Re.matches r (String c s) _) eqn:E.
    + intros [= <-]. exists EmptyString, (String c s).
      split; [reflexivity|]. split; [exact E|].
      intros m' t' _ Hlt. cbn in Hlt. lia.
    + intros H. destruct (IH H) as (pre & s' & -> & Hm & Hfirst).
      exists (String c pre), s'. split; [reflexivity|]. split; [exact Hm|].
      intros [|c' m'] t' Heq Hlt.
      * cbn in Heq. now subst t'.
      * cbn in Heq. injection Heq as -> Heq.
        apply (Hfirst m' t' Heq). cbn in Hlt. lia.
Qed.

(** A score with all its digits, when the continuation cannot succeed
    after giving a digit back. *)
Lemma matches_score_max (k : string -> option (list string))
      (s : string) (gs : list string) :
  (forall c r, Re.digit c = true -> k r = None -> k (String c r) = None) ->
  Re.matches GraceCli.score s k = Some gs ->
  exists d rest g,
    s = (("0." ++ d) ++ rest)%string /\ digits d /\ ends_number rest /\
    k rest = Some g /\ gs = ("0." ++ d)%string :: g.
Proof.
  intros Hblind. unfold GraceCli.score. cbn [Re.matches].
  destruct s as [|c0 [|c1 s]]; try discriminate;
    [destruct (Ascii.eqb "0" c0); discriminate|].
  destruct (Ascii.eqb_spec "0" c0) as [<-|]; [|discriminate].
  destruct (Ascii.eqb_spec "." c1) as [<-|]; [|discriminate].
  intros H. apply greedy_plus_max in H as (d & rest & -> & Hd & He & Hk).
  - destruct (k rest) as [g|] eqn:E; [|discriminate]. injection Hk as <-.
    exists d, rest, g.
    split; [reflexivity|]. split; [exact Hd|]. split; [exact He|].
    split; [exact E|]. f_equal. exact (consumed_app ("0." ++ d) rest).
  - intros c r Hc Hn. destruct (k r) eqn:E; [discriminate|].
    now rewrite (Hblind c r Hc E).
Qed.

(** A lazy run before a label gives no digit back either. *)
Lemma lazy_label_blind (k : string -> option (list string)) :
  (forall c r, Re.digit c = true -> k (String c r) = None) ->
  forall c r,
    Re.digit c = true ->
    Re.lazy_star Re.dot k r = None -> Re.lazy_star Re.dot k (String c r) = None.
Proof.
  intros Hk c r Hc H. cbn [Re.lazy_star]. rewrite (Hk c r Hc). cbn. exact H.
Qed.

Lemma label_not_digit (l : string) (c0 : ascii) (k : string -> option (list string)) :
  Re.digit c0 = false ->
  forall c r,
    Re.digit c = true ->
    Re.matches (Re.lit (String c0 l)) (String c r) k = None.
Proof.
  intros H0 c r Hc. cbn [Re.lit Re.matches].
  destruct (Ascii.eqb_spec c0 c) as [<-|]; [congruence|reflexivity].
Qed.

Let k0 : string -> option (list string) := fun _ => Some [].
Let k7 : string -> option (list string) := fun s => Re.matches GraceCli.score s k0.
Let k6 : string -> option (list string) :=
  fun s => Re.matches (Re.lit "Context Coherence: ") s k7.
Let k5 : string -> option (list string) := fun s => Re.lazy_star Re.dot k6 s.
Let k4 : string -> option (list string) := fun s => Re.matches GraceCli.score s k5.
Let k3 : string -> option (list string) :=
  fun s => Re.matches (Re.lit "Performance: ") s k4.
Let k2 : string -> option (list string) := fun s => Re.lazy_star Re.dot k3 s.
Let k1 : string -> option (list string) := fun s => Re.matches GraceCli.score s k2.

Lemma coherence_sound (t : string) (g : list string) :
  k6 t = Some g ->
  exists e3, coherence_at e3 t /\ g = [("0." ++ e3)%string].
Proof.
  unfold k6. intros H. apply matches_lit_some in H as (s1 & -> & H).
  unfold k7 in H.
  apply matches_score_max in H as (e3 & post & g3 & -> & He & Hp & Hk & ->);
    [|discriminate].
  injection Hk as <-. exists e3. split; [|reflexivity].
  exists post. split; [reflexivity|]. now split.
Qed.

Lemma coherence_complete (e3 t : string) :
  coherence_at e3 t -> exists g, k6 t = Some g.
Proof.
  intros (post & -> & He & _).
  destruct (matches_score_complete k0 e3 post [] He eq_refl) as [g E].
  exists g. apply matches_lit_some. eexists. split; [reflexivity|exact E].
Qed.

Lemma first_coherence_sound (r : string) (g : list string) :
  k5 r = Some g ->
  exists e3, first_where coherence_at e3 r /\ g = [("0." ++ e3)%string].
Proof.
  unfold k5. intros H.
  apply lazy_star_first in H as (m & t & -> & Hk & Hfirst).
  apply coherence_sound in Hk as (e3 & Hc & ->).
  exists e3. split; [|reflexivity].
  exists m, t. split; [reflexivity|]. split; [exact Hc|].
  intros m' t' a' Heq Hlt Ha.
  destruct (coherence_complete _ _ Ha) as [g' Hg'].
  rewrite (Hfirst m' t' Heq Hlt) in Hg'. discriminate.
Qed.

Lemma first_coherence_complete (e3 r : string) :
  first_where coherence_at e3 r -> exists g, k5 r = Some g.
Proof.
  intros (m & t & -> & Hc & _). destruct (coherence_complete _ _ Hc) as [g Hg].
  exact (lazy_star_complete k6 m t g Hg).
Qed.

Lemma k5_blind (c : ascii) (r : string) :
  Re.digit c = true -> k5 r = None -> k5 (String c r) = None.
Proof.
  apply lazy_label_blind. intros c' r' Hc'. unfold k6.
  now apply label_not_digit.
Qed.

Lemma performance_sound (t : string) (g : list string) :
  k3 t = Some g ->
  exists e2 e3,
    performance_at (e2, e3) t /\ g = [("0." ++ e2)%string; ("0." ++ e3)%string].
Proof.
  unfold k3. intros H. apply matches_lit_some in H as (s1 & -> & H).
  unfold k4 in H.
  apply matches_score_max in H as (e2 & r & g2 & -> & He & Hr & Hk & ->);
    [|exact k5_blind].
  apply first_coherence_sound in Hk as (e3 & Hf & ->).
  exists e2, e3. split; [|reflexivity].
  exists r. cbn [fst snd]. split; [reflexivity|]. split; [exact He|]. now split.
Qed.

Lemma performance_complete (e : string * string) (t : string) :
  performance_at e t -> exists g, k3 t = Some g.
Proof.
  intros (r & -> & He & _ & Hf).
  destruct (first_coherence_complete _ _ Hf) as [g5 E5].
  destruct (matches_score_complete k5 (fst e) r g5 He E5) as [g E].
  exists g. apply matches_lit_some. eexists. split; [reflexivity|exact E].
Qed.

Lemma first_performance_sound (r : string) (g : list string) :
  k2 r = Some g ->
  exists e2 e3,
    first_where performance_at (e2, e3) r /\
    g = [("0." ++ e2)%string; ("0." ++ e3)%string].
Proof.
  unfold k2. intros H.
  apply lazy_star_first in H as (m & t & -> & Hk & Hfirst).
  apply performance_sound in Hk as (e2 & e3 & Hc & ->).
  exists e2, e3. split; [|reflexivity].
  exists m, t. split; [reflexivity|]. split; [exact Hc|].
  intros m' t' a' Heq Hlt Ha.
  destruct (performance_complete _ _ Ha) as [g' Hg'].
  rewrite (Hfirst m' t' Heq Hlt) in Hg'. discriminate.
Qed.

Lemma first_performance_complete (e : string * string) (r : string) :
  first_where performance_at e r -> exists g, k2 r = Some g.
Proof.
  intros (m & t & -> & Hc & _). destruct (performance_complete _ _ Hc) as [g Hg].
  exact (lazy_star_complete k3 m t g Hg).
Qed.

Lemma k2_blind (c : ascii) (r : string) :
  Re.digit c = true -> k2 r = None -> k2 (String c r) = None.
Proof.
  apply lazy_label_blind. intros c' r' Hc'. unfold k3.
  now apply label_not_digit.
Qed.

Lemma reliability_sound (t : string) (g : list string) :
  Re.matches GraceCli.pattern t k0 = Some g ->
  exists e1 e2 e3,
    reliability_at (e1, (e2, e3)) t /\
    g = [("0." ++ e1)%string; ("0." ++ e2)%string; ("0." ++ e3)%string].
Proof.
  change (Re.matches GraceCli.pattern t k0)
    with (Re.matches (Re.lit "Reliability: ") t k1).
  intros H. apply matches_lit_some in H as (s1 & -> & H).
  unfold k1 in H.
  apply matches_score_max in H as (e1 & r & g1 & -> & He & Hr & Hk & ->);
    [|exact k2_blind].
  apply first_performance_sound in Hk as (e2 & e3 & Hf & ->).
  exists e1, e2, e3. split; [|reflexivity].
  exists r. cbn [fst snd]. split; [reflexivity|]. split; [exact He|]. now split.
Qed.

Lemma reliability_complete (e : string * (string * string)) (t : string) :
  reliability_at e t -> exists g, Re.matches GraceCli.pattern t k0 = Some g.
Proof.
  change (Re.matches GraceCli.pattern t k0)
    with (Re.matches (Re.lit "Reliability: ") t k1).
  intros (r & -> & He & _ & Hf).
  destruct (first_performance_complete _ _ Hf) as [g2 E2].
  destruct (matches_score_complete k2 (fst e) r g2 He E2) as [g E].
  exists g. apply matches_lit_some. eexists. split; [reflexivity|exact E].
Qed.

(** What the search returns is the first block, and only that. *)
Lemma search_first_block (text : string) (gs : list string) :
  Re.search GraceCli.pattern text = Some gs ->
  exists e1 e2 e3,
    first_block text e1 e2 e3 /\
    gs = [("0." ++ e1)%string; ("0." ++ e2)%string; ("0." ++ e3)%string].
Proof.
  intros H. apply search_first in H as (pre & t & -> & Hm & Hfirst).
  apply reliability_sound in Hm as (e1 & e2 & e3 & Hr & ->).
  exists e1, e2, e3. split; [|reflexivity].
  exists pre, t. split; [reflexivity|]. split; [exact Hr|].
  intros m' t' a' Heq Hlt Ha.
  destruct (reliability_complete _ _ Ha) as [g' Hg'].
  fold k0 in Hfirst. rewrite (Hfirst m' t' Heq Hlt) in Hg'. discriminate.
Qed.

Lemma first_block_search (text e1 e2 e3 : string) :
  first_block text e1 e2 e3 ->
  Re.search GraceCli.pattern text
  = Some [("0." ++ e1)%string; ("0." ++ e2)%string; ("0." ++ e3)%string].
Proof.
  intros H. pose proof H as (pre & t & -> & Hr & _).
  destruct (reliability_complete _ _ Hr) as [g Hg].
  destruct (search_complete _ pre _ _ Hg) as [gs Hs].
  destruct (search_first_block _ _ Hs) as (d1 & d2 & d3 & H' & ->).
  destruct (first_block_unique _ _ _ _ _ _ _ H H') as (-> & -> & ->).
  exact Hs.
Qed.

Lemma first_block_digits (text e1 e2 e3 : string) :
  first_block text e1 e2 e3 ->
  digits e1 /\ digits e2 /\ digits e3 /\ explicit_block text e1 e2 e3.
Proof.
  intros (pre & t & -> & (r & -> & H1 & _ & (m1 & t2 & -> & Hp & _)) & _).
  destruct Hp as (r2 & -> & H2 & _ & (m2 & t3 & -> & (post & -> & H3 & _) & _)).
  cbn [fst snd] in *. repeat split; try apply H1; try apply H2; try apply H3.
  exists pre, m1, m2, post. reflexivity.
Qed.

End Leftmost.

(** C6, as stated, fails on both counts: a block whose labels are in
    lower case is not read (the scores are the fallback estimate, not
    0.9, 0.8, 0.7), and a block with a score outside [0,1), here 1.5,
    is not read either, so the value is not passed through. *)
Lemma extract_is_case_sensitive :
  Re.search GraceCli.pattern
    "reliability: 0.9 blah performance: 0.8 blah context coherence: 0.7" = None /\
  GraceCli.extract_confidence_scores
    "reliability: 0.9 blah performance: 0.8 blah context coherence: 0.7"
  <> Ok (PyFloat.lit 9 1, PyFloat.lit 8 1, PyFloat.lit 7 1) /\
  Re.search GraceCli.pattern
    "Reliability: 1.5 blah Performance: 0.8 blah Context Coherence: 0.7" = None /\
  GraceCli.extract_confidence_scores
    "Reliability: 1.5 blah Performance: 0.8 blah Context Coherence: 0.7"
  = Ok (PyFloat.int_truediv 9 1000, PyFloat.lit 8 1,
        PyFloat.fadd (PyFloat.lit 7 1) (PyFloat.lit 2 1)).
Proof.
  split; [vm_compute; reflexivity|].
  split; [vm_compute; discriminate|].
  split; vm_compute; reflexivity.
Qed.

(** C6, amended. For every text that holds a block
    [Reliability: 0.<digits> ... Performance: 0.<digits> ...
    Context Coherence: 0.<digits>], the labels spelled exactly so and
    anything in between, the text has exactly one first block, and
    [extract_confidence_scores] returns its three numbers: the
    Reliability score at the leftmost place that starts a block, the
    nearest Performance score after it that has a Context Coherence
    score behind it, and the nearest Context Coherence score after
    that, each read to its last digit and each the float its literal
    [0.<digits>] denotes, unchanged; the text
    ["Reliability: 0.9 blah Performance: 0.8 blah Context Coherence: 0.7"]
    gives (0.9, 0.8, 0.7). *)
Theorem extract_explicit_block (text d1 d2 d3 : string) :
  digits d1 -> digits d2 -> digits d3 ->
  explicit_block text d1 d2 d3 ->
  (exists e1 e2 e3,
      first_block text e1 e2 e3 /\
      (forall x1 x2 x3,
          first_block text x1 x2 x3 -> x1 = e1 /\ x2 = e2 /\ x3 = e3) /\
      digits e1 /\ digits e2 /\ digits e3 /\
      Re.search GraceCli.pattern text
      = Some [("0." ++ e1)%string; ("0." ++ e2)%string; ("0." ++ e3)%string] /\
      GraceCli.extract_confidence_scores text
      = Ok (fraction e1, fraction e2, fraction e3)) /\
  GraceCli.extract_confidence_scores
    "Reliability: 0.9 blah Performance: 0.8 blah Context Coherence: 0.7"
  = Ok (PyFloat.lit 9 1, PyFloat.lit 8 1, PyFloat.lit 7 1).
Proof.
  intros H1 H2 H3 (pre & m1 & m2 & post & ->).
  split; [|vm_compute; reflexivity].
  destruct (matches_pattern_complete d1 m1 d2 m2 d3 post H1 H2 H3) as [gs Hm].
  destruct (search_complete _ pre _ _ Hm) as [gs' Hs].
  destruct (search_first_block _ _ Hs) as (e1 & e2 & e3 & Hf & ->).
  destruct (first_block_digits _ _ _ _ Hf) as (He1 & He2 & He3 & _).
  exists e1, e2, e3.
  split; [exact Hf|]. split.
  - intros x1 x2 x3 Hx. exact (first_block_unique _ _ _ _ _ _ _ Hx Hf).
  - split; [exact He1|]. split; [exact He2|]. split; [exact He3|].
    split; [exact Hs|].
    unfold GraceCli.extract_confidence_scores. rewrite Hs.
    rewrite !to_float_fraction by assumption. reflexivity.
Qed.

(** The example text: its first block has the digits 9, 8 and 7. *)
Lemma extract_explicit_block_witness :
  exists e1 e2 e3,
    first_block "Reliability: 0.9 blah Performance: 0.8 blah Context Coherence: 0.7"
                e1 e2 e3 /\
    (forall x1 x2 x3,
        first_block "Reliability: 0.9 blah Performance: 0.8 blah Context Coherence: 0.7"
                    x1 x2 x3 -> x1 = e1 /\ x2 = e2 /\ x3 = e3) /\
    digits e1 /\ digits e2 /\ digits e3 /\
    Re.search GraceCli.pattern
      "Reliability: 0.9 blah Performance: 0.8 blah Context Coherence: 0.7"
    = Some [("0." ++ e1)%string; ("0." ++ e2)%string; ("0." ++ e3)%string] /\
    GraceCli.extract_confidence_scores
      "Reliability: 0.9 blah Performance: 0.8 blah Context Coherence: 0.7"
    = Ok (fraction e1, fraction e2, fraction e3).
Proof.
  refine (proj1 (extract_explicit_block _ "9" "8" "7" _ _ _ _)).
  - split; [discriminate|reflexivity].
  - split; [discriminate|reflexivity].
  - split; [discriminate|reflexivity].
  - exists EmptyString, " blah ", " blah ", EmptyString. reflexivity.
Defined.

(** Scores are read to their last digit, and a first block may take
    its three scores from what look like different blocks. *)
Example extract_reads_first_block :
  GraceCli.extract_confidence_scores
    "Reliability: 0.95 Performance: 0.85 Context Coherence: 0.75"
  = Ok (PyFloat.lit 95 2, PyFloat.lit 85 2, PyFloat.lit 75 2) /\
  GraceCli.extract_confidence_scores
    "Reliability: 0.9 Reliability: 0.1 Performance: 0.2 Context Coherence: 0.3 Performance: 0.8 Context Coherence: 0.7"
  = Ok (PyFloat.lit 9 1, PyFloat.lit 2 1, PyFloat.lit 3 1) /\
  GraceCli.extract_confidence_scores
    "Reliability: 0.9 Performance: 0.8 Performance: 0.2 Context Coherence: 0.3"
  = Ok (PyFloat.lit 9 1, PyFloat.lit 8 1, PyFloat.lit 3 1).
Proof. repeat split; vm_compute; reflexivity. Qed.

(* ================================================================= *)
(** * Further properties of the ledger *)

Section Appends.

(** One append on a chain that has a last record. *)
Lemma append_block_nonempty (chain : list Block) (now : string) (payload : pyval) :
  chain <> [] ->
  exists latest,
    get_latest_block chain = Ok latest /\
    append_block chain now payload
    = Ok (chain ++ [Block_init (PInt (len chain)) (PStr now) payload
                               (PStr (hash latest))])%list.
Proof.
  intros Hne. destruct (exists_last Hne) as (front & latest & ->).
  exists latest. split; [apply get_latest_block_snoc|apply append_block_snoc].
Qed.

(** One append keeps the links, the seals and the indices a chain has. *)
Lemma append_block_keeps (chain chain' : list Block) (now : string) (payload : pyval) :
  append_block chain now payload = Ok chain' ->
  (linked chain -> linked chain') /\
  (Forall sealed chain -> Forall sealed chain') /\
  (indexed chain -> indexed chain').
Proof.
  intros H. unfold append_block in H.
  destruct (get_latest_block chain) as [latest|] eqn:El; [|discriminate].
  cbn [bind] in H. injection H as <-.
  destruct (get_latest_block_inv _ _ El) as [front Hc].
  set (nb := Block_init _ _ _ _). split; [|split].
  - intros Hl i p b Hp Hb.
    apply nth_error_snoc_inv in Hb as [Hb|[Hi ->]].
    + apply (Hl i p b); [|exact Hb].
      apply nth_error_snoc_inv in Hp as [Hp|[-> _]]; [exact Hp|].
      assert (S (List.length chain) < List.length chain)%nat
        by (apply nth_error_Some; congruence).
      lia.
    + assert (Hlen : List.length chain = S (List.length front))
        by (rewrite Hc, length_app; cbn; lia).
      assert (i = List.length front) as -> by lia.
      rewrite Hc, <- app_assoc, nth_error_app2, Nat.sub_diag in Hp by lia.
      cbn in Hp. now injection Hp as <-.
  - intros Hs. apply Forall_app. split; [exact Hs|repeat constructor].
  - intros Hi i b Hb. apply nth_error_snoc_inv in Hb as [Hb|[-> ->]].
    + now apply Hi.
    + reflexivity.
Qed.

(** A run of appends on a chain that is not empty never raises and
    extends it by one record per input, in order. *)
Lemma add_blocks_extends (inputs : list (string * pyval)) :
  forall chain,
    chain <> [] ->
    exists ext,
      add_blocks chain inputs = Ok (chain ++ ext)%list /\
      map timestamp ext = map (fun x => PStr (fst x)) inputs /\
      map data ext = map snd inputs.
Proof.
  induction inputs as [|[now payload] rest IH]; intros chain Hne.
  - exists []. now rewrite app_nil_r.
  - destruct (append_block_nonempty chain now payload Hne) as (latest & _ & Happ).
    set (nb := Block_init _ _ _ _) in Happ.
    destruct (IH (chain ++ [nb])%list) as (ext & Hrun & Hts & Hd).
    { destruct chain; discriminate. }
    exists (nb :: ext). cbn [add_blocks]. unfold Integrated.add_block.
    rewrite Happ. cbn [bind]. rewrite <- app_assoc in Hrun. cbn [app] in Hrun.
    split; [exact Hrun|]. cbn [map fst snd]. now rewrite Hts, Hd.
Qed.

Lemma add_blocks_keeps (inputs : list (string * pyval)) :
  forall chain chain',
    add_blocks chain inputs = Ok chain' ->
    (linked chain -> linked chain') /\
    (Forall sealed chain -> Forall sealed chain') /\
    (indexed chain -> indexed chain').
Proof.
  induction inputs as [|[now payload] rest IH]; intros chain chain' H.
  - injection H as <-. tauto.
  - cbn [add_blocks] in H. unfold Integrated.add_block in H.
    destruct (append_block chain now payload) as [c1|] eqn:E; [|discriminate].
    cbn [bind] in H. destruct (append_block_keeps _ _ _ _ E) as (A1 & A2 & A3).
    destruct (IH _ _ H) as (B1 & B2 & B3). tauto.
Qed.

(** The file a persisted run leaves: the one it started with when
    nothing was appended, the saved chain otherwise. *)
Lemma add_blocks_saved_storage (inputs : list (string * pyval)) :
  forall chain st chain' st',
    add_blocks_saved (chain, st) inputs = Ok (chain', st') ->
    add_blocks chain inputs = Ok chain' /\
    (inputs = [] /\ st' = st \/ st' = GraceCli.save_chain chain').
Proof.
  induction inputs as [|[now payload] rest IH]; intros chain st chain' st' H.
  - injection H as <- <-. split; [reflexivity|now left].
  - cbn [add_blocks add_blocks_saved fst] in *.
    unfold GraceCli.add_block, Integrated.add_block in *.
    destruct (append_block chain now payload) as [c1|]; [|discriminate].
    cbn [bind] in *. destruct (IH _ _ _ _ H) as [Hrun [[-> ->]|Hst]].
    + split; [exact Hrun|right]. cbn in Hrun. now injection Hrun as <-.
    + split; [exact Hrun|now right].
Qed.

End Appends.

(** X1. [add_block] raises [IndexError] on an empty chain, in both
    files, and writes nothing; on any other chain a run of appends
    never raises, leaves the records it found in place and adds one
    record per payload, in order, each with the timestamp and the
    payload it was given. *)
Theorem appends_only_append (chain : list Block) (inputs : list (string * pyval)) :
  (forall now payload,
      Integrated.add_block [] now payload = Raise IndexError /\
      GraceCli.add_block [] now payload = Raise IndexError) /\
  (chain <> [] ->
   exists ext,
     add_blocks chain inputs = Ok (chain ++ ext)%list /\
     (forall st, exists st',
         add_blocks_saved (chain, st) inputs = Ok ((chain ++ ext)%list, st')) /\
     firstn (List.length chain) (chain ++ ext) = chain /\
     map timestamp ext = map (fun x => PStr (fst x)) inputs /\
     map data ext = map snd inputs).
Proof.
  split; [intros now payload; split; reflexivity|].
  intros Hne. destruct (add_blocks_extends inputs chain Hne) as (ext & Hrun & Hts & Hd).
  exists ext. split; [exact Hrun|]. split.
  - intros st. now apply add_blocks_saved_chain.
  - split; [|split; assumption].
    rewrite firstn_app, Nat.sub_diag, firstn_all. cbn. apply app_nil_r.
Qed.

Section Opened.

Lemma rebuilt_nth (docs : list pyval) (chain : list Block) :
  Forall2 rebuilt_from docs chain ->
  forall i b,
    nth_error chain i = Some b ->
    exists d, nth_error docs i = Some d /\ rebuilt_from d b.
Proof.
  induction 1 as [|d b0 docs chain Hd _ IH]; intros [|i] b Hb;
    cbn in Hb |- *; try discriminate Hb.
  - injection Hb as <-. now exists d.
  - now apply IH.
Qed.

(** Records linked through their stored fields load into a linked
    chain. *)
Lemma loaded_linked (docs : list pyval) (chain : list Block) :
  Forall2 rebuilt_from docs chain -> stored_linked docs -> linked chain.
Proof.
  intros HF Hl i p b Hp Hb.
  destruct (rebuilt_nth _ _ HF _ _ Hp) as (d & Hd & [Hfd Hsd]).
  destruct (rebuilt_nth _ _ HF _ _ Hb) as (d' & Hd' & [(_ & _ & _ & Hprev) _]).
  pose proof (Hl i d d' _ _ _ _ Hd Hd' Hfd) as E.
  rewrite Hprev in E. injection E as E. rewrite E. f_equal. symmetry. exact Hsd.
Qed.

End Opened.

(** X2. A ledger opened on a stored array whose records are linked
    through their fields, each naming as previous hash the digest
    recomputed from the index, timestamp, data and previous hash of the
    record before it (the stored hash entries are not looked at), stays
    linked through any run of appends, and every record of it, loaded
    or appended, carries the digest of its own fields. *)
Theorem opened_chain_stays_linked
        (now : string) (docs : list pyval) (inputs : list (string * pyval))
        (chain0 chain : list Block) (st0 st' : GraceCli.storage) :
  GraceCli.Blockchain_init now (Some (GraceCli.Json (PList docs))) = Ok (chain0, st0) ->
  stored_linked docs ->
  add_blocks_saved (chain0, st0) inputs = Ok (chain, st') ->
  linked chain /\ Forall sealed chain.
Proof.
  intros Hinit Hl Hrun.
  destruct (init_sealed _ _ _ _ Hinit) as [_ Hs].
  assert (Hl0 : linked chain0).
  { unfold GraceCli.Blockchain_init in Hinit.
    cbn [GraceCli.load_chain Py.iter bind] in Hinit.
    destruct (mapM GraceCli.load_block docs) as [[|b bs]|] eqn:E;
      cbn [bind] in Hinit; [| |discriminate].
    - injection Hinit as <- _. apply linked_one.
    - injection Hinit as <- _. apply mapM_load_rebuilt in E.
      eapply loaded_linked; eassumption. }
  apply add_blocks_saved_storage in Hrun as [Hrun _].
  destruct (add_blocks_keeps _ _ _ Hrun) as (A1 & A2 & _). split; auto.
Qed.

(** The sample chain, saved, opened and extended by one record. *)
Lemma opened_chain_stays_linked_witness :
  exists chain st',
    add_blocks_saved (sample_chain, GraceCli.save_chain sample_chain)
                     [("2024-01-04T00:00:00", PDict [("a", PInt 1)])]
    = Ok (chain, st') /\
    linked chain /\ Forall sealed chain.
Proof.
  eexists. eexists. split; [vm_compute; reflexivity|].
  refine (opened_chain_stays_linked "2024-01-03T00:00:00"
            (map to_dict sample_chain)
            [("2024-01-04T00:00:00", PDict [("a", PInt 1)])] _ _ _ _ _ _ _).
  - vm_compute. reflexivity.
  - intros i d d' ix t dat p Hd Hd' (Hi & Ht & Hda & Hp).
    destruct i as [|[|i]].
    + vm_compute in Hd, Hd'. injection Hd as <-. injection Hd' as <-.
      vm_compute in Hi, Ht, Hda, Hp.
      injection Hi as <-. injection Ht as <-. injection Hda as <-. injection Hp as <-.
      vm_compute. reflexivity.
    + vm_compute in Hd'. discriminate Hd'.
    + vm_compute in Hd. destruct i; discriminate Hd.
  - vm_compute. reflexivity.
Defined.

Section Restart.

(** Opening what an opening left gives the same chain again. *)
Lemma init_again (now now' : string) (st st' : GraceCli.storage) (chain : list Block) :
  GraceCli.Blockchain_init now st = Ok (chain, st') ->
  GraceCli.Blockchain_init now' st' = Ok (chain, st').
Proof.
  unfold GraceCli.Blockchain_init at 1.
  destruct (GraceCli.load_chain st) as [[|b bs]|] eqn:E; cbn [bind]; [| |discriminate].
  - intros [= <- <-]. apply open_saved; [discriminate|repeat constructor].
  - intros [= <- <-]. unfold GraceCli.Blockchain_init. now rewrite E.
Qed.

End Restart.

(** X3. At any moment of a ledger's life (opened on whatever the file
    held, then any number of appends), a process that opens the file
    again gets the very same chain and leaves the file as it is: no new
    genesis record, no record lost, whether or not anything was
    appended since the file was read. *)
Theorem reopen_gives_same_chain
        (now now' : string) (st st' : GraceCli.storage)
        (inputs : list (string * pyval)) (chain : list Block) :
  (w <- GraceCli.Blockchain_init now st ;; add_blocks_saved w inputs)
  = Ok (chain, st') ->
  GraceCli.Blockchain_init now' st' = Ok (chain, st').
Proof.
  destruct (GraceCli.Blockchain_init now st) as [[chain0 st0]|] eqn:Hinit;
    [|discriminate].
  cbn [bind]. intros Hrun.
  destruct (init_sealed _ _ _ _ Hinit) as [Hne Hs].
  destruct (add_blocks_saved_storage _ _ _ _ _ Hrun) as [Hr [[-> ->] | ->]].
  - injection Hr as <-. eapply init_again; eassumption.
  - destruct (add_blocks_keeps _ _ _ Hr) as (_ & A2 & _).
    destruct (add_blocks_extends inputs chain0 Hne) as (ext & Hext & _).
    rewrite Hext in Hr. injection Hr as <-.
    apply open_saved; [destruct chain0; [contradiction|discriminate]|auto].
Qed.

(** The tampered file, opened twice. *)
Lemma reopen_gives_same_chain_witness :
  GraceCli.Blockchain_init "2024-01-05T00:00:00"
    (Some (GraceCli.Json (PList tampered_docs)))
  = Ok (tampered_chain, Some (GraceCli.Json (PList tampered_docs))).
Proof.
  refine (reopen_gives_same_chain "2024-01-03T00:00:00" _
            (Some (GraceCli.Json (PList tampered_docs))) _ [] _ _).
  vm_compute. reflexivity.
Defined.

Section Loading.

(** The keys [load_chain] reads, in the order it reads them. *)
Lemma load_block_dict (kvs : list (string * pyval)) :
  GraceCli.load_block (PDict kvs) =
  match Py.assoc "index" kvs, Py.assoc "timestamp" kvs,
        Py.assoc "data" kvs, Py.assoc "previous_hash" kvs with
  | None, _, _, _ => Raise (KeyError "index")
  | Some _, None, _, _ => Raise (KeyError "timestamp")
  | Some _, Some _, None, _ => Raise (KeyError "data")
  | Some _, Some _, Some _, None => Raise (KeyError "previous_hash")
  | Some i, Some t, Some d, Some p => Ok (Block_init i t d p)
  end.
Proof.
  unfold GraceCli.load_block, Py.getitem.
  destruct (Py.assoc "index" kvs); [|reflexivity].
  destruct (Py.assoc "timestamp" kvs); [|reflexivity].
  destruct (Py.assoc "data" kvs); [|reflexivity].
  destruct (Py.assoc "previous_hash" kvs); reflexivity.
Qed.

Lemma load_block_not_dict (doc : pyval) :
  (forall kvs, doc <> PDict kvs) -> GraceCli.load_block doc = Raise TypeError.
Proof. destruct doc; intros H; try reflexivity. now destruct (H kvs). Qed.

Lemma has_fields_iff_loads (doc : pyval) :
  (exists i t d p, has_fields doc i t d p) <-> exists b, GraceCli.load_block doc = Ok b.
Proof.
  split.
  - intros (i & t & d & p & H). exists (Block_init i t d p).
    apply load_block_rebuilt. now apply has_fields_rebuilt.
  - intros [b H]. apply load_block_rebuilt in H as [H _]. now eauto.
Qed.

(** The first record that fails to load decides the outcome. *)
Lemma mapM_first_error (good : list pyval) (bad : pyval) (rest : list pyval) (e : exn) :
  Forall (fun doc => exists b, GraceCli.load_block doc = Ok b) good ->
  GraceCli.load_block bad = Raise e ->
  mapM GraceCli.load_block (good ++ bad :: rest) = Raise e.
Proof.
  induction 1 as [|doc good [b Hb] _ IH]; intros Hbad; cbn [app mapM].
  - now rewrite Hbad.
  - rewrite Hb. cbn [bind]. now rewrite (IH Hbad).
Qed.

Lemma mapM_all_or_first (docs : list pyval) :
  (exists chain, mapM GraceCli.load_block docs = Ok chain) \/
  (exists good bad rest e,
      docs = (good ++ bad :: rest)%list /\
      Forall (fun doc => exists b, GraceCli.load_block doc = Ok b) good /\
      GraceCli.load_block bad = Raise e).
Proof.
  induction docs as [|doc docs IH].
  - left. now exists [].
  - destruct (GraceCli.load_block doc) as [b|e] eqn:Hb.
    + destruct IH as [[chain Hc]|(good & bad & rest & e & -> & Hg & He)].
      * left. exists (b :: chain). cbn [mapM]. now rewrite Hb, Hc.
      * right. exists (doc :: good), bad, rest, e.
        split; [reflexivity|]. split; [|exact He].
        constructor; [now exists b|exact Hg].
    + right. exists [], doc, docs, e. now repeat split.
Qed.

End Loading.

(** X4. A stored list of records loads exactly when every record is an
    object that binds ["index"], ["timestamp"], ["data"] and
    ["previous_hash"] (other keys and the types of the values do not
    matter); the chain then has one record per stored record.
    Otherwise nothing is loaded and the error is that of the first
    record, in file order, that fails: [TypeError] when it is not an
    object, else [KeyError] for the first of the four keys it lacks. *)
Theorem load_all_or_first_error (docs : list pyval) :
  ((exists chain, GraceCli.load_chain (Some (GraceCli.Json (PList docs))) = Ok chain)
   <-> Forall (fun doc => exists i t d p, has_fields doc i t d p) docs) /\
  (forall chain,
      GraceCli.load_chain (Some (GraceCli.Json (PList docs))) = Ok chain ->
      List.length chain = List.length docs) /\
  (forall e,
      GraceCli.load_chain (Some (GraceCli.Json (PList docs))) = Raise e ->
      exists good bad rest,
        docs = (good ++ bad :: rest)%list /\
        Forall (fun doc => exists i t d p, has_fields doc i t d p) good /\
        GraceCli.load_block bad = Raise e /\
        ((forall kvs, bad <> PDict kvs) /\ e = TypeError \/
         exists kvs k,
           bad = PDict kvs /\ e = KeyError k /\ Py.assoc k kvs = None /\
           In k ["index"; "timestamp"; "data"; "previous_hash"])).
Proof.
  cbn [GraceCli.load_chain Py.iter bind]. split; [|split].
  - split.
    + intros [chain H]. apply mapM_load_rebuilt in H.
      induction H as [|doc b docs chain [Hf _] _ IH]; constructor; eauto 6.
    + intros H. destruct (fields_load docs H) as [chain Hc].
      exists chain. now apply mapM_load_rebuilt.
  - intros chain H. apply mapM_load_rebuilt in H.
    symmetry. eapply Forall2_length; eassumption.
  - intros e H.
    destruct (mapM_all_or_first docs) as [[chain Hc]|(good & bad & rest & e' & -> & Hg & He)];
      [congruence|].
    rewrite (mapM_first_error good bad rest e' Hg He) in H. injection H as <-.
    exists good, bad, rest. split; [reflexivity|]. split.
    { eapply Forall_impl; [|exact Hg]. intros doc. apply has_fields_iff_loads. }
    split; [exact He|].
    destruct bad as [| | | | | |kvs];
      try (left; split; [discriminate|cbn in He; congruence]).
    right. exists kvs. rewrite load_block_dict in He.
    destruct (Py.assoc "index" kvs) eqn:E1;
      [|exists "index"; injection He as <-; cbn; tauto].
    destruct (Py.assoc "timestamp" kvs) eqn:E2;
      [|exists "timestamp"; injection He as <-; cbn; tauto].
    destruct (Py.assoc "data" kvs) eqn:E3;
      [|exists "data"; injection He as <-; cbn; tauto].
    destruct (Py.assoc "previous_hash" kvs) eqn:E4;
      [discriminate|exists "previous_hash"; injection He as <-; cbn; tauto].
Qed.

(** X5. When the file holds a JSON document that is not an array, the
    loop [for b in data] still runs: over nothing for a number, a
    boolean or [null] (opening raises [TypeError]), over the keys of an
    object, over the characters of a string.  So an empty object [{}]
    or an empty string is taken for an empty chain, a genesis record is
    created and the file is overwritten, while an object with a key or
    a string with a character raises [TypeError] at the first
    [b['index']]. *)
Theorem open_non_array_document (now : string) :
  GraceCli.Blockchain_init now (Some (GraceCli.Json PNone)) = Raise TypeError /\
  (forall b, GraceCli.Blockchain_init now (Some (GraceCli.Json (PBool b)))
             = Raise TypeError) /\
  (forall n, GraceCli.Blockchain_init now (Some (GraceCli.Json (PInt n)))
             = Raise TypeError) /\
  (forall x, GraceCli.Blockchain_init now (Some (GraceCli.Json (PFloat x)))
             = Raise TypeError) /\
  (forall k v kvs,
      GraceCli.Blockchain_init now (Some (GraceCli.Json (PDict ((k, v) :: kvs))))
      = Raise TypeError) /\
  (forall c s,
      GraceCli.Blockchain_init now (Some (GraceCli.Json (PStr (String c s))))
      = Raise TypeError) /\
  GraceCli.Blockchain_init now (Some (GraceCli.Json (PDict [])))
  = Ok ([create_genesis_block now], GraceCli.save_chain [create_genesis_block now]) /\
  GraceCli.Blockchain_init now (Some (GraceCli.Json (PStr EmptyString)))
  = Ok ([create_genesis_block now], GraceCli.save_chain [create_genesis_block now]).
Proof. repeat split; reflexivity. Qed.

Section QueryEdges.

Lemma filter_all {A} (f : A -> bool) (l : list A) :
  (forall x, f x = true) -> filter f l = l.
Proof.
  intros H. induction l as [|x l IH]; [reflexivity|].
  cbn. now rewrite H, IH.
Qed.

Lemma contains_empty (s : string) : PyStr.contains EmptyString s = true.
Proof. destruct s; reflexivity. Qed.

End QueryEdges.

(** X6. The empty query matches every record: [query_knowledge]
    returns the payloads of all records after the first, in order, in
    both files; on a ledger that holds only its genesis record every
    query, the empty one included, returns nothing. *)
Theorem empty_query_returns_all (chain : list Block) :
  GraceCli.query_knowledge chain EmptyString = map data (tl chain) /\
  Integrated.query_knowledge chain EmptyString = map data (tl chain) /\
  (forall genesis query,
      GraceCli.query_knowledge [genesis] query = [] /\
      Integrated.query_knowledge [genesis] query = []).
Proof.
  unfold GraceCli.query_knowledge, Integrated.query_knowledge.
  rewrite !results_loop. cbn [app PyStr.lower].
  rewrite !filter_all by (intros b; apply contains_empty).
  repeat split; reflexivity.
Qed.

(* ================================================================= *)
(** * Further properties of the scorer and the recorder *)

Section Blocks.

Lemma search_none_complete (r : Re.regex) (pre s' : string) :
  Re.search r (pre ++ s') = None -> Re.matches r s' (fun _ => Some []) = None.
Proof.
  intros H. destruct (Re.matches r s' (fun _ => Some [])) as [gs|] eqn:E;
    [|reflexivity].
  destruct (search_complete r pre s' gs E) as [gs' H']. congruence.
Qed.

(** The search fails exactly on the texts that hold no block. *)
Lemma search_pattern_none_iff (text : string) :
  Re.search GraceCli.pattern text = None <->
  ~ (exists e1 e2 e3,
        digits e1 /\ digits e2 /\ digits e3 /\ explicit_block text e1 e2 e3).
Proof.
  split.
  - intros Hnone (e1 & e2 & e3 & H1 & H2 & H3 & pre & m1 & m2 & post & ->).
    apply search_none_complete in Hnone.
    destruct (matches_pattern_complete e1 m1 e2 m2 e3 post H1 H2 H3) as [gs Hm].
    congruence.
  - intros Hno. destruct (Re.search GraceCli.pattern text) as [gs|] eqn:E;
      [|reflexivity].
    exfalso. apply Hno.
    destruct (search_some _ _ _ E) as (pre & s' & -> & Hm).
    apply matches_pattern_some in Hm
      as (e1 & e2 & e3 & H1 & H2 & H3 & _ & (p & n1 & n2 & q & ->)).
    exists e1, e2, e3. repeat split; try apply H1; try apply H2; try apply H3.
    exists (pre ++ p)%string, n1, n2, q. symmetry. apply append_assoc_string.
Qed.

(** What [extract_confidence_scores] returns on a match. *)
Lemma extract_on_match (text : string) (gs : list string) :
  Re.search GraceCli.pattern text = Some gs ->
  exists e1 e2 e3,
    GraceCli.extract_confidence_scores text
    = Ok (fraction e1, fraction e2, fraction e3).
Proof.
  intros Hs. destruct (search_some _ _ _ Hs) as (pre & s' & _ & Hm).
  apply matches_pattern_some in Hm as (e1 & e2 & e3 & H1 & H2 & H3 & -> & _).
  exists e1, e2, e3. unfold GraceCli.extract_confidence_scores. rewrite Hs.
  now rewrite !to_float_fraction by assumption.
Qed.

End Blocks.

(** X7. [extract_confidence_scores] never raises: whatever the text,
    it returns three floats.  The conversion [float] is only ever
    applied to what the pattern captured, which it can always read. *)
Theorem extract_never_raises (text : string) :
  exists r p c, GraceCli.extract_confidence_scores text = Ok (r, p, c).
Proof.
  destruct (Re.search GraceCli.pattern text) as [gs|] eqn:E.
  - destruct (extract_on_match text gs E) as (e1 & e2 & e3 & H). eauto.
  - unfold GraceCli.extract_confidence_scores. rewrite E.
    destruct (GraceCli.calculate_confidence_scores text) as [[r p] c]. eauto.
Qed.

(** X8. The scores are the fallback estimate on every text that holds
    no block: some label missing or spelled in another letter case,
    labels in another order, or a label not followed by [0.] and a
    digit.  The pattern search fails on exactly those texts. *)
Theorem fallback_iff_no_block (text : string) :
  (Re.search GraceCli.pattern text = None <->
   ~ (exists e1 e2 e3,
         digits e1 /\ digits e2 /\ digits e3 /\ explicit_block text e1 e2 e3)) /\
  (~ (exists e1 e2 e3,
         digits e1 /\ digits e2 /\ digits e3 /\ explicit_block text e1 e2 e3) ->
   GraceCli.extract_confidence_scores text
   = Ok (GraceCli.calculate_confidence_scores text)).
Proof.
  split; [apply search_pattern_none_iff|].
  intros H. apply search_pattern_none_iff in H.
  unfold GraceCli.extract_confidence_scores. now rewrite H.
Qed.

Section Content.

Lemma lower_app (a b : string) :
  PyStr.lower (a ++ b) = (PyStr.lower a ++ PyStr.lower b)%string.
Proof. induction a as [|c a IH]; cbn; [reflexivity|now rewrite IH]. Qed.

Lemma contains_substring (p a s b : string) :
  PyStr.contains p s = true -> PyStr.contains p (a ++ s ++ b) = true.
Proof.
  rewrite !contains_iff. intros (pre & post & ->).
  exists (a ++ pre)%string, (post ++ b)%string.
  now rewrite !append_assoc_string.
Qed.

Lemma lstrip_suffix (s : string) : exists a, s = (a ++ PyStr.lstrip s)%string.
Proof.
  induction s as [|c s [a IH]]; [now exists EmptyString|].
  cbn [PyStr.lstrip]. destruct (PyStr.isspace c).
  - exists (String c a). cbn. now rewrite <- IH.
  - now exists EmptyString.
Qed.

Lemma rstrip_prefix (s : string) : exists b, s = (PyStr.rstrip s ++ b)%string.
Proof.
  induction s as [|c s [b IH]]; [now exists EmptyString|].
  cbn [PyStr.rstrip]. destruct (PyStr.rstrip s) as [|d r] eqn:E.
  - destruct (PyStr.isspace c).
    + exists (String c s). reflexivity.
    + exists b. cbn. now rewrite IH at 1.
  - exists b. cbn. now rewrite IH at 1.
Qed.

(** [strip] keeps a piece of the string. *)
Lemma strip_substring (s : string) :
  exists a b, s = (a ++ PyStr.strip s ++ b)%string.
Proof.
  destruct (lstrip_suffix s) as [a Ha].
  destruct (rstrip_prefix (PyStr.lstrip s)) as [b Hb].
  exists a, b. unfold PyStr.strip. now rewrite <- Hb.
Qed.

Lemma split_head_prefix (m s : string) :
  exists rest,
    s = (Re.split_head_ignorecase m s ++ rest)%string /\
    (rest = EmptyString \/
     PyStr.startswith (PyStr.lower m) (PyStr.lower rest) = true).
Proof.
  induction s as [|c s (rest & IH & Hr)]; cbn [Re.split_head_ignorecase].
  - destruct (PyStr.startswith (PyStr.lower m) (PyStr.lower EmptyString));
      exists EmptyString; split; auto.
  - destruct (PyStr.startswith (PyStr.lower m) (PyStr.lower (String c s))) eqn:E.
    + exists (String c s). split; [reflexivity|now right].
    + exists rest. split; [cbn; now rewrite <- IH|exact Hr].
Qed.

Lemma split_head_no_marker (m s : string) :
  PyStr.contains (PyStr.lower m) (PyStr.lower s) = false ->
  Re.split_head_ignorecase m s = s.
Proof.
  induction s as [|c s IH]; cbn [Re.split_head_ignorecase PyStr.lower PyStr.contains].
  - rewrite orb_false_r. now intros ->.
  - intros H. apply orb_false_iff in H as [H1 H2].
    rewrite H1. now rewrite IH.
Qed.

(** What precedes the first occurrence of the marker holds none. *)
Lemma split_head_clean (m s : string) :
  m <> EmptyString ->
  PyStr.contains (PyStr.lower m) (PyStr.lower (Re.split_head_ignorecase m s)) = false.
Proof.
  intros Hm. induction s as [|c s IH]; cbn [Re.split_head_ignorecase].
  - destruct m; [contradiction|]. destruct (PyStr.startswith _ _); reflexivity.
  - destruct (PyStr.startswith (PyStr.lower m) (PyStr.lower (String c s))) eqn:E.
    + destruct m; [contradiction|reflexivity].
    + cbn [PyStr.lower PyStr.contains]. rewrite IH, orb_false_r.
      destruct (PyStr.startswith (PyStr.lower m)
                  (String (PyStr.lower_char c)
                          (PyStr.lower (Re.split_head_ignorecase m s)))) eqn:E';
        [|reflexivity].
      apply startswith_iff in E' as [post Hpost].
      destruct (split_head_prefix m s) as (rest & Hs & _).
      assert (PyStr.startswith (PyStr.lower m) (PyStr.lower (String c s)) = true);
        [|congruence].
      apply startswith_iff. exists (post ++ PyStr.lower rest)%string.
      rewrite <- append_assoc_string, <- Hpost. cbn [PyStr.lower append].
      now rewrite <- lower_app, <- Hs.
Qed.

Lemma contains_char_app (c : ascii) (a b : string) :
  PyStr.contains (String c EmptyString) (a ++ b)
  = PyStr.contains (String c EmptyString) a || PyStr.contains (String c EmptyString) b.
Proof.
  induction a as [|d a IH]; cbn [append PyStr.contains PyStr.startswith].
  - now destruct b.
  - rewrite IH. destruct (Ascii.eqb c d); [reflexivity|]. cbn.
    now destruct (a ++ b)%string, a.
Qed.

(** [replace] leaves no occurrence of the character it replaces. *)
Lemma replace_char_clean (c : ascii) (by_ s : string) :
  PyStr.contains (String c EmptyString) by_ = false ->
  PyStr.contains (String c EmptyString) (PyStr.replace_char c by_ s) = false.
Proof.
  intros Hby. induction s as [|d s IH]; cbn [PyStr.replace_char]; [reflexivity|].
  destruct (Ascii.eqb c d) eqn:E.
  - now rewrite contains_char_app, Hby, IH.
  - cbn [PyStr.contains PyStr.startswith]. rewrite E, IH. reflexivity.
Qed.

End Content.

Section Recorder.

Lemma length_take (n : nat) (s : string) : (String.length (PyStr.take n s) <= n)%nat.
Proof.
  revert s. induction n as [|n IH]; intros s; [cbn; lia|].
  destruct s as [|c s]; cbn; [lia|]. specialize (IH s). lia.
Qed.

(** The call on a reply without the marker [EXIT], spelled out. *)
Lemma process_not_exit (chain : list Block) (st : GraceCli.storage)
      (now reply context : string) :
  PyStr.contains "EXIT" reply = false ->
  chain <> [] ->
  exists latest r p c,
    get_latest_block chain = Ok latest /\
    GraceCli.extract_confidence_scores reply = Ok (r, p, c) /\
    let a := GraceCli.mkAssessment r p c in
    let content :=
      PyStr.strip (Re.split_head_ignorecase "GenAI Confidence Assessment:" reply) in
    let b :=
      Block_init (PInt (len chain)) (PStr now)
        (PDict [("response_type", PStr "Conversation");
                ("content", PStr (PyStr.replace_char (PyStr.chr 10) "\n" content));
                ("assessment", GraceCli.assessment_to_dict a)])
        (PStr (hash latest)) in
    GraceCli.process_grace_response (chain, st) now reply context
    = Ok (String.append "Response added to the blockchain. Overall confidence: "
            (PyFloat.format_2f (GraceCli.calculate_overall_confidence a)),
          (context ++ GraceCli.newline ++ "Added response: "
                   ++ PyStr.take 100 content ++ "...")%string,
          ((chain ++ [b])%list, GraceCli.save_chain (chain ++ [b]))).
Proof.
  intros Hexit Hne.
  assert (Hsc : exists r p c,
             GraceCli.extract_confidence_scores reply = Ok (r, p, c)).
  { destruct (Re.search GraceCli.pattern reply) as [gs|] eqn:E.
    - destruct (extract_on_match reply gs E) as (e1 & e2 & e3 & H). eauto.
    - unfold GraceCli.extract_confidence_scores. rewrite E.
      destruct (GraceCli.calculate_confidence_scores reply) as [[r p] c]. eauto. }
  destruct Hsc as (r & p & c & Hsc).
  destruct (append_block_nonempty chain now
              (PDict [("response_type", PStr "Conversation");
                      ("content",
                       PStr (PyStr.replace_char (PyStr.chr 10) "\n"
                               (PyStr.strip
                                  (Re.split_head_ignorecase
                                     "GenAI Confidence Assessment:" reply))));
                      ("assessment",
                       GraceCli.assessment_to_dict (GraceCli.mkAssessment r p c))])
              Hne) as (latest & Hl & Happ).
  exists latest, r, p, c. split; [exact Hl|]. split; [exact Hsc|].
  cbv zeta. unfold GraceCli.process_grace_response.
  rewrite Hexit, Hsc. cbn [bind fst].
  unfold GraceCli.add_nlp_response, GraceCli.add_block.
  cbn [GraceCli.response_type GraceCli.content GraceCli.assessment].
  rewrite Happ. reflexivity.
Qed.

End Recorder.

(** X9. A reply without [EXIT], handed to [process_grace_response]
    with a ledger that is not empty, is always recorded: the call does
    not raise, exactly one record is appended after the existing ones
    and the file is rewritten with the new chain.  The record is a
    ["Conversation"] whose content holds no newline character and whose
    assessment carries the scores extracted from the whole reply; the
    message reports their mean to two decimals, and the context grows
    by at most 120 characters. *)
Theorem reply_is_recorded (chain : list Block) (st : GraceCli.storage)
        (now reply context : string) :
  PyStr.contains "EXIT" reply = false ->
  chain <> [] ->
  exists b content a suffix,
    GraceCli.process_grace_response (chain, st) now reply context
    = Ok (String.append "Response added to the blockchain. Overall confidence: "
            (PyFloat.format_2f (GraceCli.calculate_overall_confidence a)),
          (context ++ suffix)%string,
          ((chain ++ [b])%list, GraceCli.save_chain (chain ++ [b]))) /\
    data b = PDict [("response_type", PStr "Conversation");
                    ("content", PStr content);
                    ("assessment", GraceCli.assessment_to_dict a)] /\
    PyStr.contains GraceCli.newline content = false /\
    GraceCli.extract_confidence_scores reply
    = Ok (GraceCli.reliability a, GraceCli.performance a,
          GraceCli.context_coherence a) /\
    index b = PInt (len chain) /\
    timestamp b = PStr now /\
    get_latest_block chain = Ok (nth (List.length chain - 1) chain b) /\
    previous_hash b = PStr (hash (nth (List.length chain - 1) chain b)) /\
    sealed b /\
    (String.length suffix <= 120)%nat.
Proof.
  intros Hexit Hne.
  destruct (process_not_exit chain st now reply context Hexit Hne)
    as (latest & r & p & c & Hl & Hsc & Hrun).
  cbv zeta in Hrun.
  eexists. eexists. exists (GraceCli.mkAssessment r p c). eexists.
  split; [exact Hrun|].
  split; [reflexivity|].
  split; [now apply replace_char_clean|].
  split; [exact Hsc|].
  split; [reflexivity|]. split; [reflexivity|].
  assert (Hnth : forall d, nth (List.length chain - 1) chain d = latest).
  { intros d. destruct (get_latest_block_inv _ _ Hl) as [front ->].
    rewrite length_app. cbn [List.length].
    replace (List.length front + 1 - 1)%nat with (List.length front) by lia.
    now rewrite nth_middle. }
  rewrite Hnth. split; [exact Hl|]. split; [reflexivity|]. split; [reflexivity|].
  rewrite !length_app_string. cbn [String.length GraceCli.newline].
  pose proof (length_take 100
                (PyStr.strip
                   (Re.split_head_ignorecase "GenAI Confidence Assessment:" reply))).
  lia.
Qed.

(** A reply with a block of scores, recorded on the sample chain. *)
Lemma reply_is_recorded_witness :
  exists b content a suffix,
    GraceCli.process_grace_response
      (sample_chain, GraceCli.save_chain sample_chain) "2024-01-04T00:00:00"
      "Aye. Reliability: 0.9 Performance: 0.8 Context Coherence: 0.7" "ctx"
    = Ok (String.append "Response added to the blockchain. Overall confidence: "
            (PyFloat.format_2f (GraceCli.calculate_overall_confidence a)),
          ("ctx" ++ suffix)%string,
          ((sample_chain ++ [b])%list, GraceCli.save_chain (sample_chain ++ [b]))) /\
    data b = PDict [("response_type", PStr "Conversation");
                    ("content", PStr content);
                    ("assessment", GraceCli.assessment_to_dict a)].
Proof.
  destruct (reply_is_recorded sample_chain (GraceCli.save_chain sample_chain)
              "2024-01-04T00:00:00"
              "Aye. Reliability: 0.9 Performance: 0.8 Context Coherence: 0.7" "ctx")
    as (b & content & a & suffix & H1 & H2 & _);
    [vm_compute; reflexivity|discriminate|].
  exists b, content, a, suffix. split; [exact H1|exact H2].
Defined.

(** X10. With a ledger that is not empty, [process_grace_response]
    returns the sentinel ["exit"] exactly when the reply contains
    [EXIT]; it then leaves the ledger and the context alone, and
    otherwise the chain is one record longer. *)
Theorem exit_iff_marker (chain : list Block) (st : GraceCli.storage)
        (now reply context : string) :
  chain <> [] ->
  exists msg context' chain' st',
    GraceCli.process_grace_response (chain, st) now reply context
    = Ok (msg, context', (chain', st')) /\
    (msg = "exit" <-> PyStr.contains "EXIT" reply = true) /\
    (PyStr.contains "EXIT" reply = true ->
     chain' = chain /\ st' = st /\ context' = context) /\
    (PyStr.contains "EXIT" reply = false ->
     List.length chain' = S (List.length chain) /\
     firstn (List.length chain) chain' = chain).
Proof.
  intros Hne. destruct (PyStr.contains "EXIT" reply) eqn:Hexit.
  - exists "exit", context, chain, st.
    unfold GraceCli.process_grace_response. rewrite Hexit.
    repeat split; try reflexivity; discriminate.
  - destruct (process_not_exit chain st now reply context Hexit Hne)
      as (latest & r & p & c & _ & _ & Hrun).
    cbv zeta in Hrun. do 4 eexists. split; [exact Hrun|].
    split; [split; discriminate|]. split; [discriminate|]. intros _. split.
    + rewrite length_app. cbn. lia.
    + rewrite firstn_app, Nat.sub_diag, firstn_all. cbn. apply app_nil_r.
Qed.

(** The sample chain and a farewell. *)
Lemma exit_iff_marker_witness :
  exists msg context' chain' st',
    GraceCli.process_grace_response
      (sample_chain, GraceCli.save_chain sample_chain) "2024-01-04T00:00:00"
      "Fair winds. EXIT" "ctx"
    = Ok (msg, context', (chain', st')) /\
    (msg = "exit" <-> PyStr.contains "EXIT" "Fair winds. EXIT" = true).
Proof.
  destruct (exit_iff_marker sample_chain (GraceCli.save_chain sample_chain)
              "2024-01-04T00:00:00" "Fair winds. EXIT" "ctx")
    as (msg & context' & chain' & st' & H1 & H2 & _); [discriminate|].
  exists msg, context', chain', st'. split; [exact H1|exact H2].
Defined.

(** X11. The text recorded for a reply is a piece of the reply taken
    from before the first occurrence of [GenAI Confidence Assessment:]
    in any letter case, trimmed: it contains no occurrence of that
    label itself, and when the reply has none it is the whole reply,
    trimmed. *)
Theorem content_precedes_marker (reply : string) :
  let marker := "GenAI Confidence Assessment:" in
  let head := Re.split_head_ignorecase marker reply in
  let content := PyStr.strip head in
  (exists rest,
      reply = (head ++ rest)%string /\
      (rest = EmptyString \/
       PyStr.startswith (PyStr.lower marker) (PyStr.lower rest) = true)) /\
  (exists a b, head = (a ++ content ++ b)%string) /\
  PyStr.contains (PyStr.lower marker) (PyStr.lower head) = false /\
  PyStr.contains (PyStr.lower marker) (PyStr.lower content) = false /\
  (PyStr.contains (PyStr.lower marker) (PyStr.lower reply) = false ->
   content = PyStr.strip reply).
Proof.
  cbv zeta.
  set (marker := "GenAI Confidence Assessment:").
  split; [apply split_head_prefix|].
  split; [apply strip_substring|].
  assert (Hclean : PyStr.contains (PyStr.lower marker)
                     (PyStr.lower (Re.split_head_ignorecase marker reply)) = false)
    by (apply split_head_clean; discriminate).
  split; [exact Hclean|]. split.
  - destruct (PyStr.contains (PyStr.lower marker)
                (PyStr.lower (PyStr.strip (Re.split_head_ignorecase marker reply))))
      eqn:E; [|reflexivity].
    destruct (strip_substring (Re.split_head_ignorecase marker reply)) as (a & b & Hs).
    rewrite Hs, !lower_app in Hclean.
    now rewrite (contains_substring _ (PyStr.lower a) _ (PyStr.lower b) E) in Hclean.
  - intros H. now rewrite (split_head_no_marker marker reply H).
Qed.

(* ================================================================= *)
(** * Further properties of the query *)

Section Serialized.

Lemma fold_join (sep : string) (l : list string) :
  forall acc,
    fold_left (fun acc y => (acc ++ sep ++ y)%string) l acc
    = (acc ++ fold_right (fun y t => (sep ++ y ++ t)%string) EmptyString l)%string.
Proof.
  induction l as [|x l IH]; intros acc; cbn [fold_left fold_right].
  - induction acc as [|c acc IHa]; cbn; [reflexivity|now rewrite <- IHa].
  - rewrite IH. now rewrite !append_assoc_string.
Qed.

Lemma tail_in (sep x : string) (l : list string) :
  In x l ->
  exists pre post,
    fold_right (fun y t => (sep ++ y ++ t)%string) EmptyString l
    = (pre ++ x ++ post)%string.
Proof.
  induction l as [|z l IH]; [intros []|]. cbn [fold_right]. intros [->|Hin].
  - now exists sep, (fold_right (fun y t => (sep ++ y ++ t)%string) EmptyString l).
  - destruct (IH Hin) as (pre & post & ->).
    exists (sep ++ z ++ pre)%string, post. now rewrite !append_assoc_string.
Qed.

(** An element of a joined list is a piece of the result. *)
Lemma join_in (sep x : string) (l : list string) :
  In x l -> exists pre post, Py.join sep l = (pre ++ x ++ post)%string.
Proof.
  destruct l as [|y l]; [intros []|]. unfold Py.join. rewrite fold_join.
  intros [->|Hin].
  - now exists EmptyString, (fold_right (fun y t => (sep ++ y ++ t)%string) EmptyString l).
  - destruct (tail_in sep x l Hin) as (pre & post & ->).
    exists (y ++ pre)%string, post. now rewrite !append_assoc_string.
Qed.

End Serialized.

Section Pieces.

Lemma contains_trans (a b c : string) :
  PyStr.contains a b = true -> PyStr.contains b c = true ->
  PyStr.contains a c = true.
Proof.
  rewrite !contains_iff. intros (p1 & q1 & ->) (p2 & q2 & ->).
  exists (p2 ++ p1)%string, (q1 ++ q2)%string. now rewrite !append_assoc_string.
Qed.

Lemma contains_lower (a b : string) :
  PyStr.contains a b = true ->
  PyStr.contains (PyStr.lower a) (PyStr.lower b) = true.
Proof.
  rewrite !contains_iff. intros (p & q & ->).
  exists (PyStr.lower p), (PyStr.lower q). now rewrite !lower_app.
Qed.

Lemma contains_piece (x pre post : string) :
  PyStr.contains x (pre ++ x ++ post) = true.
Proof. apply contains_iff. now exists pre, post. Qed.

Lemma json_dumps_dict (kvs : list (string * pyval)) :
  Py.json_dumps (PDict kvs)
  = String.append "{"
      (String.append
         (Py.join ", "
            (map (fun kv => (Py.json_str (fst kv) ++ ": " ++ Py.json_dumps (snd kv))%string)
                 kvs))
         "}").
Proof. reflexivity. Qed.

Lemma repr_dict (kvs : list (string * pyval)) :
  Py.repr (PDict kvs)
  = String.append "{"
      (String.append
         (Py.join ", "
            (map (fun kv => (Py.repr_str (fst kv) ++ ": " ++ Py.repr (snd kv))%string)
                 kvs))
         "}").
Proof. reflexivity. Qed.

(** A key of a serialized object, and the value bound to it, are
    pieces of the serialization. *)
Lemma json_dumps_entry (k : string) (v : pyval) (kvs : list (string * pyval)) :
  In (k, v) kvs ->
  PyStr.contains (Py.json_str k) (Py.json_dumps (PDict kvs)) = true /\
  PyStr.contains (Py.json_dumps v) (Py.json_dumps (PDict kvs)) = true.
Proof.
  intros Hin. rewrite json_dumps_dict.
  destruct (join_in ", " (Py.json_str k ++ ": " ++ Py.json_dumps v)
              (map (fun kv => (Py.json_str (fst kv) ++ ": " ++ Py.json_dumps (snd kv))%string)
                   kvs)) as (pre & post & ->).
  { change (Py.json_str k ++ ": " ++ Py.json_dumps v)%string
      with ((fun kv => (Py.json_str (fst kv) ++ ": " ++ Py.json_dumps (snd kv))%string) (k, v)).
    now apply in_map. }
  split; apply contains_iff.
  - exists ("{" ++ pre)%string, (": " ++ Py.json_dumps v ++ post ++ "}")%string.
    cbn [append]. f_equal. now rewrite !append_assoc_string.
  - exists ("{" ++ pre ++ Py.json_str k ++ ": ")%string, (post ++ "}")%string.
    cbn [append]. f_equal. now rewrite !append_assoc_string.
Qed.

Lemma repr_entry (k : string) (v : pyval) (kvs : list (string * pyval)) :
  In (k, v) kvs ->
  PyStr.contains (Py.repr_str k ++ ": " ++ Py.repr v) (Py.repr (PDict kvs)) = true.
Proof.
  intros Hin. rewrite repr_dict.
  destruct (join_in ", " (Py.repr_str k ++ ": " ++ Py.repr v)
              (map (fun kv => (Py.repr_str (fst kv) ++ ": " ++ Py.repr (snd kv))%string)
                   kvs)) as (pre & post & ->).
  { change (Py.repr_str k ++ ": " ++ Py.repr v)%string
      with ((fun kv => (Py.repr_str (fst kv) ++ ": " ++ Py.repr (snd kv))%string) (k, v)).
    now apply in_map. }
  apply contains_iff. exists ("{" ++ pre)%string, (post ++ "}")%string.
  cbn [append]. f_equal. now rewrite !append_assoc_string.
Qed.

(** The record appended last is found by a query that matches its
    payload. *)
Lemma appended_is_found (keep : Block -> bool) (chain : list Block) (b : Block) :
  chain <> [] -> keep b = true ->
  In (data b) (map data (filter keep (tl (chain ++ [b])))).
Proof.
  intros Hne Hk. apply in_map, filter_In. split; [|exact Hk].
  destruct chain as [|g rest]; [contradiction|]. cbn [app tl].
  apply in_or_app. right. now left.
Qed.

End Pieces.

(** X12. In [grace-cli.py] the search runs over the serialized
    payload, names of fields included: a response recorded by
    [add_nlp_response] is returned by the query for each of its field
    names ([response_type], [content], [assessment], [reliability],
    [performance], [context_coherence], [overall_confidence]),
    whatever the response holds. *)
Theorem field_names_match (chain : list Block) (now : string)
        (response : GraceCli.NLPResponse) :
  chain <> [] ->
  exists chain' st' b,
    GraceCli.add_nlp_response chain now response = Ok (chain', st') /\
    chain' = (chain ++ [b])%list /\
    forall query,
      In query ["response_type"; "content"; "assessment"; "reliability";
                "performance"; "context_coherence"; "overall_confidence"] ->
      In (data b) (GraceCli.query_knowledge chain' query).
Proof.
  intros Hne. unfold GraceCli.add_nlp_response, GraceCli.add_block.
  set (payload := PDict _).
  destruct (append_block_nonempty chain now payload Hne) as (latest & _ & Happ).
  rewrite Happ. cbn [bind]. do 3 eexists. split; [reflexivity|]. split; [reflexivity|].
  intros query Hq. unfold GraceCli.query_knowledge. rewrite results_loop. cbn [app].
  apply appended_is_found; [exact Hne|]. cbn [data Block_init].
  set (inner := GraceCli.assessment_to_dict (GraceCli.assessment response)).
  assert (Hinner : PyStr.contains (Py.json_dumps inner) (Py.json_dumps payload) = true).
  { apply (json_dumps_entry "assessment" inner). cbn. tauto. }
  assert (Hself : PyStr.contains (PyStr.lower query)
                     (PyStr.lower (Py.json_str query)) = true).
  { cbn in Hq.
    destruct Hq as [<-|[<-|[<-|[<-|[<-|[<-|[<-|[]]]]]]]]; vm_compute; reflexivity. }
  assert (Hkey : PyStr.contains (Py.json_str query) (Py.json_dumps payload) = true).
  { cbn in Hq.
    destruct Hq as [<-|[<-|[<-|[<-|[<-|[<-|[<-|[]]]]]]]].
    - apply (json_dumps_entry "response_type" (PStr (GraceCli.response_type response))).
      cbn. tauto.
    - apply (json_dumps_entry "content" (GraceCli.content response)). cbn. tauto.
    - apply (json_dumps_entry "assessment" inner). cbn. tauto.
    - eapply contains_trans; [|exact Hinner].
      apply (json_dumps_entry "reliability"
               (PFloat (GraceCli.reliability (GraceCli.assessment response)))).
      cbn. tauto.
    - eapply contains_trans; [|exact Hinner].
      apply (json_dumps_entry "performance"
               (PFloat (GraceCli.performance (GraceCli.assessment response)))).
      cbn. tauto.
    - eapply contains_trans; [|exact Hinner].
      apply (json_dumps_entry "context_coherence"
               (PFloat (GraceCli.context_coherence (GraceCli.assessment response)))).
      cbn. tauto.
    - eapply contains_trans; [|exact Hinner].
      apply (json_dumps_entry "overall_confidence"
               (PFloat (GraceCli.calculate_overall_confidence
                          (GraceCli.assessment response)))).
      cbn. tauto. }
  eapply contains_trans; [exact Hself|]. now apply contains_lower.
Qed.

(** A response recorded on the sample chain, found by ["content"]. *)
Lemma field_names_match_witness :
  exists chain' st' b,
    GraceCli.add_nlp_response sample_chain "2024-01-04T00:00:00"
      (GraceCli.mkResponse "Conversation" (PStr "hello")
         (GraceCli.mkAssessment (PyFloat.lit 9 1) (PyFloat.lit 8 1) (PyFloat.lit 7 1)))
    = Ok (chain', st') /\
    In (data b) (GraceCli.query_knowledge chain' "content").
Proof.
  destruct (field_names_match sample_chain "2024-01-04T00:00:00"
              (GraceCli.mkResponse "Conversation" (PStr "hello")
                 (GraceCli.mkAssessment (PyFloat.lit 9 1) (PyFloat.lit 8 1)
                                        (PyFloat.lit 7 1))))
    as (chain' & st' & b & H1 & _ & H3); [discriminate|].
  exists chain', st', b. split; [exact H1|]. apply H3. cbn. tauto.
Defined.

Section Ascii.

Lemma is_ascii_app (a b : string) :
  is_ascii (a ++ b) = is_ascii a && is_ascii b.
Proof.
  induction a as [|c a IH]; cbn [append is_ascii]; [reflexivity|].
  now rewrite IH, andb_assoc.
Qed.

Lemma code_chr (z : Z) : 0 <= z < 256 -> PyStr.code (PyStr.chr z) = z.
Proof.
  intros H. unfold PyStr.code, PyStr.chr.
  rewrite N_ascii_embedding by lia. lia.
Qed.

Lemma is_ascii_chr (z : Z) (s : string) :
  0 <= z < 128 -> is_ascii (String (PyStr.chr z) s) = is_ascii s.
Proof.
  intros H. cbn [is_ascii]. rewrite code_chr by lia.
  now destruct (Z.ltb_spec z 128); [|lia].
Qed.

Lemma is_ascii_digits (fuel : nat) :
  forall n acc,
    is_ascii acc = true -> is_ascii (PyStr.digits_fuel fuel n acc) = true.
Proof.
  induction fuel as [|f IH]; intros n acc Hacc; cbn [PyStr.digits_fuel];
    [exact Hacc|].
  assert (H : is_ascii (String (PyStr.chr (48 + n mod 10)) acc) = true).
  { rewrite is_ascii_chr; [exact Hacc|].
    pose proof (Z.mod_pos_bound n 10). lia. }
  destruct (n / 10 =? 0); [exact H|now apply IH].
Qed.

Lemma is_ascii_str_nonneg (n : Z) : is_ascii (PyStr.str_nonneg n) = true.
Proof. now apply is_ascii_digits. Qed.

Lemma is_ascii_str_int (n : Z) : is_ascii (PyStr.str_int n) = true.
Proof.
  unfold PyStr.str_int. destruct (n <? 0); [|apply is_ascii_str_nonneg].
  cbn [is_ascii]. now rewrite is_ascii_str_nonneg.
Qed.

Lemma is_ascii_hex_fixed (k : nat) : forall n, is_ascii (PyStr.hex_fixed k n) = true.
Proof.
  induction k as [|k IH]; intros n; cbn [PyStr.hex_fixed]; [reflexivity|].
  rewrite is_ascii_app, IH. unfold PyStr.hex_digit.
  pose proof (Z.mod_pos_bound n 16).
  destruct (n mod 16 <? 10); now rewrite is_ascii_chr by lia.
Qed.

Lemma is_ascii_take (n : nat) : forall s, is_ascii s = true -> is_ascii (PyStr.take n s) = true.
Proof.
  induction n as [|n IH]; intros [|c s]; cbn; try reflexivity.
  intros H. apply andb_true_iff in H as [-> H]. now apply IH.
Qed.

Lemma is_ascii_drop (n : nat) : forall s, is_ascii s = true -> is_ascii (PyStr.drop n s) = true.
Proof.
  induction n as [|n IH]; intros [|c s]; cbn; try reflexivity; try tauto.
  intros H. apply andb_true_iff in H as [_ H]. now apply IH.
Qed.

Lemma is_ascii_zeros (n : Z) : is_ascii (PyFloat.zeros n) = true.
Proof.
  unfold PyFloat.zeros. induction (repeat tt (Z.to_nat n)) as [|x l IH];
    [reflexivity|exact IH].
Qed.

Lemma is_ascii_exp_suffix (ex : Z) : is_ascii (PyFloat.exp_suffix ex) = true.
Proof.
  unfold PyFloat.exp_suffix. rewrite !is_ascii_app, is_ascii_str_nonneg.
  now destruct (ex <? 0), (Z.abs ex <? 10).
Qed.

Lemma is_ascii_render (ds : string) (p : Z) :
  is_ascii ds = true -> is_ascii (PyFloat.render ds p) = true.
Proof.
  intros H. unfold PyFloat.render.
  destruct ((p <=? -4) || (16 <? p)).
  - rewrite !is_ascii_app, is_ascii_take, is_ascii_exp_suffix by exact H.
    destruct (Z.of_nat (String.length ds) =? 1); [reflexivity|].
    rewrite andb_true_r. exact (is_ascii_drop 1 ds H).
  - destruct (p <=? 0).
    + change (is_ascii (PyFloat.zeros (- p) ++ ds) = true).
      now rewrite is_ascii_app, is_ascii_zeros, H.
    + destruct (Z.of_nat (String.length ds) <=? p).
      * change (is_ascii (ds ++ PyFloat.zeros (p - Z.of_nat (String.length ds)) ++ ".0")
                = true).
        now rewrite !is_ascii_app, is_ascii_zeros, H.
      * rewrite !is_ascii_app, is_ascii_take by exact H.
        exact (is_ascii_drop (Z.to_nat p) ds H).
Qed.

Lemma is_ascii_float_repr (x : PyFloat.float) : is_ascii (PyFloat.repr x) = true.
Proof.
  destruct x as [s|s| |s m e]; try (destruct s; reflexivity); [reflexivity|].
  unfold PyFloat.repr, PyFloat.shortest.
  destruct (PyFloat.as_fraction m e) as [a b].
  destruct (PyFloat.shortest_from 17 1 (S754_finite false m e) a b (PyFloat.decpt a b))
    as [c nd].
  destruct (c =? 10 ^ nd); rewrite is_ascii_app, is_ascii_render;
    try apply is_ascii_str_nonneg; try reflexivity; now destruct s.
Qed.

Lemma is_ascii_escape (f : ascii -> string) (s : string) :
  (forall c, is_ascii (f c) = true) -> is_ascii (Py.escape_with f s) = true.
Proof.
  intros H. induction s as [|c s IH]; [reflexivity|].
  cbn [Py.escape_with]. now rewrite is_ascii_app, H, IH.
Qed.

Lemma is_ascii_json_char (c : ascii) : is_ascii (Py.json_char c) = true.
Proof. destruct c as [[] [] [] [] [] [] [] []]; vm_compute; reflexivity. Qed.

Lemma is_ascii_json_str (s : string) : is_ascii (Py.json_str s) = true.
Proof.
  unfold Py.json_str. rewrite is_ascii_chr by lia.
  rewrite is_ascii_app, is_ascii_escape by apply is_ascii_json_char.
  now rewrite is_ascii_chr by lia.
Qed.

Lemma is_ascii_join (sep : string) (l : list string) :
  is_ascii sep = true -> Forall (fun x => is_ascii x = true) l ->
  is_ascii (Py.join sep l) = true.
Proof.
  intros Hsep Hl. destruct Hl as [|x l Hx Hl]; [reflexivity|].
  unfold Py.join. rewrite fold_join, is_ascii_app, Hx.
  induction Hl as [|y l Hy _ IH]; [reflexivity|].
  cbn [fold_right]. now rewrite !is_ascii_app, Hsep, Hy, IH.
Qed.

End Ascii.

Section PyvalInduction.

Variable P : pyval -> Prop.
Hypothesis HNone : P PNone.
Hypothesis HBool : forall b, P (PBool b).
Hypothesis HInt : forall n, P (PInt n).
Hypothesis HFloat : forall x, P (PFloat x).
Hypothesis HStr : forall s, P (PStr s).
Hypothesis HList : forall l, Forall P l -> P (PList l).
Hypothesis HDict : forall kvs, Forall (fun kv => P (snd kv)) kvs -> P (PDict kvs).

(** Induction over values, through lists and objects. *)
Lemma pyval_induction (v : pyval) : P v.
Proof.
  revert v.
  exact (fix go (v : pyval) : P v :=
           match v with
           | PNone => HNone
           | PBool b => HBool b
           | PInt n => HInt n
           | PFloat x => HFloat x
           | PStr s => HStr s
           | PList l =>
               HList l
                 ((fix all (l : list pyval) : Forall P l :=
                     match l with
                     | [] => Forall_nil P
                     | x :: r => Forall_cons x (go x) (all r)
                     end) l)
           | PDict kvs =>
               HDict kvs
                 ((fix all (kvs : list (string * pyval))
                     : Forall (fun kv => P (snd kv)) kvs :=
                     match kvs with
                     | [] => Forall_nil _
                     | (k, x) :: r =>
                         Forall_cons (P := fun kv => P (snd kv)) (k, x) (go x) (all r)
                     end) kvs)
           end).
Qed.

End PyvalInduction.

(** [json.dumps] with [ensure_ascii] writes ASCII only. *)
Lemma is_ascii_json_dumps (v : pyval) : is_ascii (Py.json_dumps v) = true.
Proof.
  induction v using pyval_induction.
  - reflexivity.
  - now destruct b.
  - apply is_ascii_str_int.
  - destruct x as [s|s| |s m e]; try (destruct s; reflexivity); try reflexivity.
    apply (is_ascii_float_repr (S754_finite s m e)).
  - apply is_ascii_json_str.
  - change (Py.json_dumps (PList l))
      with (String.append "[" (String.append (Py.join ", " (map Py.json_dumps l)) "]")).
    cbn [String.append is_ascii]. rewrite is_ascii_app, is_ascii_join; try reflexivity.
    now apply Forall_map.
  - rewrite json_dumps_dict.
    cbn [String.append is_ascii]. rewrite is_ascii_app, is_ascii_join; try reflexivity.
    apply Forall_map. eapply Forall_impl; [|exact H].
    intros [k x] Hx. cbn [fst snd] in *.
    rewrite is_ascii_app, is_ascii_json_str. exact Hx.
Qed.

Section NonAscii.

Lemma lower_char_ascii (c : ascii) :
  (PyStr.code (PyStr.lower_char c) <? 128) = (PyStr.code c <? 128).
Proof. destruct c as [[] [] [] [] [] [] [] []]; vm_compute; reflexivity. Qed.

Lemma is_ascii_lower (s : string) : is_ascii (PyStr.lower s) = is_ascii s.
Proof.
  induction s as [|c s IH]; [reflexivity|].
  cbn [PyStr.lower is_ascii]. now rewrite lower_char_ascii, IH.
Qed.

Lemma contains_ascii (q s : string) :
  PyStr.contains q s = true -> is_ascii s = true -> is_ascii q = true.
Proof.
  intros H. apply contains_iff in H as (pre & post & ->).
  rewrite !is_ascii_app. intros Hs.
  apply andb_true_iff in Hs as [_ Hs]. now apply andb_true_iff in Hs as [Hs _].
Qed.

Lemma filter_none {A} (f : A -> bool) (l : list A) :
  (forall x, f x = false) -> filter f l = [].
Proof.
  intros H. induction l as [|x l IH]; [reflexivity|]. cbn. now rewrite H.
Qed.

End NonAscii.

(** X13. In [grace-cli.py] a query that holds a character outside
    ASCII (a code point from 128 to 255, an accented letter say) never
    finds anything: [json.dumps] escapes such characters in the
    serialized payload, which is searched as it stands.  The search of
    the other file, over [str(data)], does find them. *)
Theorem non_ascii_query_finds_nothing (chain : list Block) (query : string) :
  is_ascii query = false ->
  GraceCli.query_knowledge chain query = [].
Proof.
  intros Hq. unfold GraceCli.query_knowledge. rewrite results_loop. cbn [app].
  rewrite filter_none; [reflexivity|]. intros b.
  destruct (PyStr.contains (PyStr.lower query)
              (PyStr.lower (Py.json_dumps (data b)))) eqn:E; [|reflexivity].
  apply contains_ascii in E.
  - rewrite is_ascii_lower in E. congruence.
  - rewrite is_ascii_lower. apply is_ascii_json_dumps.
Qed.

(** A record whose content ends in e-acute (code point 233), queried
    for that letter in both files. *)
Lemma non_ascii_query_finds_nothing_witness :
  let e_acute := String (PyStr.chr 233) EmptyString in
  let payload := PDict [("content", PStr ("caf" ++ e_acute))] in
  let chain := [create_genesis_block "2024-01-01T00:00:00";
                Block_init (PInt 1) (PStr "2024-01-02T00:00:00") payload (PStr "0")] in
  GraceCli.query_knowledge chain e_acute = [] /\
  Integrated.query_knowledge chain e_acute = [payload].
Proof.
  cbv zeta. split.
  - apply non_ascii_query_finds_nothing. reflexivity.
  - vm_compute. reflexivity.
Defined.

(* ================================================================= *)
(** * Properties of the evaluation criteria and the typed responses *)

Section Criteria.

Import Evaluation.

Lemma lookup_in (name : string) (c : criteria) :
  (exists v, lookup name c = Some v) <-> In name (map fst c).
Proof.
  induction c as [|[k v] c IH]; cbn [lookup map fst In].
  - split; [intros [v H]; discriminate|intros []].
  - destruct (String.eqb_spec name k) as [->|Hne].
    + split; [now left|intros _; now exists v].
    + rewrite IH. split; [now right|]. intros [H|H]; [congruence|exact H].
Qed.

Lemma assign_keys (name : string) (v : criterion) (c : criteria) :
  map fst (assign name v c) = map fst c.
Proof.
  induction c as [|[k old] c IH]; [reflexivity|]. cbn [assign].
  destruct (String.eqb name k); cbn [map fst]; [reflexivity|now rewrite IH].
Qed.

Lemma lookup_assign_same (name : string) (v : criterion) (c : criteria) :
  In name (map fst c) -> lookup name (assign name v c) = Some v.
Proof.
  induction c as [|[k old] c IH]; [intros []|]. cbn [assign map fst In].
  destruct (String.eqb_spec name k) as [->|Hne].
  - intros _. cbn [lookup]. now rewrite String.eqb_refl.
  - intros [H|H]; [congruence|]. cbn [lookup].
    destruct (String.eqb_spec name k); [contradiction|now apply IH].
Qed.

Lemma lookup_assign_other (name other : string) (v : criterion) (c : criteria) :
  other <> name -> lookup other (assign name v c) = lookup other c.
Proof.
  intros Hne. induction c as [|[k old] c IH]; [reflexivity|]. cbn [assign].
  destruct (String.eqb_spec name k) as [->|Hk]; cbn [lookup].
  - destruct (String.eqb_spec other k); [contradiction|reflexivity].
  - now rewrite IH.
Qed.

(** A run of updates keeps the keys, and fails exactly at the first
    name that is not one of them. *)
Lemma update_all_keys (updates : list (string * string * PyFloat.float * bool)) :
  forall c : criteria,
    (forall c', update_all c updates = inr c' -> map fst c' = map fst c) /\
    ((exists c', update_all c updates = inr c') <->
     Forall (fun u => In (fst (fst (fst u))) (map fst c)) updates) /\
    (forall e, update_all c updates = inl e ->
               exists name, e = InvalidCriterion name /\ ~ In name (map fst c)).
Proof.
  induction updates as [|[[[name why] conf] flag] rest IH]; intros c;
    cbn [update_all].
  - split; [now intros c' [= <-]|]. split; [|discriminate].
    split; [constructor|intros _; now exists c].
  - unfold update_criterion.
    destruct (lookup name c) as [old|] eqn:El.
    + assert (Hin : In name (map fst c)) by (apply lookup_in; eauto).
      destruct (IH (assign name (mkCriterion why conf flag) c)) as (A & B & C).
      rewrite assign_keys in A, B, C.
      split; [exact A|]. split; [|exact C].
      rewrite B. split.
      * intros H. now constructor.
      * intros H. now inversion H.
    + assert (Hnot : ~ In name (map fst c)).
      { intros H. apply lookup_in in H as [v H]. congruence. }
      split; [discriminate|]. split.
      * split; [intros [c' H]; discriminate|].
        intros H. inversion H; subst. contradiction.
      * intros e [= <-]. now exists name.
Qed.

End Criteria.

(** X14. The criteria of an evaluation always carry the four names
    they were created with, in that order: a run of
    [update_criterion] calls succeeds exactly when every name is one of
    the four, fails with [ValueError] on a name that is not, and never
    adds, drops or reorders an entry.  So
    [calculate_overall_confidence] never divides by zero: it returns
    the sum of the four confidences divided by 4. *)
Theorem criteria_names_are_fixed
        (updates : list (string * string * PyFloat.float * bool)) :
  let names := ["Grammatically Complete"; "Logically Consistent";
                "AI Inquiry"; "Content Language"] in
  ((exists c, Evaluation.update_all Evaluation.EvaluationCriteria_init updates = inr c)
   <-> Forall (fun u => In (fst (fst (fst u))) names) updates) /\
  (forall e,
      Evaluation.update_all Evaluation.EvaluationCriteria_init updates = inl e ->
      exists name, e = Evaluation.InvalidCriterion name /\ ~ In name names) /\
  (forall c,
      Evaluation.update_all Evaluation.EvaluationCriteria_init updates = inr c ->
      map fst c = names /\
      Evaluation.calculate_overall_confidence c
      = inr (PyFloat.fdiv (Evaluation.sum_confidence c) (PyFloat.of_int 4))).
Proof.
  cbv zeta.
  destruct (update_all_keys updates Evaluation.EvaluationCriteria_init) as (A & B & C).
  split; [exact B|]. split; [exact C|].
  intros c Hc. specialize (A c Hc). split; [exact A|].
  destruct c as [|e1 [|e2 [|e3 [|e4 [|e5 c]]]]]; try discriminate A.
  reflexivity.
Qed.

(** X15. [update_criterion] on a name the criteria hold replaces that
    entry alone: looking the name up afterwards gives the new reason,
    confidence and flag, every other name keeps its entry and the names
    keep their order; on any other name it raises [ValueError] (and
    only then). *)
Theorem update_then_lookup (self : Evaluation.criteria) (name reason : string)
        (confidence : PyFloat.float) (flag : bool) :
  (In name (map fst self) ->
   exists self',
     Evaluation.update_criterion self name reason confidence flag = inr self' /\
     Evaluation.lookup name self'
     = Some (Evaluation.mkCriterion reason confidence flag) /\
     (forall other, other <> name ->
                    Evaluation.lookup other self' = Evaluation.lookup other self) /\
     map fst self' = map fst self) /\
  (~ In name (map fst self) <->
   Evaluation.update_criterion self name reason confidence flag
   = inl (Evaluation.InvalidCriterion name)).
Proof.
  unfold Evaluation.update_criterion. split.
  - intros Hin. destruct (proj2 (lookup_in name self) Hin) as [old ->].
    eexists. split; [reflexivity|]. split; [now apply lookup_assign_same|].
    split; [intros other Ho; now apply lookup_assign_other|apply assign_keys].
  - destruct (Evaluation.lookup name self) as [old|] eqn:El.
    + split; [|discriminate]. intros H. exfalso. apply H, lookup_in. eauto.
    + split; [reflexivity|]. intros _ H. apply lookup_in in H as [v H]. congruence.
Qed.

(** The evaluation of the file's own example: two criteria updated. *)
Lemma update_then_lookup_witness :
  exists self',
    Evaluation.update_criterion Evaluation.EvaluationCriteria_init
      "AI Inquiry" "asked by a person" (PyFloat.lit 9 1) true = inr self' /\
    Evaluation.lookup "AI Inquiry" self'
    = Some (Evaluation.mkCriterion "asked by a person" (PyFloat.lit 9 1) true).
Proof.
  destruct (proj1 (update_then_lookup Evaluation.EvaluationCriteria_init
                     "AI Inquiry" "asked by a person" (PyFloat.lit 9 1) true))
    as (self' & H1 & H2 & _); [cbn; tauto|].
  exists self'. split; [exact H1|exact H2].
Defined.

(** X16. [add_nlp_response] of the integrated file, given a chain that
    is not empty and a response of type Summary, Translation or
    Sentiment whose criteria came from [update_criterion] calls, never
    raises and appends one record holding the type, the content, the
    criteria and their mean; that record is returned by
    [query_knowledge] for the name of its type in any letter case. *)
Theorem typed_response_is_found
        (chain : list Block) (now : string) (response : Evaluation.NLPResponse)
        (updates : list (string * string * PyFloat.float * bool)) :
  chain <> [] ->
  Evaluation.update_all Evaluation.EvaluationCriteria_init updates
  = inr (Evaluation.evaluation response) ->
  In (Evaluation.response_type response) ["Summary"; "Translation"; "Sentiment"] ->
  exists b,
    Evaluation.add_nlp_response chain now response = inr (chain ++ [b])%list /\
    data b
    = PDict [("response_type", PStr (Evaluation.response_type response));
             ("content", Evaluation.content response);
             ("evaluation", Evaluation.criteria_to_py (Evaluation.evaluation response));
             ("overall_confidence",
              PFloat (PyFloat.fdiv
                        (Evaluation.sum_confidence (Evaluation.evaluation response))
                        (PyFloat.of_int 4)))] /\
    forall query,
      PyStr.lower query = PyStr.lower (Evaluation.response_type response) ->
      In (data b) (Integrated.query_knowledge (chain ++ [b]) query).
Proof.
  intros Hne Hev Hty.
  destruct (update_all_keys updates Evaluation.EvaluationCriteria_init) as (A & _ & _).
  specialize (A _ Hev).
  assert (Hcalc : Evaluation.calculate_overall_confidence (Evaluation.evaluation response)
                  = inr (PyFloat.fdiv
                           (Evaluation.sum_confidence (Evaluation.evaluation response))
                           (PyFloat.of_int 4))).
  { destruct (Evaluation.evaluation response)
      as [|e1 [|e2 [|e3 [|e4 [|e5 c]]]]]; try discriminate A. reflexivity. }
  unfold Evaluation.add_nlp_response, Evaluation.payload_of. rewrite Hcalc.
  set (payload := PDict _). unfold Integrated.add_block.
  destruct (append_block_nonempty chain now payload Hne) as (latest & _ & Happ).
  rewrite Happ. eexists. split; [reflexivity|]. split; [reflexivity|].
  intros query Hq. unfold Integrated.query_knowledge. rewrite results_loop. cbn [app].
  apply appended_is_found; [exact Hne|]. cbn [data Block_init]. rewrite Hq.
  change (Py.str payload) with (Py.repr payload).
  eapply contains_trans;
    [|apply contains_lower,
        (repr_entry "response_type" (PStr (Evaluation.response_type response)));
      cbn; tauto].
  cbn in Hty. destruct Hty as [<-|[<-|[<-|[]]]]; vm_compute; reflexivity.
Qed.

(** The summary of the file's own example, found by ["summary"]. *)
Lemma typed_response_is_found_witness :
  exists b,
    Evaluation.add_nlp_response [create_genesis_block "2024-01-01T00:00:00"]
      "2024-01-02T00:00:00"
      (Evaluation.SummaryResponse "This is a summary of the text."
         (Some ["Key point 1"; "Key point 2"])
         [("Grammatically Complete",
           Evaluation.mkCriterion "Well-formed sentences" (PyFloat.lit 95 2) true);
          ("Logically Consistent",
           Evaluation.mkCriterion "Ideas flow coherently" (PyFloat.lit 9 1) true);
          ("AI Inquiry", Evaluation.blank);
          ("Content Language", Evaluation.blank)])
    = inr ([create_genesis_block "2024-01-01T00:00:00"] ++ [b])%list /\
    In (data b)
       (Integrated.query_knowledge
          ([create_genesis_block "2024-01-01T00:00:00"] ++ [b]) "summary").
Proof.
  destruct (typed_response_is_found
              [create_genesis_block "2024-01-01T00:00:00"] "2024-01-02T00:00:00"
              (Evaluation.SummaryResponse "This is a summary of the text."
                 (Some ["Key point 1"; "Key point 2"])
                 [("Grammatically Complete",
                   Evaluation.mkCriterion "Well-formed sentences" (PyFloat.lit 95 2) true);
                  ("Logically Consistent",
                   Evaluation.mkCriterion "Ideas flow coherently" (PyFloat.lit 9 1) true);
                  ("AI Inquiry", Evaluation.blank);
                  ("Content Language", Evaluation.blank)])
              [("Grammatically Complete", "Well-formed sentences", PyFloat.lit 95 2, true);
               ("Logically Consistent", "Ideas flow coherently", PyFloat.lit 9 1, true)])
    as (b & H1 & _ & H3);
    [discriminate|reflexivity|cbn; tauto|].
  exists b. split; [exact H1|]. apply H3. reflexivity.
Defined.

(* ================================================================= *)
(** * Properties of the session loop *)

Section Loop.

(** A turn whose reply does not hold [EXIT] goes round the loop: one
    record more, two lines printed. *)
Lemma main_loop_step (chain : list Block) (st : GraceCli.storage)
      (context reply now : string) (out : list string) :
  chain <> [] ->
  PyStr.contains "EXIT" reply = false ->
  exists b context' out',
    (forall rest,
        Session.main_loop (chain, st) context ((reply, now) :: rest) out
        = Session.main_loop ((chain ++ [b])%list, GraceCli.save_chain (chain ++ [b]))
            context' rest out') /\
    List.length out' = (List.length out + 2)%nat.
Proof.
  intros Hne Hexit.
  destruct (process_not_exit chain st now reply context Hexit Hne)
    as (latest & r & p & c & _ & _ & Hrun).
  cbv zeta in Hrun. do 3 eexists. split.
  - intros rest. cbn [Session.main_loop]. rewrite Hrun.
    cbn [String.append String.eqb Ascii.eqb Bool.eqb]. reflexivity.
  - rewrite !length_app. cbn. lia.
Qed.

(** The loop on turns without [EXIT], then on what follows them. *)
Lemma main_loop_prefix (pre : list (string * string)) :
  forall chain st context out,
    chain <> [] ->
    Forall (fun t => PyStr.contains "EXIT" (fst t) = false) pre ->
    exists ext st' context' out',
      (forall rest,
          Session.main_loop (chain, st) context (pre ++ rest) out
          = Session.main_loop ((chain ++ ext)%list, st') context' rest out') /\
      List.length ext = List.length pre /\
      List.length out' = (List.length out + 2 * List.length pre)%nat.
Proof.
  induction pre as [|[reply now] pre IH]; intros chain st context out Hne Hpre.
  - exists [], st, context, out. rewrite app_nil_r. cbn.
    split; [reflexivity|]. split; [reflexivity|lia].
  - inversion Hpre as [|? ? Hexit Hpre']; subst. cbn [fst] in Hexit.
    destruct (main_loop_step chain st context reply now out Hne Hexit)
      as (b & context1 & out1 & Hstep & Hout1).
    destruct (IH (chain ++ [b])%list (GraceCli.save_chain (chain ++ [b]))
                 context1 out1) as (ext & st' & context' & out' & Hrun & Hlen & Hout);
      [destruct chain; discriminate|exact Hpre'|].
    exists (b :: ext), st', context', out'. split; [|split].
    + intros rest. cbn [app]. rewrite Hstep, Hrun. rewrite <- app_assoc. reflexivity.
    + cbn [List.length]. now rewrite Hlen.
    + cbn [List.length]. lia.
Qed.

(** The turn whose reply holds [EXIT] ends the loop. *)
Lemma main_loop_exit (w : GraceCli.world) (context reply now : string)
      (post : list (string * string)) (out : list string) :
  PyStr.contains "EXIT" reply = true ->
  Session.main_loop w context ((reply, now) :: post) out
  = Session.mkOutcome Session.Exited w context
      (out ++ [("Grace Hopper AI: " ++ reply ++ GraceCli.newline)%string;
               ("System: exit" ++ GraceCli.newline)%string;
               "Exiting the program. Fair winds and following seas!"])%list.
Proof.
  intros Hexit. cbn [Session.main_loop]. unfold GraceCli.process_grace_response.
  rewrite Hexit. cbn [String.eqb Ascii.eqb Bool.eqb].
  now rewrite <- !app_assoc.
Qed.

(** Either no reply holds [EXIT], or there is a first one that does. *)
Lemma first_exit_split (turns : list (string * string)) :
  Forall (fun t => PyStr.contains "EXIT" (fst t) = false) turns \/
  exists pre reply now post,
    turns = (pre ++ (reply, now) :: post)%list /\
    Forall (fun t => PyStr.contains "EXIT" (fst t) = false) pre /\
    PyStr.contains "EXIT" reply = true.
Proof.
  induction turns as [|[reply now] turns IH]; [left; constructor|].
  destruct (PyStr.contains "EXIT" reply) eqn:E.
  - right. exists [], reply, now, turns. repeat split; [constructor|exact E].
  - destruct IH as [IH|(pre & r & n & post & -> & Hpre & Hr)].
    + left. now constructor.
    + right. exists ((reply, now) :: pre), r, n, post.
      repeat split; [now constructor|exact Hr].
Qed.

End Loop.

(** X17. The loop of [main], started on a ledger that is not empty,
    never ends on an exception of [process_grace_response].  While the
    replies do not hold [EXIT] each turn appends one record and prints
    two lines, and the loop ends only when [input] finds no more
    lines.  At the first reply that holds [EXIT] it stops: nothing is
    appended for that reply, the farewell is the last thing printed and
    the turns after it are never read. *)
Theorem session_stops_at_first_exit
        (chain : list Block) (st : GraceCli.storage) (turns : list (string * string)) :
  chain <> [] ->
  (Forall (fun t => PyStr.contains "EXIT" (fst t) = false) turns ->
   exists ext st',
     Session.how (Session.main (chain, st) turns) = Session.OutOfInput /\
     Session.ledger (Session.main (chain, st) turns) = ((chain ++ ext)%list, st') /\
     List.length ext = List.length turns /\
     List.length (Session.printed (Session.main (chain, st) turns))
     = (List.length Session.banner + 2 * List.length turns)%nat) /\
  (forall pre reply now post,
      turns = (pre ++ (reply, now) :: post)%list ->
      Forall (fun t => PyStr.contains "EXIT" (fst t) = false) pre ->
      PyStr.contains "EXIT" reply = true ->
      exists ext st',
        Session.how (Session.main (chain, st) turns) = Session.Exited /\
        Session.ledger (Session.main (chain, st) turns) = ((chain ++ ext)%list, st') /\
        List.length ext = List.length pre /\
        last (Session.printed (Session.main (chain, st) turns)) EmptyString
        = "Exiting the program. Fair winds and following seas!" /\
        Session.main (chain, st) turns
        = Session.main (chain, st) (pre ++ [(reply, now)])) /\
  (forall e, Session.how (Session.main (chain, st) turns) <> Session.Crashed e).
Proof.
  intros Hne. unfold Session.main.
  assert (Hno : Forall (fun t => PyStr.contains "EXIT" (fst t) = false) turns ->
                exists ext st' context' out',
                  Session.main_loop (chain, st) EmptyString turns Session.banner
                  = Session.mkOutcome Session.OutOfInput ((chain ++ ext)%list, st')
                      context' out' /\
                  List.length ext = List.length turns /\
                  List.length out'
                  = (List.length Session.banner + 2 * List.length turns)%nat).
  { intros Hall.
    destruct (main_loop_prefix turns chain st EmptyString Session.banner Hne Hall)
      as (ext & st' & context' & out' & Hrun & Hlen & Hout).
    specialize (Hrun []). rewrite app_nil_r in Hrun.
    exists ext, st', context', out'. now rewrite Hrun. }
  assert (Hyes : forall pre reply now post,
             turns = (pre ++ (reply, now) :: post)%list ->
             Forall (fun t => PyStr.contains "EXIT" (fst t) = false) pre ->
             PyStr.contains "EXIT" reply = true ->
             exists ext st' context' out',
               Session.main_loop (chain, st) EmptyString turns Session.banner
               = Session.mkOutcome Session.Exited ((chain ++ ext)%list, st') context'
                   (out' ++ [("Grace Hopper AI: " ++ reply ++ GraceCli.newline)%string;
                             ("System: exit" ++ GraceCli.newline)%string;
                             "Exiting the program. Fair winds and following seas!"])%list /\
               List.length ext = List.length pre /\
               Session.main_loop (chain, st) EmptyString turns Session.banner
               = Session.main_loop (chain, st) EmptyString (pre ++ [(reply, now)])
                   Session.banner).
  { intros pre reply now post -> Hpre Hexit.
    destruct (main_loop_prefix pre chain st EmptyString Session.banner Hne Hpre)
      as (ext & st' & context' & out' & Hrun & Hlen & _).
    exists ext, st', context', out'.
    rewrite !Hrun, !(main_loop_exit _ _ reply now _ _ Hexit). now repeat split. }
  split; [|split].
  - intros Hall. destruct (Hno Hall) as (ext & st' & context' & out' & -> & Hlen & Hout).
    exists ext, st'. cbn [Session.how Session.ledger Session.printed].
    repeat split; assumption.
  - intros pre reply now post Ht Hpre Hexit.
    destruct (Hyes pre reply now post Ht Hpre Hexit)
      as (ext & st' & context' & out' & Hrun & Hlen & Hsame).
    exists ext, st'. rewrite <- Hsame, Hrun.
    cbn [Session.how Session.ledger Session.printed].
    split; [reflexivity|]. split; [reflexivity|]. split; [exact Hlen|].
    split; [|reflexivity].
    change [("Grace Hopper AI: " ++ reply ++ GraceCli.newline)%string;
            ("System: exit" ++ GraceCli.newline)%string;
            "Exiting the program. Fair winds and following seas!"]
      with ([("Grace Hopper AI: " ++ reply ++ GraceCli.newline)%string;
             ("System: exit" ++ GraceCli.newline)%string]
              ++ ["Exiting the program. Fair winds and following seas!"])%list.
    rewrite app_assoc. apply last_last.
  - intros e.
    destruct (first_exit_split turns) as [Hall|(pre & reply & now & post & Ht & Hpre & Hexit)].
    + destruct (Hno Hall) as (ext & st' & context' & out' & -> & _). discriminate.
    + destruct (Hyes pre reply now post Ht Hpre Hexit)
        as (ext & st' & context' & out' & -> & _). discriminate.
Qed.

(** A session of three turns on a fresh ledger: the second says
    [EXIT]. *)
Lemma session_stops_at_first_exit_witness :
  exists ext st',
    Session.how
      (Session.main ([create_genesis_block "2024-01-01T00:00:00"], None)
         [("Aye aye.", "2024-01-02T00:00:00");
          ("Fair winds. EXIT", "2024-01-03T00:00:00");
          ("never read", "2024-01-04T00:00:00")]) = Session.Exited /\
    Session.ledger
      (Session.main ([create_genesis_block "2024-01-01T00:00:00"], None)
         [("Aye aye.", "2024-01-02T00:00:00");
          ("Fair winds. EXIT", "2024-01-03T00:00:00");
          ("never read", "2024-01-04T00:00:00")])
    = (([create_genesis_block "2024-01-01T00:00:00"] ++ ext)%list, st') /\
    List.length ext = 1%nat.
Proof.
  destruct (proj1 (proj2 (session_stops_at_first_exit
                     [create_genesis_block "2024-01-01T00:00:00"] None
                     [("Aye aye.", "2024-01-02T00:00:00");
                      ("Fair winds. EXIT", "2024-01-03T00:00:00");
                      ("never read", "2024-01-04T00:00:00")]
                     ltac:(discriminate)))
                  [("Aye aye.", "2024-01-02T00:00:00")]
                  "Fair winds. EXIT" "2024-01-03T00:00:00"
                  [("never read", "2024-01-04T00:00:00")]
                  eq_refl
                  ltac:(repeat constructor)
                  eq_refl)
    as (ext & st' & H1 & H2 & H3 & _).
  exists ext, st'. split; [exact H1|]. split; [exact H2|exact H3].
Defined.

(* ================================================================= *)
(** * How appending and querying compose *)

(** X18. Appending a record never changes what a query returned
    before: on a chain that is not empty, the results after the append
    are the results before it, followed by the new payload when it
    matches the query (in both files). *)
Theorem query_after_append (chain : list Block) (b : Block) (query : string) :
  chain <> [] ->
  GraceCli.query_knowledge (chain ++ [b]) query
  = (GraceCli.query_knowledge chain query
       ++ (if PyStr.contains (PyStr.lower query)
                             (PyStr.lower (Py.json_dumps (data b)))
           then [data b] else []))%list /\
  Integrated.query_knowledge (chain ++ [b]) query
  = (Integrated.query_knowledge chain query
       ++ (if PyStr.contains (PyStr.lower query) (PyStr.lower (Py.str (data b)))
           then [data b] else []))%list.
Proof.
  intros Hne. destruct chain as [|g rest]; [contradiction|].
  unfold GraceCli.query_knowledge, Integrated.query_knowledge.
  rewrite !results_loop. cbn [app tl].
  rewrite !filter_app, !map_app. cbn [filter].
  split.
  - now destruct (PyStr.contains (PyStr.lower query)
                    (PyStr.lower (Py.json_dumps (data b)))).
  - now destruct (PyStr.contains (PyStr.lower query) (PyStr.lower (Py.str (data b)))).
Qed.

(** The sample chain, one record more, queried for ["hello"]. *)
Lemma query_after_append_witness :
  GraceCli.query_knowledge
    (sample_chain ++ [Block_init (PInt 2) (PStr "2024-01-04T00:00:00")
                                 (PDict [("content", PStr "Hello again")]) (PStr "0")])
    "hello"
  = [PDict [("response_type", PStr "Conversation"); ("content", PStr "hello")];
     PDict [("content", PStr "Hello again")]].
Proof.
  rewrite (proj1 (query_after_append sample_chain
                    (Block_init (PInt 2) (PStr "2024-01-04T00:00:00")
                                (PDict [("content", PStr "Hello again")]) (PStr "0"))
                    "hello" ltac:(discriminate))).
  vm_compute. reflexivity.
Defined.

(* ================================================================= *)
(** * The range of the estimated scores *)

Section Rounding.

Lemma shr_1_nonneg (mrs : shr_record) : 0 <= shr_m mrs -> 0 <= shr_m (shr_1 mrs).
Proof.
  destruct mrs as [m r s]. destruct m as [|[p|p|]|[p|p|]]; cbn; lia.
Qed.

Lemma iter_shr_1_nonneg (p : positive) :
  forall mrs, 0 <= shr_m mrs -> 0 <= shr_m (iter_pos shr_1 p mrs).
Proof.
  induction p as [p IH|p IH|]; intros mrs H; cbn [iter_pos].
  - apply IH, IH, shr_1_nonneg, H.
  - apply IH, IH, H.
  - apply shr_1_nonneg, H.
Qed.

Lemma shr_nonneg (mrs : shr_record) (e n : Z) :
  0 <= shr_m mrs -> 0 <= shr_m (fst (shr mrs e n)).
Proof.
  intros H. destruct n; cbn [shr fst]; try exact H. now apply iter_shr_1_nonneg.
Qed.

Lemma shr_fexp_nonneg (m e : Z) (l : location) :
  0 <= m -> 0 <= shr_m (fst (shr_fexp PyFloat.prec PyFloat.emax m e l)).
Proof.
  intros H. unfold shr_fexp. apply shr_nonneg.
  destruct l as [|[]]; exact H.
Qed.

Lemma round_nearest_even_nonneg (m : Z) (l : location) :
  0 <= m -> 0 <= round_nearest_even m l.
Proof.
  intros H. destruct l as [|[]]; cbn; try lia. destruct (Z.even m); lia.
Qed.

(** Rounding a mantissa that is not negative gives no [nan] and no
    minus sign. *)
Lemma binary_round_aux_nonneg (m e : Z) (l : location) :
  0 <= m -> nonneg_float (binary_round_aux PyFloat.prec PyFloat.emax false m e l).
Proof.
  intros H. unfold binary_round_aux.
  pose proof (shr_fexp_nonneg m e l H) as H1.
  destruct (shr_fexp PyFloat.prec PyFloat.emax m e l) as [mrs' e'].
  cbn [fst] in H1.
  pose proof (shr_fexp_nonneg
                (round_nearest_even (shr_m mrs') (loc_of_shr_record mrs')) e' loc_Exact
                (round_nearest_even_nonneg _ _ H1)) as H2.
  destruct (shr_fexp PyFloat.prec PyFloat.emax
              (round_nearest_even (shr_m mrs') (loc_of_shr_record mrs')) e' loc_Exact)
    as [mrs'' e''].
  cbn [fst] in H2. destruct (shr_m mrs'') as [|q|q]; [exact I| |lia].
  destruct (e'' <=? PyFloat.emax - PyFloat.prec); exact I.
Qed.

Lemma of_ratio_nonneg (n d : Z) : nonneg_float (PyFloat.of_ratio n d).
Proof.
  unfold PyFloat.of_ratio. destruct (n <=? 0); [exact I|].
  unfold PyFloat.fdiv, SFdiv, SFdiv_core_binary.
  set (m1 := Z.pos (Z.to_pos n)). set (m2 := Z.pos (Z.to_pos d)).
  set (e' := Z.min _ _). set (m' := match 0 - 0 - e' with
                                    | 0 => m1 | Z.pos _ => Z.shiftl m1 (0 - 0 - e')
                                    | Z.neg _ => 0 end).
  assert (Hm' : 0 <= m').
  { unfold m'. destruct (0 - 0 - e'); [unfold m1; lia| |lia].
    apply Z.shiftl_nonneg. unfold m1. lia. }
  pose proof (Z.div_pos m' m2 Hm' ltac:(unfold m2; lia)) as Hq.
  unfold Z.div in Hq. destruct (Z.div_eucl m' m2) as [q r].
  cbn [xorb]. now apply binary_round_aux_nonneg.
Qed.

(** Among floats that are zero or positive, [b < a] failing means
    [a <= b]. *)
Lemma not_lt_le (a b : PyFloat.float) :
  nonneg_float a -> nonneg_float b -> SFltb b a = false -> SFleb a b = true.
Proof.
  unfold SFltb, SFleb.
  destruct a as [[]|[]| |[] ma ea]; destruct b as [[]|[]| |[] mb eb];
    cbn; try tauto; try discriminate; intros _ _.
  rewrite (Z.compare_antisym eb ea).
  destruct (Z.compare eb ea); cbn [CompOpp]; try discriminate; try reflexivity.
  pose proof (Pos.compare_cont_antisym mb ma Eq) as H. cbn [CompOpp] in H.
  change (Pos.compare_cont Eq ma mb) with (PosDef.Pos.compare_cont Eq ma mb) in H.
  change (Pos.compare_cont Eq mb ma) with (PosDef.Pos.compare_cont Eq mb ma) in H.
  rewrite <- H.
  destruct (PosDef.Pos.compare_cont Eq mb ma); cbn [CompOpp];
    try discriminate; reflexivity.
Qed.

(** What is at most 0.95 is at most 1. *)
Lemma le_cap_le_one (a : PyFloat.float) :
  nonneg_float a ->
  SFleb a (PyFloat.lit 95 2) = true -> SFleb a (PyFloat.of_int 1) = true.
Proof.
  remember (PyFloat.lit 95 2) as cap eqn:Hc. vm_compute in Hc. subst cap.
  remember (PyFloat.of_int 1) as one eqn:Ho. vm_compute in Ho. subst one.
  intros Hn. destruct a as [[]|[]| |[] m e]; try (exfalso; exact Hn).
  - intros _. reflexivity.
  - intros H. discriminate H.
  - unfold SFleb, SFcompare. cbv beta iota.
    destruct (Z.compare_spec e (-53)) as [->|Hlt|Hgt].
    + intros _. reflexivity.
    + intros _. destruct (Z.compare_spec e (-52)); first [reflexivity | lia].
    + intros H. discriminate H.
Qed.

Lemma zero_le_nonneg (a : PyFloat.float) :
  nonneg_float a -> SFleb (PyFloat.of_int 0) a = true.
Proof. destruct a as [[]|[]| |[] m e]; cbn; tauto. Qed.

End Rounding.

(** X19. The estimate of [calculate_confidence_scores] always lies in
    range, however long the text: the reliability is at least 0 and at
    most 0.95, and all three scores are between 0 and 1. *)
Theorem estimate_in_range (text : string) :
  let '(r, p, c) := GraceCli.calculate_confidence_scores text in
  SFleb (PyFloat.of_int 0) r = true /\
  SFleb r (PyFloat.lit 95 2) = true /\
  unit_score r = true /\ unit_score p = true /\ unit_score c = true.
Proof.
  unfold GraceCli.calculate_confidence_scores.
  set (a := PyFloat.int_truediv _ 1000).
  assert (Ha : nonneg_float a) by apply of_ratio_nonneg.
  assert (Hcap : nonneg_float (PyFloat.lit 95 2)) by apply of_ratio_nonneg.
  assert (Hr : SFleb (PyFloat.of_int 0) (PyFloat.min a (PyFloat.lit 95 2)) = true /\
               SFleb (PyFloat.min a (PyFloat.lit 95 2)) (PyFloat.lit 95 2) = true).
  { unfold PyFloat.min, PyFloat.flt.
    destruct (SFltb (PyFloat.lit 95 2) a) eqn:E.
    - split; vm_compute; reflexivity.
    - split; [now apply zero_le_nonneg|now apply not_lt_le]. }
  destruct Hr as [Hr0 Hr1].
  split; [exact Hr0|]. split; [exact Hr1|]. split; [|split].
  - unfold unit_score. rewrite Hr0. cbn [andb].
    apply le_cap_le_one; [|exact Hr1].
    unfold PyFloat.min, PyFloat.flt.
    now destruct (SFltb (PyFloat.lit 95 2) a).
  - vm_compute. reflexivity.
  - destruct (PyStr.contains "context" (PyStr.lower text)); vm_compute; reflexivity.
Qed.
